(** * WOfS validation notebooks: pixel classifier, point-month sampling and
      accuracy assessment

    A shallow embedding of [Notebooks/Processing_S2.ipynb] (the Sentinel-2
    point sampling notebook and the seasonal accuracy notebook that follows
    it in the same file).

    - numpy arrays are a dtype, a shape and an element function on indices;
      every array operation the code uses is elementwise, so it is written
      pointwise on the element function;
    - array elements are NaN, an infinity or a rational; the rounding of the
      working precision (float32 or float64) is a parameter [rnd] of the
      arithmetic, of the casts and of the thresholds, so that what is proved
      holds at either precision;
    - an xarray Dataset is a finite map from variable names to arrays (data
      variables and coordinate variables alike);
    - exceptions are values of [exn]; functions that can raise return
      [result];
    - [wofs_classify] assigns to [.values] of the bands it was given, so it
      returns the dataset it leaves behind next to its result;
    - [dc.load] is the data provider: its answer is an argument of
      [get_wofs_for_point], and the result dictionaries are finite maps
      threaded through it;
    - a pandas DataFrame is a list of row labels, a list of column labels and
      a cell function; [pd.crosstab], the label lookups and
      [sklearn.metrics.f1_score] follow the behaviour of those libraries;
    - the loop over the catalogue threads the two dictionaries through the
      calls; the pool of [_parallel_fun] is the set of interleavings of the
      stores of its tasks, each task keeping its program order. *)

From Stdlib Require Import ZArith QArith Lia Lqa Bool List Ascii.
From stdpp Require Import gmap strings pretty sorting.

Open Scope Z_scope.

(** ** Floating-point values *)

(** A value of a numeric array: IEEE not-a-number, the two infinities, or a
    finite number.  Signed zeros are not distinguished. *)
Inductive fl : Type :=
  | FNaN
  | FNegInf
  | FPosInf
  | FNum (q : Q).

Definition is_nan (a : fl) : bool :=
  match a with FNaN => true | _ => false end.

(** [a <= b], [a > b] and [a == b] as numpy evaluates them: every comparison
    with NaN is false. *)
Definition fle (a b : fl) : bool :=
  match a, b with
  | FNaN, _ | _, FNaN => false
  | FNegInf, _ => true
  | _, FPosInf => true
  | FNum x, FNum y => Qle_bool x y
  | _, _ => false
  end.

Definition fgt (a b : fl) : bool :=
  match a, b with
  | FNaN, _ | _, FNaN => false
  | _, FPosInf => false
  | FNegInf, _ => false
  | FPosInf, _ => true
  | FNum _, FNegInf => true
  | FNum x, FNum y => negb (Qle_bool x y)
  end.

Definition feq (a b : fl) : bool :=
  match a, b with
  | FNegInf, FNegInf | FPosInf, FPosInf => true
  | FNum x, FNum y => Qeq_bool x y
  | _, _ => false
  end.

Definition fneg (a : fl) : fl :=
  match a with
  | FNaN => FNaN
  | FNegInf => FPosInf
  | FPosInf => FNegInf
  | FNum x => FNum (- x)
  end.

(** Arithmetic.  [r] rounds an exact result to the precision of the array
    (float32 or float64).  The model covers operands whose rounded result
    is finite, as reflectances and their ratios are: an overflow of two
    finite operands to an infinity is not modelled. *)
Definition fadd (r : Q -> Q) (a b : fl) : fl :=
  match a, b with
  | FNaN, _ | _, FNaN => FNaN
  | FPosInf, FNegInf | FNegInf, FPosInf => FNaN
  | FPosInf, _ | _, FPosInf => FPosInf
  | FNegInf, _ | _, FNegInf => FNegInf
  | FNum x, FNum y => FNum (r (x + y)%Q)
  end.

Definition fsub (r : Q -> Q) (a b : fl) : fl := fadd r a (fneg b).

Definition fmul (r : Q -> Q) (a b : fl) : fl :=
  match a, b with
  | FNaN, _ | _, FNaN => FNaN
  | FNum x, FNum y => FNum (r (x * y)%Q)
  | FNum x, i | i, FNum x =>
      if Qeq_bool x 0 then FNaN
      else if Qle_bool 0 x then i else fneg i
  | FPosInf, i => i
  | FNegInf, i => fneg i
  end.

Definition fdiv (r : Q -> Q) (a b : fl) : fl :=
  match a, b with
  | FNaN, _ | _, FNaN => FNaN
  | FNum x, FNum y =>
      if Qeq_bool y 0 then
        if Qeq_bool x 0 then FNaN
        else if Qle_bool 0 x then FPosInf else FNegInf
      else FNum (r (x / y)%Q)
  | FNum _, _ => FNum 0
  | _, FNum y => if Qle_bool 0 y then a else fneg a
  | _, _ => FNaN
  end.

(** A float stored into a [uint8] array: truncated, then wrapped modulo 256;
    a non-finite value is stored as 0. *)
Definition as_uint8 (a : fl) : Z :=
  match a with
  | FNum q => (Z.quot (Qnum q) (Z.pos (Qden q))) mod 256
  | _ => 0
  end.

(** ** numpy arrays *)

Inductive dtype : Type := bool_ | uint8 | uint16 | int64 | float32 | float64.

#[global] Instance dtype_eq_dec : EqDecision dtype.
Proof. solve_decision. Defined.

Definition index : Type := list nat.

Record ndarray (A : Type) : Type := mk_ndarray {
  dtype_of : dtype;
  shape : list nat;
  item : index -> A
}.

Arguments mk_ndarray {A} _ _ _.
Arguments dtype_of {A} _.
Arguments shape {A} _.
Arguments item {A} _ _.

(** [i] addresses an element of an array of shape [sh]. *)
Fixpoint in_shape (sh : list nat) (i : index) : bool :=
  match sh, i with
  | [], [] => true
  | n :: sh', k :: i' => (k <? n)%nat && in_shape sh' i'
  | _, _ => false
  end.

(** [np.full(shape, v, dtype=dt)] *)
Definition full {A} (sh : list nat) (v : A) (dt : dtype) : ndarray A :=
  mk_ndarray dt sh (fun _ => v).

(** Boolean masks: [m1 & m2], [m1 | m2], [~m]. *)
Definition mand (m1 m2 : ndarray bool) : ndarray bool :=
  mk_ndarray bool_ (shape m1) (fun i => item m1 i && item m2 i).

Definition mor (m1 m2 : ndarray bool) : ndarray bool :=
  mk_ndarray bool_ (shape m1) (fun i => item m1 i || item m2 i).

Definition mnot (m : ndarray bool) : ndarray bool :=
  mk_ndarray bool_ (shape m) (fun i => negb (item m i)).

(** [a[m] = v] *)
Definition setitem {A} (a : ndarray A) (m : ndarray bool) (v : A) : ndarray A :=
  mk_ndarray (dtype_of a) (shape a) (fun i => if item m i then v else item a i).

(** [a == c] for a scalar [c] *)
Definition eq_scalar (a : ndarray fl) (c : Q) : ndarray bool :=
  mk_ndarray bool_ (shape a) (fun i => feq (item a i) (FNum c)).

(** [np.isin(a, cs)] *)
Definition isin (a : ndarray fl) (cs : list Q) : ndarray bool :=
  mk_ndarray bool_ (shape a)
    (fun i => existsb (fun c => feq (item a i) (FNum c)) cs).

Declare Scope np_scope.
Delimit Scope np_scope with np.
Notation "m1 &! m2" := (mand m1 m2) (at level 40, left associativity) : np_scope.
Notation "~! m" := (mnot m) (at level 35, right associativity) : np_scope.

(** ** Exceptions *)

Inductive exn : Type :=
  | NameError (name : string)
  | AttributeError (name : string)
  | KeyError (name : string)
  | IndexError
  | ValueError.

Definition result (A : Type) : Type := exn + A.

Definition raise {A} (e : exn) : result A := inl e.
Definition ret {A} (a : A) : result A := inr a.

Definition bind {A B} (c : result A) (k : A -> result B) : result B :=
  match c with
  | inl e => inl e
  | inr a => k a
  end.

Notation "x <- c ;; k" := (bind c (fun x => k))
  (at level 100, c at next level, right associativity).

(** ** The pixel classifier *)

Section Classifier.

(** Rounding to the precision of a dtype. *)
Variable rnd : dtype -> Q -> Q.

(** [a - b], [a + b], [a / b] on float arrays of one dtype and one shape,
    which is what [_run_regression] receives when the bands of the dataset
    share their dtype and their shape.  (On other shapes numpy broadcasts or
    raises ValueError, and it computes integer arrays modulo their width;
    neither is modelled, and the statements about what [wofs_classify]
    returns or raises once it has read the six bands assume bands of one
    shape.) *)
Definition arr_sub (a b : ndarray fl) : ndarray fl :=
  mk_ndarray (dtype_of a) (shape a)
    (fun i => fsub (rnd (dtype_of a)) (item a i) (item b i)).

Definition arr_add (a b : ndarray fl) : ndarray fl :=
  mk_ndarray (dtype_of a) (shape a)
    (fun i => fadd (rnd (dtype_of a)) (item a i) (item b i)).

Definition arr_div (a b : ndarray fl) : ndarray fl :=
  mk_ndarray (dtype_of a) (shape a)
    (fun i => fdiv (rnd (dtype_of a)) (item a i) (item b i)).

(** [a <= c] for a Python float [c]: the scalar is taken at the precision
    of the array. *)
Definition le_scalar (a : ndarray fl) (c : Q) : ndarray bool :=
  mk_ndarray bool_ (shape a)
    (fun i => fle (item a i) (FNum (rnd (dtype_of a) c))).

(** [a.astype(dt)] *)
Definition cast (dt : dtype) (v : fl) : fl :=
  match v with
  | FNum q => FNum (rnd dt q)
  | _ => v
  end.

Definition astype (dt : dtype) (a : ndarray fl) : ndarray fl :=
  mk_ndarray dt (shape a) (fun i => cast dt (item a i)).

Notation "a <=! c" := (le_scalar a c) (at level 70, no associativity).

Definition _band_ratio (a b : ndarray fl) : ndarray fl :=
  arr_div (arr_sub a b) (arr_add a b).

(** The masked stores [classified[mask] = value] of [_run_regression], in
    program order, from the three indices and the bands the tests read.
    [_tmp] and [_tmp2] are rebound where the code updates them in place. *)
Definition regression_stores
    (ndi_52 ndi_43 ndi_72 band1 band3 band7 : ndarray fl)
    : list (ndarray bool * Z) :=
  (* Left branch *)
  let r1 := ndi_52 <=! -0.01 in
  let r2 := band1 <=! 2083.5 in
  let s := [ (r1 &! ~! r2, 0) ]%np in                      (* Node 3 *)
  let r3 := band7 <=! 323.5 in
  let _tmp := (r1 &! r2)%np in
  let _tmp2 := (_tmp &! r3)%np in
  let _tmp := (_tmp &! ~! r3)%np in
  let r4 := ndi_43 <=! 0.61 in
  let s := (s ++ [ (_tmp2 &! r4, 1) ])%np in               (* Node 6 *)
  let s := (s ++ [ (_tmp2 &! ~! r4, 0) ])%np in            (* Node 7 *)
  let r5 := band1 <=! 1400.5 in
  let _tmp2 := (_tmp &! ~! r5)%np in
  let r6 := ndi_43 <=! -0.01 in
  let s := (s ++ [ (_tmp2 &! r6, 1) ])%np in               (* Node 10 *)
  let s := (s ++ [ (_tmp2 &! ~! r6, 0) ])%np in            (* Node 11 *)
  let _tmp := (_tmp &! r5)%np in
  let r7 := ndi_72 <=! -0.23 in
  let _tmp2 := (_tmp &! ~! r7)%np in
  let r8 := band1 <=! 379 in
  let s := (s ++ [ (_tmp2 &! r8, 1) ])%np in               (* Node 14 *)
  let s := (s ++ [ (_tmp2 &! ~! r8, 0) ])%np in            (* Node 15 *)
  let _tmp := (_tmp &! r7)%np in
  let r9 := ndi_43 <=! 0.22 in
  let s := (s ++ [ (_tmp &! r9, 1) ])%np in                (* Node 17 *)
  let _tmp := (_tmp &! ~! r9)%np in
  let r10 := band1 <=! 473 in
  let s := (s ++ [ (_tmp &! r10, 1) ])%np in               (* Node 19 *)
  let s := (s ++ [ (_tmp &! ~! r10, 0) ])%np in            (* Node 20 *)
  (* Right branch of regression tree *)
  let r1 := (~! r1)%np in
  let r11 := ndi_52 <=! 0.23 in
  let _tmp := (r1 &! r11)%np in
  let r12 := band1 <=! 334.5 in
  let _tmp2 := (_tmp &! ~! r12)%np in
  let s := s ++ [ (_tmp2, 0) ] in                          (* Node 23 *)
  let _tmp := (_tmp &! r12)%np in
  let r13 := ndi_43 <=! 0.54 in
  let _tmp2 := (_tmp &! ~! r13)%np in
  let s := s ++ [ (_tmp2, 0) ] in                          (* Node 25 *)
  let _tmp := (_tmp &! r13)%np in
  let r14 := ndi_52 <=! 0.12 in
  let _tmp2 := (_tmp &! r14)%np in
  let s := s ++ [ (_tmp2, 1) ] in                          (* Node 27 *)
  let _tmp := (_tmp &! ~! r14)%np in
  let r15 := band3 <=! 364.5 in
  let _tmp2 := (_tmp &! r15)%np in
  let r16 := band1 <=! 129.5 in
  let s := (s ++ [ (_tmp2 &! r16, 1) ])%np in              (* Node 31 *)
  let s := (s ++ [ (_tmp2 &! ~! r16, 0) ])%np in           (* Node 32 *)
  let _tmp := (_tmp &! ~! r15)%np in
  let r17 := band1 <=! 300.5 in
  let _tmp2 := (_tmp &! ~! r17)%np in
  let _tmp := (_tmp &! r17)%np in
  let s := s ++ [ (_tmp, 1) ] in                           (* Node 33 *)
  let s := s ++ [ (_tmp2, 0) ] in                          (* Node 34 *)
  let _tmp := (r1 &! ~! r11)%np in
  let r18 := ndi_52 <=! 0.34 in
  let s := (s ++ [ (_tmp &! ~! r18, 0) ])%np in            (* Node 36 *)
  let _tmp := (_tmp &! r18)%np in
  let r19 := band1 <=! 249.5 in
  let s := (s ++ [ (_tmp &! ~! r19, 0) ])%np in            (* Node 38 *)
  let _tmp := (_tmp &! r19)%np in
  let r20 := ndi_43 <=! 0.45 in
  let s := (s ++ [ (_tmp &! ~! r20, 0) ])%np in            (* Node 40 *)
  let _tmp := (_tmp &! r20)%np in
  let r21 := band3 <=! 364.5 in
  let s := (s ++ [ (_tmp &! ~! r21, 0) ])%np in            (* Node 42 *)
  let _tmp := (_tmp &! r21)%np in
  let r22 := band1 <=! 129.5 in
  let s := (s ++ [ (_tmp &! r22, 1) ])%np in               (* Node 44 *)
  let s := (s ++ [ (_tmp &! ~! r22, 0) ])%np in            (* Node 45 *)
  s.

(** [_run_regression]: the normalized ratio indices are computed, the
    array starts as [np.full(shape, no_data, dtype='uint8')] and receives
    the stores in order.  [shape] and [no_data] are the variables of the
    enclosing [wofs_classify]. *)
Definition _run_regression (shape : list nat) (no_data : fl)
    (band1 band2 band3 band4 band5 band7 : ndarray fl) : ndarray Z :=
  let ndi_52 := _band_ratio band5 band2 in
  let ndi_43 := _band_ratio band4 band3 in
  let ndi_72 := _band_ratio band7 band2 in
  let classified := full shape (as_uint8 no_data) uint8 in
  fold_left (fun classified '(mask, v) => setitem classified mask v)
    (regression_stores ndi_52 ndi_43 ndi_72 band1 band3 band7)
    classified.

(** ** Datasets *)

(** [dataset.name]: AttributeError when the variable is missing. *)
Definition getattr (ds : gmap string (ndarray fl)) (name : string)
    : result (ndarray fl) :=
  match ds !! name with
  | Some a => ret a
  | None => raise (AttributeError name)
  end.

(** [dataset[name]] for a data or coordinate variable: KeyError when the
    dataset has no variable of that name.  (xarray also answers the name of
    a dimension that has no coordinate variable, with a default index;
    dimensions are not modelled, and no statement rests on this KeyError
    for a coordinate name.) *)
Definition getitem (ds : gmap string (ndarray fl)) (name : string)
    : result (ndarray fl) :=
  match ds !! name with
  | Some a => ret a
  | None => raise (KeyError name)
  end.

(** The dataset [wofs_classify] returns: the data variable ['wofs'] and
    its coordinates. *)
Record WofsDataset : Type := mk_WofsDataset {
  wofs : ndarray fl;
  wofs_coords : list (string * ndarray fl)
}.

(** Names bound when [wofs_classify] runs: its parameters and locals, the
    imports and top-level definitions of the notebook, and the builtins
    the notebook uses. *)
Definition wofs_classify_locals : list string :=
  [ "dataset_in"; "clean_mask"; "x_coord"; "y_coord"; "time_coord";
    "no_data"; "mosaic"; "enforce_float64"; "_band_ratio";
    "_run_regression"; "blue"; "green"; "red"; "nir"; "swir1"; "swir2";
    "dtype"; "shape"; "classified"; "classified_clean"; "x_coords";
    "y_coords"; "time"; "coords"; "dims"; "time_coords"; "data_array";
    "dataset_out" ]%string.

Definition notebook_globals : list string :=
  [ "datacube"; "masking"; "geometry"; "sys"; "os"; "rasterio"; "xarray";
    "glob"; "np"; "pd"; "sn"; "gpd"; "plt"; "mp"; "scipy"; "warnings";
    "GeoSeries"; "GeoDataFrame"; "Point"; "confusion_matrix";
    "accuracy_score"; "plot_confusion_matrix"; "f1_score";
    "map_shapefile"; "display_map"; "rgb"; "xr_rasterize"; "wofs_fuser";
    "mostcommon_crs"; "load_ard"; "deepcopy"; "create_local_dask_cluster";
    "tqdm"; "path2csv"; "df"; "geometries"; "crs"; "ValPoints"; "path";
    "input_data"; "query"; "gc"; "xr"; "argparse"; "collections"; "gdal";
    "datetime"; "wofs_classify"; "get_wofs_for_point"; "_parallel_fun";
    "results_wet_test"; "results_clear_test"; "index"; "row"; "time";
    "wet"; "clear"; "wetdf"; "cleardf"; "df2"; "final_df"; "countA";
    "countB" ]%string.

Definition builtins_used : list string :=
  [ "str"; "int"; "len"; "zip"; "dict"; "print" ]%string.

(** Evaluating a name: NameError when nothing binds it. *)
Definition lookup_name (name : string) : result unit :=
  if bool_decide (name ∈ wofs_classify_locals ++ notebook_globals
                           ++ builtins_used)
  then ret tt
  else raise (NameError name).

(** [out[mask] = src[mask]] with a boolean index: the mask must agree with
    the leading dimensions of both arrays; an element is selected by the
    mask entry of its leading indices. *)
Definition copy_masked (out : ndarray fl) (mask : ndarray bool)
    (src : ndarray Z) : result (ndarray fl) :=
  if bool_decide (shape mask `prefix_of` shape src)
  then ret (mk_ndarray (dtype_of out) (shape out)
              (fun i => if item mask (take (length (shape mask)) i)
                        then FNum (inject_Z (item src i))
                        else item out i))
  else raise IndexError.

(** Length of a one-dimensional coordinate variable. *)
Definition coord_len (c : ndarray fl) : option nat :=
  match shape c with
  | [n] => Some n
  | _ => None
  end.

(** [xr.DataArray(data, coords=coords, dims=dims)]: one coordinate per
    dimension, each of the length of its dimension. *)
Definition DataArray (data : ndarray fl) (coords : list (ndarray fl))
    : result (ndarray fl) :=
  if bool_decide (map coord_len coords = map Some (shape data))
  then ret data
  else raise ValueError.

(** The six bands as [wofs_classify] names them. *)
Definition band_names : list string :=
  [ "B02"; "B03"; "B04"; "B08"; "B11"; "B12" ]%string.

(** [band.values = band.values.astype(dt)] for each of the six bands: the
    arrays held by the dataset are replaced. *)
Definition cast_bands (dt : dtype) (ds : gmap string (ndarray fl))
    : gmap string (ndarray fl) :=
  fold_left (fun d name => alter (astype dt) name d) band_names ds.

(** "Enforce float calculations - float64 if user specified, otherwise
    float32 will do": [dtype] is the dtype of the blue band. *)
Definition enforce_float (enforce_float64 : bool) (dtype : dtype)
    (ds : gmap string (ndarray fl)) : gmap string (ndarray fl) :=
  if enforce_float64 then
    if bool_decide (dtype ≠ float64) then cast_bands float64 ds else ds
  else
    if bool_decide (dtype = float64) then ds
    else if bool_decide (dtype ≠ float32) then cast_bands float32 ds
    else ds.

(** [wofs_classify].  The first component is the dataset the call leaves
    behind. *)
Definition wofs_classify (dataset_in : gmap string (ndarray fl))
    (clean_mask : option (ndarray bool))
    (x_coord y_coord time_coord : string) (no_data : fl)
    (mosaic enforce_float64 : bool)
    : gmap string (ndarray fl) * result WofsDataset :=
  let prologue :=
    clean_mask <-
      match clean_mask with
      | Some m => ret m
      | None =>
          (* create_default_clean_mask(dataset_in): the name is evaluated
             first; the docstring asks for a mask that keeps every pixel *)
          _ <- lookup_name "create_default_clean_mask" ;;
          blue <- getattr dataset_in "B02" ;;
          ret (full (shape blue) true bool_)
      end ;;
    blue <- getattr dataset_in "B02" ;;
    _ <- getattr dataset_in "B03" ;;
    _ <- getattr dataset_in "B04" ;;
    _ <- getattr dataset_in "B08" ;;
    _ <- getattr dataset_in "B11" ;;
    _ <- getattr dataset_in "B12" ;;
    ret (clean_mask, dtype_of blue) in
  match prologue with
  | inl e => (dataset_in, inl e)
  | inr (clean_mask, dtype) =>
      let dataset_in := enforce_float enforce_float64 dtype dataset_in in
      (dataset_in,
       blue <- getattr dataset_in "B02" ;;
       green <- getattr dataset_in "B03" ;;
       red <- getattr dataset_in "B04" ;;
       nir <- getattr dataset_in "B08" ;;
       swir1 <- getattr dataset_in "B11" ;;
       swir2 <- getattr dataset_in "B12" ;;
       let shape := shape blue in
       let classified :=
         _run_regression shape no_data blue green red nir swir1 swir2 in
       let classified_clean := full shape no_data float64 in
       classified_clean <- copy_masked classified_clean clean_mask classified ;;
       x_coords <- getitem dataset_in x_coord ;;
       y_coords <- getitem dataset_in y_coord ;;
       if mosaic then
         data_array <- DataArray classified_clean [y_coords; x_coords] ;;
         ret (mk_WofsDataset data_array
                [(y_coord, y_coords); (x_coord, x_coords)])
       else
         time_coords <- getitem dataset_in time_coord ;;
         data_array <-
           DataArray classified_clean [time_coords; y_coords; x_coords] ;;
         ret (mk_WofsDataset data_array
                [(time_coord, time_coords); (y_coord, y_coords);
                 (x_coord, x_coords)]))
  end.

(** ** Sampling one point-month *)

(** [f'{month:02d}'] *)
Definition format_02d (month : Z) : string :=
  if (0 <=? month) && (month <? 10) then "0" +:+ pretty month
  else pretty month.

(** The query window: [np.datetime64('2018-MM')] and the same plus five
    days, as strings.  [np.datetime64] raises ValueError when the text is
    not a calendar month. *)
Definition time_window (month : Z) : result (string * string) :=
  let timeYM := "2018-" +:+ format_02d month in
  if (1 <=? month) && (month <=? 12)
  then ret (timeYM, timeYM +:+ "-06")
  else raise ValueError.

(** [a.all(dim=['x','y']).values] for an array over (time, y, x): one
    boolean per time slice. *)
Definition all_xy (a : ndarray bool) : result (list bool) :=
  match shape a with
  | [T; Y; X] =>
      ret (map (fun t =>
                  forallb (fun y =>
                    forallb (fun x => item a [t; y; x]) (seq 0 X))
                    (seq 0 Y))
               (seq 0 T))
  | _ => raise ValueError
  end.

(** [clear.sum()] *)
Definition np_sum (clear : list bool) : Z :=
  Z.of_nat (length (List.filter (fun b => b) clear)).

(** The elements of [a.isel(time=clear)]: the time slices flagged in
    [clear], in order. *)
Definition isel_time (a : ndarray bool) (clear : list bool) : list bool :=
  match shape a with
  | [T; Y; X] =>
      flat_map (fun t =>
                  flat_map (fun y => map (fun x => item a [t; y; x]) (seq 0 X))
                           (seq 0 Y))
               (List.filter (fun t => nth t clear false) (seq 0 T))
  | _ => []
  end.

(** [.max()] of a boolean array given by its elements: ValueError on an
    array without elements. *)
Definition np_max (elements : list bool) : result bool :=
  match elements with
  | [] => raise ValueError
  | _ => ret (existsb (fun b => b) elements)
  end.

(** [str(int(plot_id)) + "_" + str(month)] *)
Definition result_key (plot_id month : Z) : string :=
  pretty plot_id +:+ "_" +:+ pretty month.

(** [get_wofs_for_point].  [month] and [plot_id] are the MONTH and
    (integer) PLOT_ID of the catalogue row at [index]; [s2_data] is what
    [dc.load] answered for the window.  The result dictionaries are
    returned next to the value of the call ([None] for the branch that
    falls off the end of the function). *)
Definition get_wofs_for_point (month plot_id : Z)
    (s2_data : gmap string (ndarray fl))
    (results_wet results_clear : gmap string Z)
    : gmap string Z * gmap string Z * result (option (string * string)) :=
  match time_window month with
  | inl e => (results_wet, results_clear, inl e)
  | inr time =>
      match s2_data !! "B02"%string with
      | None => (results_wet, results_clear, ret None)
      | Some _ =>
          let sampled :=
            SCL <- getitem s2_data "SCL" ;;
            let clean_mask := isin SCL [4; 5; 6; 7; 11]%Q in
            s2_wofs <-
              snd (wofs_classify s2_data (Some clean_mask) "x" "y" "time"
                     FNaN false false) ;;
            let wofls := wofs s2_wofs in
            let wofl_wetnocloud := eq_scalar wofls 1 in
            let wofl_drynocloud := eq_scalar wofls 0 in
            clear <- all_xy (mor wofl_wetnocloud wofl_drynocloud) ;;
            let n_clear := np_sum clear in
            wet <-
              (if 0 <? n_clear
               then m <- np_max (isel_time wofl_wetnocloud clear) ;;
                    ret (Z.b2z m)
               else ret 0) ;;
            ret (wet, n_clear) in
          match sampled with
          | inl e => (results_wet, results_clear, inl e)
          | inr (wet, n_clear) =>
              (<[result_key plot_id month := wet]> results_wet,
               <[result_key plot_id month := n_clear]> results_clear,
               ret (Some time))
          end
      end
  end.

End Classifier.

(** ** Seasonal accuracy assessment *)

(** Row and column labels of a DataFrame: integers (the classes, the
    positions of an unnamed Series) or text. *)
Inductive label : Type :=
  | LInt (z : Z)
  | LStr (s : string).

#[global] Instance label_eq_dec : EqDecision label.
Proof. solve_decision. Defined.

Definition label_repr (l : label) : string :=
  match l with
  | LInt z => pretty z
  | LStr s => s
  end.

Record Series : Type := mk_Series {
  s_index : list label;
  s_value : label -> fl
}.

Record DataFrame : Type := mk_DataFrame {
  df_index : list label;
  df_columns : list label;
  df_cell : label -> label -> fl
}.

(** One row of the merged table. *)
Record obs : Type := mk_obs {
  PLOT_ID : Z;
  MONTH : Z;
  ACTUAL : Z;
  PREDICTION : Z
}.

(** [df.loc[r]], [df[c]] and [series[l]] look labels up and raise KeyError
    on a label that is not there. *)
Definition loc (df : DataFrame) (r : label) : result Series :=
  if bool_decide (r ∈ df_index df)
  then ret (mk_Series (df_columns df) (fun c => df_cell df r c))
  else raise (KeyError (label_repr r)).

Definition column (df : DataFrame) (c : label) : result Series :=
  if bool_decide (c ∈ df_columns df)
  then ret (mk_Series (df_index df) (fun r => df_cell df r c))
  else raise (KeyError (label_repr c)).

Definition at_label (s : Series) (l : label) : result fl :=
  if bool_decide (l ∈ s_index s)
  then ret (s_value s l)
  else raise (KeyError (label_repr l)).

(** Position of a label in an index. *)
Fixpoint position (l : label) (ls : list label) : option nat :=
  match ls with
  | [] => None
  | l' :: ls' => if bool_decide (l = l') then Some 0%nat
                 else S <$> position l ls'
  end.

(** [df[c] = values]: one value per row, in row order. *)
Definition set_column (df : DataFrame) (c : label) (values : list fl)
    : result DataFrame :=
  if bool_decide (length values = length (df_index df))
  then ret (mk_DataFrame (df_index df)
              (if bool_decide (c ∈ df_columns df) then df_columns df
               else df_columns df ++ [c])
              (fun r c' =>
                 if bool_decide (c' = c)
                 then default FNaN (k ← position r (df_index df); values !! k)
                 else df_cell df r c'))
  else raise ValueError.

(** [pd.Series(values).rename(name)]: labelled by position. *)
Definition series_of (values : list fl) : Series :=
  mk_Series (map (fun k => LInt (Z.of_nat k)) (seq 0 (length values)))
    (fun l => match l with
              | LInt z => default FNaN (values !! Z.to_nat z)
              | LStr _ => FNaN
              end).

(** [df.append(series)] for a Series named [name]: a new row; cells the
    Series does not label are NaN. *)
Definition append (df : DataFrame) (name : label) (s : Series) : DataFrame :=
  mk_DataFrame (df_index df ++ [name])
    (df_columns df
       ++ List.filter (fun l => negb (bool_decide (l ∈ df_columns df))) (s_index s))
    (fun r c =>
       if bool_decide (r = name)
       then if bool_decide (c ∈ s_index s) then s_value s c else FNaN
       else if bool_decide (c ∈ df_columns df) then df_cell df r c else FNaN).

(** [df.loc[r, c] = v] on labels that are there. *)
Definition set_cell (df : DataFrame) (r c : label) (v : fl) : DataFrame :=
  mk_DataFrame (df_index df) (df_columns df)
    (fun r' c' => if bool_decide (r' = r) && bool_decide (c' = c) then v
                  else df_cell df r' c').

(** A label of the contingency table selects the rows with that value;
    ['All'] selects every row. *)
Definition selects (l : label) (v : Z) : bool :=
  match l with
  | LInt z => v =? z
  | LStr _ => true
  end.

(** The values that occur, in increasing order. *)
Definition unique_sorted (vs : list Z) : list Z :=
  merge_sort Z.le (remove_dups vs).

(** The contingency table of a table that has rows: one row per ACTUAL
    value that occurs, one column per PREDICTION value that occurs, and the
    margins ['All']. *)
Definition crosstab_table (t : list obs) : DataFrame :=
  mk_DataFrame
    (map LInt (unique_sorted (map ACTUAL t)) ++ [LStr "All"])
    (map LInt (unique_sorted (map PREDICTION t)) ++ [LStr "All"])
    (fun r c =>
       FNum (inject_Z (Z.of_nat (length
         (List.filter (fun o => selects r (ACTUAL o) && selects c (PREDICTION o))
                      t))))).

(** [pd.crosstab(t['ACTUAL'], t['PREDICTION'], margins=True)]: ValueError
    on a table without rows (the margins cannot be computed), the
    contingency table otherwise. *)
Definition crosstab (t : list obs) : result DataFrame :=
  match t with
  | [] => raise ValueError
  | _ :: _ => ret (crosstab_table t)
  end.

Section Accuracy.

(** Rounding to the precision of a dtype; the report is computed in
    float64. *)
Variable rnd : dtype -> Q -> Q.

Definition div64 : fl -> fl -> fl := fdiv (rnd float64).
Definition mul64 : fl -> fl -> fl := fmul (rnd float64).
Definition add64 : fl -> fl -> fl := fadd (rnd float64).

(** [sklearn.metrics.f1_score(y_true, y_pred)] with its defaults: binary
    labels, positive class 1, a ratio with a zero denominator counts
    as 0.  ValueError on labels outside {0, 1}. *)
Definition f1_score (t : list obs) : result fl :=
  if forallb (fun o => ((ACTUAL o =? 0) || (ACTUAL o =? 1))
                       && ((PREDICTION o =? 0) || (PREDICTION o =? 1))) t
  then
    let count p := FNum (inject_Z (Z.of_nat (length (List.filter p t)))) in
    let tp_sum := count (fun o => (ACTUAL o =? 1) && (PREDICTION o =? 1)) in
    let pred_sum := count (fun o => PREDICTION o =? 1) in
    let true_sum := count (fun o => ACTUAL o =? 1) in
    let prf_divide n d := if feq d (FNum 0) then FNum 0 else div64 n d in
    let precision := prf_divide tp_sum pred_sum in
    let recall := prf_divide tp_sum true_sum in
    let denom := add64 precision recall in
    let denom := if feq denom (FNum 0) then FNum 1 else denom in
    ret (div64 (mul64 (mul64 (FNum 2) precision) recall) denom)
  else raise ValueError.

Definition All : label := LStr "All".
Definition Producer's : label := LStr "Producer's".
Definition User's : label := LStr "User's".
Definition F_score : label := LStr "F-score".

(** The confusion matrix of a season with its Producer's column, User's
    row and overall accuracy. *)
Definition accuracy_matrix (Wet_Season : list obs) : result DataFrame :=
  confusion_matrix <- crosstab Wet_Season ;;
  (* Producer's *)
  row0 <- loc confusion_matrix (LInt 0) ;;
  n00 <- at_label row0 (LInt 0) ;;
  row0 <- loc confusion_matrix (LInt 0) ;;
  all0 <- at_label row0 All ;;
  row1 <- loc confusion_matrix (LInt 1) ;;
  n11 <- at_label row1 (LInt 1) ;;
  row1 <- loc confusion_matrix (LInt 1) ;;
  all1 <- at_label row1 All ;;
  confusion_matrix <-
    set_column confusion_matrix Producer's
      [ mul64 (div64 n00 all0) (FNum 100);
        mul64 (div64 n11 all1) (FNum 100);
        FNaN ] ;;
  (* User's *)
  col0 <- column confusion_matrix (LInt 0) ;;
  n00 <- at_label col0 (LInt 0) ;;
  col0 <- column confusion_matrix (LInt 0) ;;
  all0 <- at_label col0 All ;;
  col1 <- column confusion_matrix (LInt 1) ;;
  n11 <- at_label col1 (LInt 1) ;;
  col1 <- column confusion_matrix (LInt 1) ;;
  all1 <- at_label col1 All ;;
  let users_accuracy :=
    series_of [ mul64 (div64 n00 all0) (FNum 100);
                mul64 (div64 n11 all1) (FNum 100) ] in
  let confusion_matrix := append confusion_matrix User's users_accuracy in
  (* Overall *)
  col0 <- column confusion_matrix (LInt 0) ;;
  n00 <- at_label col0 (LInt 0) ;;
  col1 <- column confusion_matrix (LInt 1) ;;
  n11 <- at_label col1 (LInt 1) ;;
  colA <- column confusion_matrix All ;;
  total <- at_label colA All ;;
  ret (set_cell confusion_matrix User's Producer's
         (mul64 (div64 (add64 n00 n11) total) (FNum 100))).

(** The accuracy notebook from the seasonal split to the table with the
    [F-score] row.  [input_data] is the merged table, [WetMonth] the
    months of the season.  The conversion of [input_data['PREDICTION']] to
    [int] before the F-score leaves integer labels as they are.  (The
    notebook then rounds the table to two decimals and relabels it for the
    CSV file.) *)
Definition accuracy_report (input_data : list obs) (WetMonth : list Z)
    : result DataFrame :=
  let Wet_Season :=
    List.filter (fun o => bool_decide (MONTH o ∈ WetMonth)) input_data in
  confusion_matrix <- accuracy_matrix Wet_Season ;;
  (* F-score *)
  rowU <- loc confusion_matrix User's ;;
  u0 <- at_label rowU (LInt 0) ;;
  row0 <- loc confusion_matrix (LInt 0) ;;
  p0 <- at_label row0 Producer's ;;
  rowU <- loc confusion_matrix User's ;;
  u0' <- at_label rowU (LInt 0) ;;
  row0 <- loc confusion_matrix (LInt 0) ;;
  p0' <- at_label row0 Producer's ;;
  f1 <- f1_score input_data ;;
  let fscore :=
    series_of [ div64 (div64 (mul64 (FNum 2) (mul64 u0 p0)) (add64 u0' p0'))
                      (FNum 100);
                f1 ] in
  ret (append confusion_matrix F_score fscore).

End Accuracy.

(** ** The decision table and the aggregation rules, as the specification
       words them *)

(** A feature of one pixel: its value and the precision it is held at. *)
Record scalar : Type := mk_scalar {
  value : fl;
  precision : dtype
}.

Record features : Type := mk_features {
  ndi_52 : scalar;
  ndi_43 : scalar;
  ndi_72 : scalar;
  b1 : scalar;
  b3 : scalar;
  b7 : scalar
}.

Section DecisionTable.

Variable rnd : dtype -> Q -> Q.

Definition le (x : scalar) (c : Q) : bool :=
  fle (value x) (FNum (rnd (precision x) c)).

Definition gt (x : scalar) (c : Q) : bool :=
  fgt (value x) (FNum (rnd (precision x) c)).

(** LEFT BRANCH, rules 1 to 6. *)
Definition left_branch (f : features) : Z :=
  if gt (b1 f) 2083.5 then 0
  else if le (b7 f) 323.5 then (if le (ndi_43 f) 0.61 then 1 else 0)
  else if gt (b1 f) 1400.5 then (if le (ndi_43 f) (-0.01) then 1 else 0)
  else if gt (ndi_72 f) (-0.23) then (if le (b1 f) 379 then 1 else 0)
  else if le (ndi_43 f) 0.22 then 1
  else (if le (b1 f) 473 then 1 else 0).

(** RIGHT BRANCH, sub-branch A, rules 1 to 5. *)
Definition right_branch_A (f : features) : Z :=
  if gt (b1 f) 334.5 then 0
  else if gt (ndi_43 f) 0.54 then 0
  else if le (ndi_52 f) 0.12 then 1
  else if le (b3 f) 364.5 then (if le (b1 f) 129.5 then 1 else 0)
  else (if le (b1 f) 300.5 then 1 else 0).

(** RIGHT BRANCH, sub-branch B, rules 1 to 5. *)
Definition right_branch_B (f : features) : Z :=
  if gt (ndi_52 f) 0.34 then 0
  else if gt (b1 f) 249.5 then 0
  else if gt (ndi_43 f) 0.45 then 0
  else if gt (b3 f) 364.5 then 0
  else (if le (b1 f) 129.5 then 1 else 0).

(** The table: a branch is taken when its condition holds; no class when
    no branch condition holds. *)
Definition decision_table (f : features) : option Z :=
  if le (ndi_52 f) (-0.01) then Some (left_branch f)
  else if gt (ndi_52 f) (-0.01) then
    if le (ndi_52 f) 0.23 then Some (right_branch_A f)
    else if gt (ndi_52 f) 0.23 then Some (right_branch_B f)
    else None
  else None.

(** The features of the pixel at [i]. *)
Definition at_pixel (a : ndarray fl) (i : index) : scalar :=
  mk_scalar (item a i) (dtype_of a).

Definition features_at (band1 band2 band3 band4 band5 band7 : ndarray fl)
    (i : index) : features :=
  mk_features
    (at_pixel (_band_ratio rnd band5 band2) i)
    (at_pixel (_band_ratio rnd band4 band3) i)
    (at_pixel (_band_ratio rnd band7 band2) i)
    (at_pixel band1 i)
    (at_pixel band3 i)
    (at_pixel band7 i).

End DecisionTable.

(** A pixel class: the value compares equal to 0 or to 1. *)
Definition is_class (v : fl) : bool := feq v (FNum 0) || feq v (FNum 1).

Definition is_water (v : fl) : bool := feq v (FNum 1).

(** The pixels of scene [t] of a grid over (time, y, x). *)
Definition scene_pixels (w : ndarray fl) (t : nat) : list fl :=
  match shape w with
  | [_; Y; X] =>
      flat_map (fun y => map (fun x => item w [t; y; x]) (seq 0 X)) (seq 0 Y)
  | _ => []
  end.

Definition scenes (w : ndarray fl) : list nat :=
  match shape w with
  | T :: _ => seq 0 T
  | [] => []
  end.

(** A scene is clear when every pixel of the footprint is classified. *)
Definition scene_clear (w : ndarray fl) (t : nat) : bool :=
  forallb is_class (scene_pixels w t).

Definition scene_has_water (w : ndarray fl) (t : nat) : bool :=
  existsb is_water (scene_pixels w t).

(** clear_count: the number of clear scenes. *)
Definition clear_count (w : ndarray fl) : nat :=
  length (List.filter (scene_clear w) (scenes w)).

(** wet: some clear scene has a water pixel. *)
Definition wet_verdict (w : ndarray fl) : bool :=
  existsb (fun t => scene_clear w t && scene_has_water w t) (scenes w).

(** ** Well-formed provider responses *)

(** The variables of a scene stack: the six bands and the scene
    classification layer. *)
Definition scene_variables : list string :=
  band_names ++ [ "SCL"%string ].

(** A response with data: every scene variable is there over (time, y, x)
    with one shape, the six bands share their dtype, the footprint has at
    least one pixel, and the coordinates [time], [y], [x] label the three
    dimensions. *)
Definition response_ok (ds : gmap string (ndarray fl)) : bool :=
  match ds !! "B02"%string with
  | Some blue =>
      match shape blue with
      | [T; Y; X] =>
          forallb (fun name =>
                     match ds !! name with
                     | Some a => bool_decide (shape a = [T; Y; X])
                     | None => false
                     end) scene_variables
          && forallb (fun name =>
                        match ds !! name with
                        | Some a => bool_decide (dtype_of a = dtype_of blue)
                        | None => false
                        end) band_names
          && (0 <? Y)%nat && (0 <? X)%nat
          && bool_decide (shape <$> ds !! "time"%string = Some [T])
          && bool_decide (shape <$> ds !! "y"%string = Some [Y])
          && bool_decide (shape <$> ds !! "x"%string = Some [X])
      | _ => false
      end
  | None => false
  end.

(** The inputs the classifier is specified for: the six bands are there
    with one shape, the mask has that shape, and the named coordinates label
    the dimensions of that shape. *)
Definition classify_input_ok (ds : gmap string (ndarray fl))
    (clean_mask : ndarray bool) (x_coord y_coord time_coord : string)
    (mosaic : bool) : bool :=
  match ds !! "B02"%string with
  | Some blue =>
      forallb (fun name =>
                 match ds !! name with
                 | Some a => bool_decide (shape a = shape blue)
                 | None => false
                 end) band_names
      && bool_decide (shape clean_mask = shape blue)
      && bool_decide
           (map (fun name => shape <$> ds !! name)
                ((if mosaic then [] else [time_coord]) ++ [y_coord; x_coord])
            = map (fun n => Some [n]) (shape blue))
  | None => false
  end.

(** Number of scenes of a response. *)
Definition scene_count (ds : gmap string (ndarray fl)) : nat :=
  match shape <$> ds !! "B02"%string with
  | Some (T :: _) => T
  | _ => 0
  end.

(** All the indices of an array of shape [sh], in C order. *)
Fixpoint indices (sh : list nat) : list index :=
  match sh with
  | [] => [[]]
  | n :: sh' => flat_map (fun k => map (cons k) (indices sh')) (seq 0 n)
  end.

#[global] Instance Q_eq_dec : EqDecision Q.
Proof. solve_decision. Defined.

#[global] Instance fl_eq_dec : EqDecision fl.
Proof. solve_decision. Defined.

(** [ds'] holds the scenes of [ds], in order, followed by further scenes
    over the same footprint: every scene variable keeps its dtype, its
    footprint and the elements of the scenes of [ds]. *)
Definition extends_scenes (ds ds' : gmap string (ndarray fl)) : bool :=
  (scene_count ds <=? scene_count ds')%nat
  && forallb (fun name =>
                match ds !! name, ds' !! name with
                | Some a, Some a' =>
                    bool_decide (dtype_of a' = dtype_of a)
                    && bool_decide (tail (shape a') = tail (shape a))
                    && forallb (fun i => bool_decide (item a' i = item a i))
                               (indices (shape a))
                | _, _ => false
                end) scene_variables.

(** The clear count a task records for a response, starting from empty
    dictionaries. *)
Definition recorded_clear (rnd : dtype -> Q -> Q) (month plot_id : Z)
    (ds : gmap string (ndarray fl)) : option Z :=
  snd (fst (get_wofs_for_point rnd month plot_id ds ∅ ∅))
    !! result_key plot_id month.

(** Exact arithmetic: no rounding at any precision. *)
Definition exact : dtype -> Q -> Q := fun _ q => q.

(** The codes of the scene classification layer that count as clear. *)
Definition clean_codes : list Q := [4; 5; 6; 7; 11]%Q.

(** ** The accuracy formulas, as the specification words them *)

(** Rows of the table with the given ACTUAL and PREDICTION. *)
Definition matrix (t : list obs) (a p : Z) : Z :=
  Z.of_nat (length (List.filter
    (fun o => (ACTUAL o =? a) && (PREDICTION o =? p)) t)).

Definition rowTotal (t : list obs) (a : Z) : Z := matrix t a 0 + matrix t a 1.

Definition colTotal (t : list obs) (p : Z) : Z := matrix t 0 p + matrix t 1 p.

Definition grandTotal (t : list obs) : Z := rowTotal t 0 + rowTotal t 1.

(** [n / d * 100] on counts. *)
Definition percent (rnd : dtype -> Q -> Q) (n d : Z) : fl :=
  mul64 rnd (div64 rnd (FNum (inject_Z n)) (FNum (inject_Z d))) (FNum 100).

(** Every ACTUAL and PREDICTION of the table is 0 or 1. *)
Definition binary_table (t : list obs) : bool :=
  forallb (fun o => ((ACTUAL o =? 0) || (ACTUAL o =? 1))
                    && ((PREDICTION o =? 0) || (PREDICTION o =? 1))) t.

(** Both classes occur among the ACTUAL values and among the PREDICTION
    values. *)
Definition both_classes (t : list obs) : bool :=
  existsb (fun o => ACTUAL o =? 0) t && existsb (fun o => ACTUAL o =? 1) t
  && existsb (fun o => PREDICTION o =? 0) t
  && existsb (fun o => PREDICTION o =? 1) t.

(** The rows of a season. *)
Definition season_rows (input_data : list obs) (months : list Z) : list obs :=
  List.filter (fun o => bool_decide (MONTH o ∈ months)) input_data.

(** ** Sample inputs *)

(** The scenario of the specification: one clear scene over a one-pixel
    footprint with blue 200, green 200, red 200, nir 2000, swir1 3000 and
    swir2 100, held at dtype [dt]. *)
Definition scenario_response (dt : dtype) : gmap string (ndarray fl) :=
  list_to_map
    [ ("B02", full [1; 1; 1]%nat (FNum 200) dt);
      ("B03", full [1; 1; 1]%nat (FNum 200) dt);
      ("B04", full [1; 1; 1]%nat (FNum 200) dt);
      ("B08", full [1; 1; 1]%nat (FNum 2000) dt);
      ("B11", full [1; 1; 1]%nat (FNum 3000) dt);
      ("B12", full [1; 1; 1]%nat (FNum 100) dt);
      ("SCL", full [1; 1; 1]%nat (FNum 4) uint8);
      ("time", full [1]%nat (FNum 0) int64);
      ("y", full [1]%nat (FNum 0) float64);
      ("x", full [1]%nat (FNum 0) float64) ]%string.

(** The same scene followed by a second one flagged as cloud (code 9). *)
Definition two_scene_response (dt : dtype) : gmap string (ndarray fl) :=
  list_to_map
    [ ("B02", full [2; 1; 1]%nat (FNum 200) dt);
      ("B03", full [2; 1; 1]%nat (FNum 200) dt);
      ("B04", full [2; 1; 1]%nat (FNum 200) dt);
      ("B08", full [2; 1; 1]%nat (FNum 2000) dt);
      ("B11", full [2; 1; 1]%nat (FNum 3000) dt);
      ("B12", full [2; 1; 1]%nat (FNum 100) dt);
      ("SCL", mk_ndarray uint8 [2; 1; 1]%nat
                (fun i => match i with
                          | 0%nat :: _ => FNum 4
                          | _ => FNum 9
                          end));
      ("time", full [2]%nat (FNum 0) int64);
      ("y", full [1]%nat (FNum 0) float64);
      ("x", full [1]%nat (FNum 0) float64) ]%string.

(** A response that has the blue band but not the green one. *)
Definition response_without_green : gmap string (ndarray fl) :=
  delete "B03"%string (scenario_response uint16).

(** The mask that keeps the pixel of the scenario. *)
Definition scenario_mask : ndarray bool := full [1; 1; 1]%nat true bool_.

(** The accuracy scenario of the specification: the pair counts
    (0,0): 40, (0,1): 5, (1,0): 3, (1,1): 52, all in month 6. *)
Definition scenario_season : list obs :=
  repeat (mk_obs 1 6 0 0) 40 ++ repeat (mk_obs 2 6 0 1) 5
  ++ repeat (mk_obs 3 6 1 0) 3 ++ repeat (mk_obs 4 6 1 1) 52.

(** A season in which only class 0 occurs. *)
Definition one_class_season : list obs := [ mk_obs 1 6 0 0 ].

(** A season in which only class 1 occurs. *)
Definition water_only_season : list obs := [ mk_obs 1 6 1 1 ].

(** The wet months of the notebook. *)
Definition WetMonth : list Z := [5; 6; 7; 8; 9; 10].

(** A table with two rows in the wet season and one in the dry season. *)
Definition two_season_table : list obs :=
  [ mk_obs 1 6 0 0; mk_obs 2 6 1 1; mk_obs 3 1 1 0 ].

(** ** Further notions used to state what the notebook does at its edges *)

(** A finite number, as opposed to NaN and the infinities. *)
Definition is_finite (a : fl) : bool :=
  match a with
  | FNum _ => true
  | _ => false
  end.

(** Rounding keeps the order of the numbers it rounds, as rounding to
    float32 or float64 does. *)
Definition monotone (rnd : dtype -> Q -> Q) : Prop :=
  forall dt x y, (x <= y)%Q -> (rnd dt x <= rnd dt y)%Q.

(** The dataset has no variable of that name. *)
Definition absent (ds : gmap string (ndarray fl)) (name : string) : bool :=
  match ds !! name with
  | None => true
  | Some _ => false
  end.

(** The first of the names, in the order in which the code reads them,
    that the dataset lacks. *)
Definition first_absent (ds : gmap string (ndarray fl)) (names : list string)
    : option string :=
  find (absent ds) names.

(** The dtype [wofs_classify] computes in: float64 when asked for or when
    the blue band is float64 already, float32 otherwise. *)
Definition working_dtype (enforce_float64 : bool) (dt : dtype) : dtype :=
  if enforce_float64 then float64
  else if bool_decide (dt = float64) then float64 else float32.


(** Every pixel of scene [t] carries one of the clear codes of
    [np.isin(s2_data['SCL'], [4,5,6,7,11])]. *)
Definition clean_scene (scl : ndarray fl) (t : nat) : bool :=
  match shape scl with
  | [_; Y; X] =>
      forallb (fun y =>
        forallb (fun x => item (isin scl clean_codes) [t; y; x]) (seq 0 X))
        (seq 0 Y)
  | _ => false
  end.

(** The number of such scenes in a response. *)
Definition clean_scene_count (ds : gmap string (ndarray fl)) : Z :=
  match ds !! "SCL"%string with
  | Some scl =>
      Z.of_nat (length (List.filter (clean_scene scl)
                          (seq 0 (hd 0%nat (shape scl)))))
  | None => 0
  end.

(** ** Keys of the result dictionaries *)

(** [s.split(sep)] for a one-character separator: the pieces between the
    occurrences of [sep], one more than there are occurrences. *)
Fixpoint split (sep : ascii) (s : string) : list string :=
  match s with
  | EmptyString => [EmptyString]
  | String c s' =>
      if Ascii.eqb c sep then EmptyString :: split sep s'
      else match split sep s' with
           | p :: ps => String c p :: ps
           | [] => [String c EmptyString]
           end
  end.

(** [parts[n]]: IndexError past the end of the list. *)
Definition subscript (parts : list string) (n : nat) : result string :=
  match parts !! n with
  | Some p => ret p
  | None => raise IndexError
  end.

(** The PLOT_ID and MONTH texts the merged table takes from a key:
    [index.split('_')[0] + '.0'] and [index.split('_')[1]]. *)
Definition split_index (index : string) : result (string * string) :=
  plot <- subscript (split "_" index) 0 ;;
  month <- subscript (split "_" index) 1 ;;
  ret (plot +:+ ".0", month).

(** The character occurs in the text. *)
Fixpoint occurs (c : ascii) (s : string) : bool :=
  match s with
  | EmptyString => false
  | String c' s' => Ascii.eqb c' c || occurs c s'
  end.

(** ** The loop over the catalogue and the pool *)

(** One row of the catalogue of validation points, with what [dc.load]
    answers for the window of the row. *)
Record catalogue_row : Type := mk_catalogue_row {
  row_PLOT_ID : Z;
  row_MONTH : Z;
  row_s2_data : gmap string (ndarray fl)
}.

Definition row_key (row : catalogue_row) : string :=
  result_key (row_PLOT_ID row) (row_MONTH row).

(** A store into one of the two shared dictionaries. *)
Inductive store : Type :=
  | store_wet (key : string) (v : Z)
  | store_clear (key : string) (v : Z).

Definition run_store (d : gmap string Z * gmap string Z) (s : store)
    : gmap string Z * gmap string Z :=
  match s with
  | store_wet k v => (<[k := v]> (fst d), snd d)
  | store_clear k v => (fst d, <[k := v]> (snd d))
  end.

Definition run_stores (ss : list store) (d : gmap string Z * gmap string Z)
    : gmap string Z * gmap string Z :=
  fold_left run_store ss d.

(** The dictionary a store goes to, with its key. *)
Definition store_slot (s : store) : bool * string :=
  match s with
  | store_wet k _ => (true, k)
  | store_clear k _ => (false, k)
  end.

Section Drivers.

Variable rnd : dtype -> Q -> Q.

(** [for index, row in rows.iterrows(): time = get_wofs_for_point(...);
    print(time)]: the dictionaries are shared by the calls and an exception
    ends the loop.  The third component lists what was printed. *)
Fixpoint for_rows (rows : list catalogue_row)
    (results_wet results_clear : gmap string Z)
    : gmap string Z * gmap string Z * result (list (option (string * string))) :=
  match rows with
  | [] => (results_wet, results_clear, ret [])
  | row :: rows' =>
      match get_wofs_for_point rnd (row_MONTH row) (row_PLOT_ID row)
              (row_s2_data row) results_wet results_clear with
      | (results_wet, results_clear, inl e) =>
          (results_wet, results_clear, inl e)
      | (results_wet, results_clear, inr time) =>
          match for_rows rows' results_wet results_clear with
          | (results_wet, results_clear, printed) =>
              (results_wet, results_clear,
               printed <- printed ;; ret (time :: printed))
          end
      end
  end.

(** The test cell: the rows [input_data[0:5]], from empty dictionaries. *)
Definition test_loop (input_data : list catalogue_row)
    : gmap string Z * gmap string Z * result (list (option (string * string))) :=
  for_rows (take 5 input_data) ∅ ∅.

(** The stores a task makes, in program order: [results_wet] is updated
    before [results_clear]; a task that falls through or raises makes
    none.  The task never reads the dictionaries. *)
Definition task_stores (row : catalogue_row) : list store :=
  match get_wofs_for_point rnd (row_MONTH row) (row_PLOT_ID row)
          (row_s2_data row) ∅ ∅ with
  | (results_wet, results_clear, _) =>
      match results_wet !! row_key row, results_clear !! row_key row with
      | Some wet, Some n_clear =>
          [store_wet (row_key row) wet; store_clear (row_key row) n_clear]
      | _, _ => []
      end
  end.

(** The task of a row runs to its [return time]. *)
Definition records (row : catalogue_row) : bool :=
  match snd (get_wofs_for_point rnd (row_MONTH row) (row_PLOT_ID row)
               (row_s2_data row) ∅ ∅) with
  | inr (Some _) => true
  | _ => false
  end.

End Drivers.

(** The orders in which a pool may carry out the stores of its tasks: each
    task keeps its program order, the tasks interleave freely. *)
Inductive interleave {A : Type} : list (list A) -> list A -> Prop :=
  | interleave_done (tasks : list (list A)) :
      Forall (fun task => task = []) tasks -> interleave tasks []
  | interleave_step (before after : list (list A)) (x : A)
      (task schedule : list A) :
      interleave (before ++ task :: after) schedule ->
      interleave (before ++ (x :: task) :: after) (x :: schedule).

(** [_parallel_fun]: one task per row of [input_data], applied
    asynchronously on a pool; what the calls return or raise is never
    collected.  After [pool.join()] every store has been made, in one of
    the orders the pool allows, and the two dictionaries are returned. *)
Definition _parallel_fun (rnd : dtype -> Q -> Q)
    (input_data : list catalogue_row)
    (results : gmap string Z * gmap string Z) : Prop :=
  exists schedule,
    interleave (map (task_stores rnd) input_data) schedule /\
    run_stores schedule (∅, ∅) = results.

(** ** Seasons and counts of the accuracy notebook *)

(** [input_data[~input_data['MONTH'].isin(WetMonth)]] *)
Definition dry_rows (input_data : list obs) (months : list Z) : list obs :=
  List.filter (fun o => negb (bool_decide (MONTH o ∈ months))) input_data.

(** The values of a column in the order in which they first appear. *)
Definition first_appearance (vs : list Z) : list Z :=
  reverse (remove_dups (reverse vs)).

(** A row as it is read from the file: a cell may be missing (NaN). *)
Record raw_obs : Type := mk_raw_obs {
  raw_PLOT_ID : option Z;
  raw_MONTH : option Z;
  raw_ACTUAL : option Z;
  raw_PREDICTION : option Z
}.

(** A row without missing cells. *)
Definition complete (o : obs) : raw_obs :=
  mk_raw_obs (Some (PLOT_ID o)) (Some (MONTH o)) (Some (ACTUAL o))
    (Some (PREDICTION o)).

(** The last value of a column that is not missing, if there is one. *)
Definition last_valid (column : raw_obs -> option Z) (rows : list raw_obs)
    : option Z :=
  last (omap column rows).

(** The rows of a plot. *)
Definition plot_rows (t : list raw_obs) (id : option Z) : list raw_obs :=
  List.filter (fun o => bool_decide (raw_PLOT_ID o = id)) t.

(** [t.groupby('PLOT_ID', as_index=False, sort=False).last()]: rows
    without plot id belong to no group; there is one row per plot, in the
    order in which the plots first appear, and each of its cells is the
    last value of the column within the plot that is not missing (a
    missing cell when the plot has none). *)
Definition groupby_last_valid (t : list raw_obs) : list raw_obs :=
  map (fun p =>
         mk_raw_obs (Some p)
           (last_valid raw_MONTH (plot_rows t (Some p)))
           (last_valid raw_ACTUAL (plot_rows t (Some p)))
           (last_valid raw_PREDICTION (plot_rows t (Some p))))
      (first_appearance (omap raw_PLOT_ID t)).

(** [v] is the value of the last of the rows whose cell in the column is
    not missing. *)
Definition is_last_valid (column : raw_obs -> option Z)
    (rows : list raw_obs) (v : Z) : Prop :=
  exists before o after,
    rows = before ++ o :: after /\ column o = Some v /\
    Forall (fun o' => column o' = None) after.

(** The same group-by on a table without missing values, where the last
    value of every column is found in the last row of the plot: one row
    per plot, the last one of the plot, in the order in which the plots
    first appear.  [groupby_last_valid] is the general case. *)
Definition groupby_last (t : list obs) : list obs :=
  omap (fun p => last (List.filter (fun o => PLOT_ID o =? p) t))
       (first_appearance (map PLOT_ID t)).

(** ** Further sample inputs *)

(** A table with gaps: the second row of plot 1 has no ACTUAL label, and
    the third row has no plot id. *)
Definition gappy_table : list raw_obs :=
  [ mk_raw_obs (Some 1) (Some 3) (Some 1) (Some 1);
    mk_raw_obs (Some 1) (Some 4) None (Some 0);
    mk_raw_obs None (Some 5) (Some 0) (Some 0) ].

(** The scenario with its only scene flagged as cloud (code 9). *)
Definition cloudy_response : gmap string (ndarray fl) :=
  <[ "SCL"%string := full [1; 1; 1]%nat (FNum 9) uint8 ]>
    (scenario_response uint16).


(** A one-pixel band with the given value. *)
Definition one_pixel (v : Q) : ndarray fl := full [1]%nat (FNum v) float32.

(** Two rows of a catalogue with distinct keys. *)
Definition sample_catalogue : list catalogue_row :=
  [ mk_catalogue_row 137387171 8 (scenario_response uint16);
    mk_catalogue_row 137387172 10 (two_scene_response uint16) ].

(** A catalogue whose second row has a month that is no calendar month. *)
Definition failing_catalogue : list catalogue_row :=
  [ mk_catalogue_row 137387171 8 (scenario_response uint16);
    mk_catalogue_row 137387172 13 (scenario_response uint16);
    mk_catalogue_row 137387173 10 (scenario_response uint16) ].

(** ** The merged table *)














(** * Properties *)

(** ** Auxiliary facts *)

Lemma item_stores {A} (l : list (ndarray bool * A)) (c : ndarray A) (i : index) :
  item (fold_left (fun classified '(mask, v) => setitem classified mask v) l c) i
  = fold_left (fun z '(mask, v) => if item (mask : ndarray bool) i then v else z)
      l (item c i).
Proof.
  revert c. induction l as [|[m v] l IH]; intros c; simpl; [reflexivity|].
  rewrite IH. reflexivity.
Qed.

Lemma shape_stores {A} (l : list (ndarray bool * A)) (c : ndarray A) :
  shape (fold_left (fun classified '(mask, v) => setitem classified mask v) l c)
  = shape c.
Proof.
  revert c. induction l as [|[m v] l IH]; intros c; simpl; [reflexivity|].
  rewrite IH. reflexivity.
Qed.

Lemma fgt_not_fle (a b : fl) :
  is_nan a = false -> is_nan b = false -> fgt a b = negb (fle a b).
Proof. destruct a, b; simpl; intros; try discriminate; reflexivity. Qed.

Lemma gt_not_le rnd (x : scalar) (c : Q) :
  is_nan (value x) = false -> gt rnd x c = negb (le rnd x c).
Proof. intros H. unfold gt, le. apply fgt_not_fle; [exact H | reflexivity]. Qed.

(** Case analysis on the outcome of the tests of the tree. *)
Ltac name_tests :=
  repeat match goal with
         | |- context [fle ?a ?b] => generalize (fle a b); intro
         end.

Ltac split_test :=
  match goal with
  | |- context [if ?b then _ else _] => is_var b; destruct b; cbn [negb andb]
  | |- context [negb ?b] => is_var b; destruct b; cbn [negb andb]
  | |- context [andb ?b _] => is_var b; destruct b; cbn [negb andb]
  end.

Ltac unfold_stores :=
  cbn [regression_stores app fold_left List.filter length full item mand mnot
       le_scalar dtype_of shape].

(** Whatever the bands hold, every pixel leaves the tree with class 0 or 1:
    the fill value of the array never survives. *)
Lemma run_regression_binary rnd sh no_data band1 band2 band3 band4 band5 band7 i :
  let c := item (_run_regression rnd sh no_data band1 band2 band3 band4 band5 band7) i in
  c = 0 \/ c = 1.
Proof.
  unfold _run_regression. rewrite item_stores. unfold_stores.
  generalize (as_uint8 no_data); intros fill.
  name_tests. repeat split_test; auto.
Qed.

Lemma shape_run_regression rnd sh no_data band1 band2 band3 band4 band5 band7 :
  shape (_run_regression rnd sh no_data band1 band2 band3 band4 band5 band7) = sh.
Proof. unfold _run_regression. rewrite shape_stores. reflexivity. Qed.

Lemma length_filter_sum {A} (f : A -> bool) (l : list A) :
  length (List.filter f l)
  = fold_right (fun x n => ((if f x then 1 else 0) + n)%nat) 0%nat l.
Proof.
  induction l as [|x l IH]; simpl; [reflexivity|].
  destruct (f x); simpl; rewrite IH; reflexivity.
Qed.

(** ** The decision tree *)

(** C1. For a pixel whose features ndi_52, ndi_43, ndi_72, b1 and b3 are not
    NaN, the class [_run_regression] stores is the class the decision table
    of the specification gives for the features of that pixel. *)
Theorem run_regression_decision_table
    rnd sh no_data band1 band2 band3 band4 band5 band7 i :
  is_nan (value (ndi_52 (features_at rnd band1 band2 band3 band4 band5 band7 i)))
    = false ->
  is_nan (value (ndi_43 (features_at rnd band1 band2 band3 band4 band5 band7 i)))
    = false ->
  is_nan (value (ndi_72 (features_at rnd band1 band2 band3 band4 band5 band7 i)))
    = false ->
  is_nan (value (b1 (features_at rnd band1 band2 band3 band4 band5 band7 i)))
    = false ->
  is_nan (value (b3 (features_at rnd band1 band2 band3 band4 band5 band7 i)))
    = false ->
  decision_table rnd (features_at rnd band1 band2 band3 band4 band5 band7 i)
  = Some (item (_run_regression rnd sh no_data
                  band1 band2 band3 band4 band5 band7) i).
Proof.
  intros H52 H43 H72 H1 H3.
  unfold _run_regression. rewrite item_stores.
  unfold decision_table, left_branch, right_branch_A, right_branch_B.
  rewrite !gt_not_le by assumption.
  unfold le.
  cbn [features_at ndi_52 ndi_43 ndi_72 b1 b3 b7 at_pixel value precision].
  unfold_stores.
  name_tests. repeat split_test; reflexivity.
Qed.

(** The pixel of the scenario: ndi_52 = 0.875 > 0.34, class 0. *)
Lemma run_regression_decision_table_witness :
  decision_table exact
    (features_at exact
       (full [1; 1; 1]%nat (FNum 200) float32)
       (full [1; 1; 1]%nat (FNum 200) float32)
       (full [1; 1; 1]%nat (FNum 200) float32)
       (full [1; 1; 1]%nat (FNum 2000) float32)
       (full [1; 1; 1]%nat (FNum 3000) float32)
       (full [1; 1; 1]%nat (FNum 100) float32)
       [0; 0; 0]%nat)
  = Some (item (_run_regression exact [1; 1; 1]%nat FNaN
                  (full [1; 1; 1]%nat (FNum 200) float32)
                  (full [1; 1; 1]%nat (FNum 200) float32)
                  (full [1; 1; 1]%nat (FNum 200) float32)
                  (full [1; 1; 1]%nat (FNum 2000) float32)
                  (full [1; 1; 1]%nat (FNum 3000) float32)
                  (full [1; 1; 1]%nat (FNum 100) float32))
            [0; 0; 0]%nat).
Proof. apply run_regression_decision_table; reflexivity. Defined.

(** C8. The tree has 23 stores, decided by the 22 tests r1 to r22; whatever
    values the three indices and the bands take at a pixel (NaN and the
    infinities included), exactly one store selects the pixel. *)
Theorem exactly_one_leaf rnd ndi_52 ndi_43 ndi_72 band1 band3 band7 i :
  length (regression_stores rnd ndi_52 ndi_43 ndi_72 band1 band3 band7)
  = 23%nat /\
  length (List.filter (fun leaf => item (fst leaf) i)
            (regression_stores rnd ndi_52 ndi_43 ndi_72 band1 band3 band7))
  = 1%nat.
Proof.
  split; [reflexivity|].
  rewrite length_filter_sum.
  cbn [regression_stores app fold_right full item mand mnot le_scalar
       dtype_of shape fst].
  name_tests.
  repeat match reverse goal with
         | b : bool |- context [?c] =>
             constr_eq b c; destruct b; cbn [negb andb Nat.add]
         end.
  all: reflexivity.
Qed.

(** ** The classifier *)

Lemma lookup_alter_shape (f : ndarray fl -> ndarray fl) n
    (ds : gmap string (ndarray fl)) name :
  (forall a, shape (f a) = shape a) ->
  shape <$> alter f n ds !! name = shape <$> ds !! name.
Proof.
  intros Hf. destruct (decide (n = name)) as [->|Hne].
  - rewrite lookup_alter_eq. destruct (ds !! name); simpl; [rewrite Hf|]; reflexivity.
  - rewrite lookup_alter_ne by exact Hne. reflexivity.
Qed.

Lemma lookup_cast_bands_shape rnd dt (ds : gmap string (ndarray fl)) name :
  shape <$> cast_bands rnd dt ds !! name = shape <$> ds !! name.
Proof.
  unfold cast_bands. generalize band_names. intros names. revert ds.
  induction names as [|n names IH]; intros ds; simpl; [reflexivity|].
  rewrite IH. apply lookup_alter_shape. reflexivity.
Qed.

Lemma lookup_enforce_float_shape rnd e dt (ds : gmap string (ndarray fl)) name :
  shape <$> enforce_float rnd e dt ds !! name = shape <$> ds !! name.
Proof.
  unfold enforce_float.
  repeat case_bool_decide; destruct e; auto using lookup_cast_bands_shape.
Qed.

Lemma in_shape_length sh i : in_shape sh i = true -> length i = length sh.
Proof.
  revert i. induction sh as [|n sh IH]; intros [|k i]; simpl; try discriminate; auto.
  intros H. apply andb_true_iff in H as [_ H]. f_equal. auto.
Qed.

Lemma getattr_shape (ds : gmap string (ndarray fl)) name sh :
  shape <$> ds !! name = Some sh -> exists a, getattr ds name = inr a /\ shape a = sh.
Proof.
  unfold getattr. destruct (ds !! name) as [a|]; simpl; intros H; [|discriminate].
  exists a. split; [reflexivity | congruence].
Qed.

Lemma getitem_shape (ds : gmap string (ndarray fl)) name sh :
  shape <$> ds !! name = Some sh -> exists a, getitem ds name = inr a /\ shape a = sh.
Proof.
  unfold getitem. destruct (ds !! name) as [a|]; simpl; intros H; [|discriminate].
  exists a. split; [reflexivity | congruence].
Qed.

Lemma wofs_classify_returns rnd ds mask x y t no_data mosaic e64 :
  classify_input_ok ds mask x y t mosaic = true ->
  exists out,
    snd (wofs_classify rnd ds (Some mask) x y t no_data mosaic e64) = inr out /\
    shape (wofs out) = shape mask /\
    forall i,
      if item mask (take (length (shape mask)) i)
      then item (wofs out) i = FNum 0 \/ item (wofs out) i = FNum 1
      else item (wofs out) i = no_data.
Proof.
  unfold classify_input_ok.
  destruct (ds !! "B02"%string) as [blue|] eqn:Hblue; [|discriminate].
  intros H. apply andb_true_iff in H as [H Hc]. apply andb_true_iff in H as [Hb Hm].
  apply bool_decide_eq_true in Hm, Hc.
  assert (Hbands : forall name, name ∈ band_names -> shape <$> ds !! name = Some (shape blue)).
  { intros name Hin. rewrite forallb_forall in Hb.
    specialize (Hb name). rewrite <- list_elem_of_In in Hb. specialize (Hb Hin).
    destruct (ds !! name); [|discriminate]. apply bool_decide_eq_true in Hb.
    simpl. congruence. }
  assert (Hin : forall name, bool_decide (name ∈ band_names) = true -> name ∈ band_names)
    by (intros name; apply bool_decide_eq_true).
  unfold wofs_classify.
  repeat match goal with
         | |- context [getattr ds ?n] =>
             let a := fresh "a" in let Ha := fresh "Ha" in let Hg := fresh "Hg" in
             destruct (getattr_shape ds n _ (Hbands n (Hin n eq_refl))) as (a & Hg & Ha);
             rewrite Hg; clear Hg
         end.
  cbn [bind ret snd].
  set (ds2 := enforce_float rnd e64 _ ds).
  assert (Hshape2 : forall name, shape <$> ds2 !! name = shape <$> ds !! name)
    by (intros; apply lookup_enforce_float_shape).
  repeat match goal with
         | |- context [getattr ds2 ?n] =>
             let a := fresh "a" in let Ha := fresh "Ha" in let Hg := fresh "Hg" in
             destruct (getattr_shape ds2 n (shape blue)) as (a & Hg & Ha);
             [ rewrite Hshape2; exact (Hbands n (Hin n eq_refl)) | ];
             rewrite Hg; clear Hg
         end.
  cbn [bind ret].
  unfold copy_masked.
  rewrite shape_run_regression.
  match goal with
  | |- context [_run_regression _ (shape ?a)] =>
      match goal with H : shape a = _ |- _ => rewrite !H end
  end.
  rewrite bool_decide_eq_true_2 by (rewrite Hm; reflexivity).
  cbn [bind ret].
  assert (Hcoord : forall name n, shape <$> ds !! name = Some [n] ->
            exists c, getitem ds2 name = inr c /\ coord_len c = Some n).
  { intros name n Hn. destruct (getitem_shape ds2 name [n]) as (c & Hg & Hs).
    - rewrite Hshape2. exact Hn.
    - exists c. split; [exact Hg|]. unfold coord_len. rewrite Hs. reflexivity. }
  unfold DataArray. cbn [shape full].
  destruct mosaic; cbn [app map] in Hc.
  - destruct (shape blue) as [|Y [|X [|? ?]]] eqn:Hsh; try discriminate Hc.
    injection Hc as Hy Hx.
    destruct (Hcoord _ _ Hx) as (xc & -> & Hxl).
    destruct (Hcoord _ _ Hy) as (yc & -> & Hyl).
    cbn [bind ret map]. rewrite Hxl, Hyl.
    rewrite bool_decide_eq_true_2 by reflexivity.
    eexists. split; [reflexivity|]. cbn [wofs shape item].
    split; [congruence|].
    intros i. destruct (item mask _); [|reflexivity].
    match goal with |- context [item (_run_regression ?r ?s ?n ?b1 ?b2 ?b3 ?b4 ?b5 ?b7) ?i] =>
      destruct (run_regression_binary r s n b1 b2 b3 b4 b5 b7 i) as [->| ->] end; auto.
  - destruct (shape blue) as [|T [|Y [|X [|? ?]]]] eqn:Hsh; try discriminate Hc.
    injection Hc as Ht Hy Hx.
    destruct (Hcoord _ _ Hx) as (xc & -> & Hxl).
    destruct (Hcoord _ _ Hy) as (yc & -> & Hyl).
    destruct (Hcoord _ _ Ht) as (tc & -> & Htl).
    cbn [bind ret map]. rewrite Hxl, Hyl, Htl.
    rewrite bool_decide_eq_true_2 by reflexivity.
    eexists. split; [reflexivity|]. cbn [wofs shape item].
    split; [congruence|].
    intros i. destruct (item mask _); [|reflexivity].
    match goal with |- context [item (_run_regression ?r ?s ?n ?b1 ?b2 ?b3 ?b4 ?b5 ?b7) ?i] =>
      destruct (run_regression_binary r s n b1 b2 b3 b4 b5 b7 i) as [->| ->] end; auto.
Qed.

(** C2. On a dataset of six co-shaped bands, with a mask of their shape,
    coordinate names that label the dimensions and a no-data value that is
    not itself a class, [wofs_classify] returns a grid of that shape whose
    elements are 0, 1 or the no-data value, and an element is the no-data
    value exactly where the mask is false. *)
Theorem wofs_classify_classes rnd ds mask x_coord y_coord time_coord no_data mosaic enforce_float64 :
  classify_input_ok ds mask x_coord y_coord time_coord mosaic = true ->
  is_class no_data = false ->
  exists out,
    snd (wofs_classify rnd ds (Some mask) x_coord y_coord time_coord no_data
           mosaic enforce_float64) = inr out /\
    shape (wofs out) = shape mask /\
    forall i, in_shape (shape mask) i = true ->
      (item (wofs out) i = FNum 0 \/ item (wofs out) i = FNum 1
       \/ item (wofs out) i = no_data) /\
      (item (wofs out) i = no_data <-> item mask i = false).
Proof.
  intros Hok Hnd.
  destruct (wofs_classify_returns rnd ds mask x_coord y_coord time_coord no_data
              mosaic enforce_float64 Hok) as (out & Hout & Hsh & Hpix).
  exists out. split; [exact Hout|]. split; [exact Hsh|].
  intros i Hi. specialize (Hpix i).
  rewrite take_ge in Hpix by (rewrite (in_shape_length _ _ Hi); reflexivity).
  destruct (item mask i).
  - split; [tauto|]. split; [|discriminate].
    intros E. rewrite E in Hpix.
    destruct Hpix as [E'|E']; rewrite E' in Hnd; discriminate.
  - split; [tauto|]. tauto.
Qed.

Lemma wofs_classify_classes_witness :
  exists out,
    snd (wofs_classify exact (scenario_response uint16) (Some scenario_mask)
           "x" "y" "time" FNaN false false) = inr out /\
    shape (wofs out) = shape scenario_mask /\
    forall i, in_shape (shape scenario_mask) i = true ->
      (item (wofs out) i = FNum 0 \/ item (wofs out) i = FNum 1
       \/ item (wofs out) i = FNaN) /\
      (item (wofs out) i = FNaN <-> item scenario_mask i = false).
Proof.
  apply (wofs_classify_classes exact (scenario_response uint16) scenario_mask
           "x" "y" "time" FNaN false false); vm_compute; reflexivity.
Defined.

(** C10. Called without a clean mask, [wofs_classify] raises NameError for
    [create_default_clean_mask] and leaves the dataset as it was: nothing is
    classified. *)
Theorem wofs_classify_without_mask
    rnd ds x_coord y_coord time_coord no_data mosaic enforce_float64 :
  wofs_classify rnd ds None x_coord y_coord time_coord no_data mosaic
    enforce_float64
  = (ds, inl (NameError "create_default_clean_mask")).
Proof. reflexivity. Qed.

Lemma lookup_cast_bands_blue rnd dt (ds : gmap string (ndarray fl)) :
  cast_bands rnd dt ds !! "B02"%string = astype rnd dt <$> ds !! "B02"%string.
Proof.
  unfold cast_bands, band_names. cbn [fold_left].
  rewrite !lookup_alter_ne by discriminate.
  apply lookup_alter_eq.
Qed.

Lemma getattr_inr (ds : gmap string (ndarray fl)) name a :
  getattr ds name = inr a <-> ds !! name = Some a.
Proof.
  unfold getattr, ret, raise. destruct (ds !! name); split; congruence.
Qed.

Lemma getattr_enforce_float rnd e dt (ds : gmap string (ndarray fl)) name a :
  getattr ds name = inr a ->
  exists a', getattr (enforce_float rnd e dt ds) name = inr a'.
Proof.
  unfold getattr. intros H.
  pose proof (lookup_enforce_float_shape rnd e dt ds name) as Hs.
  destruct (ds !! name); [|discriminate].
  destruct (enforce_float rnd e dt ds !! name) as [a'|]; [|discriminate].
  exists a'. reflexivity.
Qed.

Lemma enforce_float_again rnd e dt (ds : gmap string (ndarray fl)) blue blue' :
  ds !! "B02"%string = Some blue -> dtype_of blue = dt ->
  enforce_float rnd e dt ds !! "B02"%string = Some blue' ->
  enforce_float rnd e (dtype_of blue') (enforce_float rnd e dt ds)
  = enforce_float rnd e dt ds.
Proof.
  intros Hb Hdt.
  assert (Hcast : forall w, cast_bands rnd w ds !! "B02"%string = Some blue' ->
                            dtype_of blue' = w).
  { intros w. rewrite lookup_cast_bands_blue, Hb. intros [= <-]. reflexivity. }
  assert (Hsame : ds !! "B02"%string = Some blue' -> dtype_of blue' = dt)
    by (rewrite Hb; intros [= <-]; exact Hdt).
  unfold enforce_float.
  destruct e; repeat case_bool_decide; intros Hl;
    try (apply Hcast in Hl); try (apply Hsame in Hl); congruence.
Qed.

Lemma wofs_classify_again rnd (ds : gmap string (ndarray fl)) clean_mask
    x_coord y_coord time_coord no_data mosaic (enforce_float64 : bool) :
  (forall blue,
     ds !! "B02"%string = Some blue ->
     dtype_of blue = float64
     \/ dtype_of blue = (if enforce_float64 then float64 else float32) ->
     fst (wofs_classify rnd ds clean_mask x_coord y_coord time_coord no_data
            mosaic enforce_float64) = ds) /\
  (fst (wofs_classify rnd ds clean_mask x_coord y_coord time_coord no_data
          mosaic enforce_float64) = ds
   \/ fst (wofs_classify rnd ds clean_mask x_coord y_coord time_coord no_data
             mosaic enforce_float64)
      = cast_bands rnd (if enforce_float64 then float64 else float32) ds) /\
  wofs_classify rnd
    (fst (wofs_classify rnd ds clean_mask x_coord y_coord time_coord no_data
            mosaic enforce_float64))
    clean_mask x_coord y_coord time_coord no_data mosaic enforce_float64
  = wofs_classify rnd ds clean_mask x_coord y_coord time_coord no_data mosaic
      enforce_float64.
Proof.
  destruct clean_mask as [mask|]; [| repeat split; auto ].
  unfold wofs_classify. cbn [bind ret].
  destruct (getattr ds "B02") as [e|blue] eqn:E2; cbn [bind fst];
    [rewrite ?E2; repeat split; auto|].
  destruct (getattr ds "B03") as [e|a3] eqn:E3; cbn [bind fst];
    [rewrite ?E2, ?E3; repeat split; auto|].
  destruct (getattr ds "B04") as [e|a4] eqn:E4; cbn [bind fst];
    [rewrite ?E2, ?E3, ?E4; repeat split; auto|].
  destruct (getattr ds "B08") as [e|a8] eqn:E8; cbn [bind fst];
    [rewrite ?E2, ?E3, ?E4, ?E8; repeat split; auto|].
  destruct (getattr ds "B11") as [e|a11] eqn:E11; cbn [bind fst];
    [rewrite ?E2, ?E3, ?E4, ?E8, ?E11; repeat split; auto|].
  destruct (getattr ds "B12") as [e|a12] eqn:E12; cbn [bind fst];
    [rewrite ?E2, ?E3, ?E4, ?E8, ?E11, ?E12; repeat split; auto|].
  cbn [ret].
  assert (Hblue : ds !! "B02"%string = Some blue).
  { apply getattr_inr. exact E2. }
  split; [|split].
  - intros blue0 Hb0 Hdt. assert (blue0 = blue) as -> by congruence.
    unfold enforce_float.
    destruct enforce_float64, Hdt as [Hdt|Hdt]; rewrite Hdt; reflexivity.
  - unfold enforce_float.
    destruct enforce_float64; repeat case_bool_decide; auto.
  - set (ds2 := enforce_float rnd enforce_float64 (dtype_of blue) ds).
    destruct (getattr_enforce_float rnd enforce_float64 (dtype_of blue) ds _ _ E2)
      as (blue' & E2').
    destruct (getattr_enforce_float rnd enforce_float64 (dtype_of blue) ds _ _ E3)
      as (? & E3').
    destruct (getattr_enforce_float rnd enforce_float64 (dtype_of blue) ds _ _ E4)
      as (? & E4').
    destruct (getattr_enforce_float rnd enforce_float64 (dtype_of blue) ds _ _ E8)
      as (? & E8').
    destruct (getattr_enforce_float rnd enforce_float64 (dtype_of blue) ds _ _ E11)
      as (? & E11').
    destruct (getattr_enforce_float rnd enforce_float64 (dtype_of blue) ds _ _ E12)
      as (? & E12').
    fold ds2 in E2', E3', E4', E8', E11', E12'.
    assert (Hagain : enforce_float rnd enforce_float64 (dtype_of blue') ds2 = ds2).
    { apply (enforce_float_again rnd enforce_float64 (dtype_of blue) ds blue blue');
        [exact Hblue | reflexivity |].
      apply getattr_inr. exact E2'. }
    cbn [fst]. rewrite E2', E3', E4', E8', E11', E12'. cbn [bind ret].
    rewrite Hagain. rewrite E2', E3', E4', E8', E11', E12'. reflexivity.
Qed.

Lemma lookup_fold_alter {A} (f : A -> A) (names : list string)
    (ds : gmap string A) (name : string) :
  NoDup names ->
  fold_left (fun d n => alter f n d) names ds !! name
  = if bool_decide (name ∈ names) then f <$> ds !! name else ds !! name.
Proof.
  intros Hnd. revert ds. induction Hnd as [|n names Hn Hnd IH]; intros ds.
  - reflexivity.
  - cbn [fold_left]. rewrite IH.
    destruct (decide (name = n)) as [->|Hne].
    + rewrite (bool_decide_eq_false_2 _ Hn).
      rewrite (bool_decide_eq_true_2 (n ∈ n :: names)) by left.
      apply lookup_alter_eq.
    + rewrite lookup_alter_ne by congruence.
      destruct (bool_decide (name ∈ names)) eqn:E.
      * apply bool_decide_eq_true in E.
        rewrite (bool_decide_eq_true_2 (name ∈ n :: names)) by (right; exact E).
        reflexivity.
      * apply bool_decide_eq_false in E.
        rewrite (bool_decide_eq_false_2 (name ∈ n :: names)); [reflexivity|].
        intros [?|?]%elem_of_cons; congruence.
Qed.

Lemma lookup_cast_bands rnd dt (ds : gmap string (ndarray fl)) name :
  cast_bands rnd dt ds !! name
  = if bool_decide (name ∈ band_names) then astype rnd dt <$> ds !! name
    else ds !! name.
Proof.
  unfold cast_bands. apply lookup_fold_alter.
  apply (bool_decide_unpack (NoDup band_names)). vm_compute. exact I.
Qed.

Lemma first_absent_none (ds : gmap string (ndarray fl)) names name :
  first_absent ds names = None -> name ∈ names -> exists a, ds !! name = Some a.
Proof.
  unfold first_absent. intros H Hin.
  apply list_elem_of_In in Hin.
  pose proof (find_none _ _ H _ Hin) as Hn. unfold absent in Hn.
  destruct (ds !! name) as [a|]; [eauto|discriminate].
Qed.

Lemma prologue_bands rnd (ds : gmap string (ndarray fl)) mask x y t no_data mosaic e64 blue :
  first_absent ds band_names = None ->
  ds !! "B02"%string = Some blue ->
  wofs_classify rnd ds (Some mask) x y t no_data mosaic e64
  = (enforce_float rnd e64 (dtype_of blue) ds,
     snd (wofs_classify rnd ds (Some mask) x y t no_data mosaic e64)).
Proof.
  intros Hall Hb. unfold wofs_classify, getattr.
  rewrite Hb.
  repeat match goal with
  | |- context [ds !! ?n] =>
      lazymatch n with
      | "B02"%string => fail
      | _ => let a := fresh "a" in let Ha := fresh "Ha" in
             destruct (first_absent_none ds band_names n Hall) as [a Ha];
             [ repeat constructor | rewrite Ha ]
      end
  end.
  reflexivity.
Qed.

Lemma prologue_missing_band
    rnd (ds : gmap string (ndarray fl)) mask x y t no_data mosaic e64 name :
  first_absent ds band_names = Some name ->
  wofs_classify rnd ds (Some mask) x y t no_data mosaic e64
  = (ds, inl (AttributeError name)).
Proof.
  unfold first_absent, band_names, absent. cbn [find].
  unfold wofs_classify, getattr.
  repeat match goal with
  | |- context [ds !! ?n] => destruct (ds !! n) eqn:?; cbn [bind ret raise]
  end; intros H; try discriminate H; injection H as <-; reflexivity.
Qed.

(** C7 (amended). Called without a mask, or on a dataset that lacks one of
    the six bands, [wofs_classify] raises before it converts anything and
    leaves the dataset as it was.  Called with a mask on a dataset that has
    the six bands, it leaves the dataset as it was when the blue band is
    float64 already, or float32 and float64 is not enforced; otherwise the
    dataset it leaves is the input with each of its six bands replaced by
    its cast to the working float dtype (float64 when enforced, float32
    otherwise) and every other variable as it was.  Calling it again on the
    dataset it left gives the same result and leaves that dataset as it
    is. *)
Theorem wofs_classify_frame rnd (ds : gmap string (ndarray fl)) clean_mask
    x_coord y_coord time_coord no_data mosaic (enforce_float64 : bool) :
  (clean_mask = None \/ first_absent ds band_names <> None ->
   fst (wofs_classify rnd ds clean_mask x_coord y_coord time_coord no_data
          mosaic enforce_float64) = ds) /\
  (forall blue,
     ds !! "B02"%string = Some blue ->
     dtype_of blue = float64
     \/ dtype_of blue = (if enforce_float64 then float64 else float32) ->
     fst (wofs_classify rnd ds clean_mask x_coord y_coord time_coord no_data
            mosaic enforce_float64) = ds) /\
  (forall blue,
     clean_mask <> None ->
     first_absent ds band_names = None ->
     ds !! "B02"%string = Some blue ->
     dtype_of blue <> float64 ->
     dtype_of blue <> (if enforce_float64 then float64 else float32) ->
     fst (wofs_classify rnd ds clean_mask x_coord y_coord time_coord no_data
            mosaic enforce_float64)
     = cast_bands rnd (if enforce_float64 then float64 else float32) ds /\
     forall name,
       fst (wofs_classify rnd ds clean_mask x_coord y_coord time_coord no_data
              mosaic enforce_float64) !! name
       = if bool_decide (name ∈ band_names)
         then astype rnd (if enforce_float64 then float64 else float32)
                <$> ds !! name
         else ds !! name) /\
  wofs_classify rnd
    (fst (wofs_classify rnd ds clean_mask x_coord y_coord time_coord no_data
            mosaic enforce_float64))
    clean_mask x_coord y_coord time_coord no_data mosaic enforce_float64
  = wofs_classify rnd ds clean_mask x_coord y_coord time_coord no_data mosaic
      enforce_float64.
Proof.
  destruct (wofs_classify_again rnd ds clean_mask x_coord y_coord time_coord
              no_data mosaic enforce_float64) as (Hsame & _ & Hagain).
  split; [|split; [exact Hsame|split; [|exact Hagain]]].
  - intros [->|Habs]; [reflexivity|].
    destruct clean_mask as [mask|]; [|reflexivity].
    destruct (first_absent ds band_names) as [name|] eqn:E; [|contradiction].
    rewrite (prologue_missing_band rnd ds mask x_coord y_coord time_coord
               no_data mosaic enforce_float64 name E).
    reflexivity.
  - intros blue Hmask Hall Hb H64 Hw.
    destruct clean_mask as [mask|]; [|contradiction].
    rewrite (prologue_bands rnd ds mask x_coord y_coord time_coord no_data
               mosaic enforce_float64 blue Hall Hb). cbn [fst].
    assert (Hcast : enforce_float rnd enforce_float64 (dtype_of blue) ds
                    = cast_bands rnd (if enforce_float64 then float64 else float32) ds).
    { unfold enforce_float.
      destruct enforce_float64; repeat case_bool_decide;
        try reflexivity; contradiction. }
    rewrite Hcast. split; [reflexivity|].
    intros name. apply lookup_cast_bands.
Qed.

Lemma wofs_classify_frame_witness :
  fst (wofs_classify exact (scenario_response uint16) (Some scenario_mask)
         "x" "y" "time" FNaN false false)
  = cast_bands exact float32 (scenario_response uint16) /\
  forall name,
    fst (wofs_classify exact (scenario_response uint16) (Some scenario_mask)
           "x" "y" "time" FNaN false false) !! name
    = if bool_decide (name ∈ band_names)
      then astype exact float32 <$> scenario_response uint16 !! name
      else scenario_response uint16 !! name.
Proof.
  apply (proj1 (proj2 (proj2
           (wofs_classify_frame exact (scenario_response uint16)
              (Some scenario_mask) "x" "y" "time" FNaN false false)))
           (full [1; 1; 1]%nat (FNum 200) uint16));
    first [discriminate | vm_compute; reflexivity].
Defined.

(** C7, as stated, fails: on bands held as uint16 the call replaces the
    arrays of the dataset by float32 ones. *)
Lemma wofs_classify_changes_bands :
  fst (wofs_classify exact (scenario_response uint16) (Some scenario_mask)
         "x" "y" "time" FNaN false false)
  <> scenario_response uint16.
Proof.
  intros H.
  apply (f_equal (fun d : gmap string (ndarray fl) =>
                    dtype_of <$> d !! "B02"%string)) in H.
  vm_compute in H. discriminate.
Qed.

(** ** Sampling one point-month *)

(** ** Lists *)

Lemma forallb_flat_map' {A B} (p : B -> bool) (f : A -> list B) (l : list A) :
  forallb p (flat_map f l) = forallb (fun a => forallb p (f a)) l.
Proof.
  induction l as [|a l IH]; simpl; [reflexivity|].
  rewrite forallb_app, IH. reflexivity.
Qed.

Lemma existsb_flat_map' {A B} (p : B -> bool) (f : A -> list B) (l : list A) :
  existsb p (flat_map f l) = existsb (fun a => existsb p (f a)) l.
Proof.
  induction l as [|a l IH]; simpl; [reflexivity|].
  rewrite existsb_app, IH. reflexivity.
Qed.

Lemma forallb_map' {A B} (p : B -> bool) (f : A -> B) (l : list A) :
  forallb p (map f l) = forallb (fun a => p (f a)) l.
Proof. induction l as [|a l IH]; simpl; [reflexivity|]. rewrite IH. reflexivity. Qed.

Lemma existsb_map' {A B} (p : B -> bool) (f : A -> B) (l : list A) :
  existsb p (map f l) = existsb (fun a => p (f a)) l.
Proof. induction l as [|a l IH]; simpl; [reflexivity|]. rewrite IH. reflexivity. Qed.

Lemma map_flat_map' {A B C} (f : B -> C) (g : A -> list B) (l : list A) :
  map f (flat_map g l) = flat_map (fun a => map f (g a)) l.
Proof.
  induction l as [|a l IH]; simpl; [reflexivity|].
  rewrite map_app, IH. reflexivity.
Qed.

Lemma existsb_filter' {A} (p q : A -> bool) (l : list A) :
  existsb q (List.filter p l) = existsb (fun a => p a && q a) l.
Proof.
  induction l as [|a l IH]; simpl; [reflexivity|].
  destruct (p a); simpl; rewrite IH; reflexivity.
Qed.

Lemma filter_id_map {A} (f : A -> bool) (l : list A) :
  length (List.filter (fun b => b) (map f l)) = length (List.filter f l).
Proof.
  induction l as [|a l IH]; simpl; [reflexivity|].
  destruct (f a); simpl; rewrite IH; reflexivity.
Qed.

Lemma filter_ext_seq (f g : nat -> bool) (s n : nat) :
  (forall t, (s <= t < s + n)%nat -> f t = g t) ->
  List.filter f (seq s n) = List.filter g (seq s n).
Proof.
  intros H. apply List.filter_ext_in. intros t Ht. apply H.
  apply in_seq in Ht. exact Ht.
Qed.

Lemma nth_map_seq {A} (f : nat -> A) (n t : nat) (d : A) :
  (t < n)%nat -> nth t (map f (seq 0 n)) d = f t.
Proof.
  intros H. rewrite (nth_indep _ d (f 0%nat)) by (rewrite length_map, length_seq; exact H).
  rewrite map_nth, seq_nth by exact H. reflexivity.
Qed.

Lemma forallb_ext' {A} (f g : A -> bool) (l : list A) :
  (forall a, f a = g a) -> forallb f l = forallb g l.
Proof. intros H. induction l as [|a l IH]; simpl; [reflexivity|]. rewrite H, IH. reflexivity. Qed.

Lemma existsb_ext' {A} (f g : A -> bool) (l : list A) :
  (forall a, f a = g a) -> existsb f l = existsb g l.
Proof. intros H. induction l as [|a l IH]; simpl; [reflexivity|]. rewrite H, IH. reflexivity. Qed.

Lemma forallb_ext_in' {A} (f g : A -> bool) (l : list A) :
  (forall a, In a l -> f a = g a) -> forallb f l = forallb g l.
Proof.
  induction l as [|a l IH]; intros H; simpl; [reflexivity|].
  rewrite (H a (or_introl eq_refl)), IH; [reflexivity|].
  intros b Hb. apply H. right. exact Hb.
Qed.

Lemma in_indices (sh : list nat) (i : index) :
  in_shape sh i = true -> In i (indices sh).
Proof.
  revert i. induction sh as [|n sh IH]; intros [|k i] H; try discriminate H.
  - left. reflexivity.
  - cbn [in_shape] in H. apply andb_true_iff in H as [Hk Hi].
    apply Nat.ltb_lt in Hk. cbn [indices]. apply in_flat_map.
    exists k. split; [apply in_seq; lia|].
    apply in_map. apply IH. exact Hi.
Qed.

Lemma response_ok_inv (ds : gmap string (ndarray fl)) :
  response_ok ds = true ->
  exists blue scl T Y X,
    ds !! "B02"%string = Some blue /\ ds !! "SCL"%string = Some scl /\
    shape blue = [T; Y; X] /\ shape scl = [T; Y; X] /\
    (0 < Y)%nat /\ (0 < X)%nat /\
    forall m : ndarray bool, shape m = [T; Y; X] ->
      classify_input_ok ds m "x" "y" "time" false = true.
Proof.
  unfold response_ok.
  destruct (ds !! "B02"%string) as [blue|] eqn:Hblue; [|discriminate].
  destruct (shape blue) as [|T [|Y [|X [|? ?]]]] eqn:Hsh; try discriminate.
  rewrite !andb_true_iff.
  intros [[[[[[Hv Hd] HY] HX] Ht] Hy] Hx].
  apply bool_decide_eq_true in Ht, Hy, Hx.
  apply Nat.ltb_lt in HY, HX.
  unfold scene_variables in Hv. rewrite forallb_app in Hv.
  apply andb_true_iff in Hv as [Hb Hs]. cbn [forallb] in Hs.
  destruct (ds !! "SCL"%string) as [scl|] eqn:Hscl; [|discriminate].
  rewrite andb_true_r in Hs. apply bool_decide_eq_true in Hs.
  exists blue, scl, T, Y, X.
  do 6 (split; [first [reflexivity | assumption]|]).
  intros m Hm. unfold classify_input_ok. rewrite Hblue, Hsh.
  rewrite Hb. cbn [andb app map].
  rewrite bool_decide_eq_true_2 by exact Hm.
  rewrite Ht, Hy, Hx. apply bool_decide_eq_true_2. reflexivity.
Qed.

Section Grid.
Variable w : ndarray fl.
Variables T Y X : nat.
Hypothesis Hshape : shape w = [T; Y; X].

Lemma scenes_seq : scenes w = seq 0 T.
Proof. unfold scenes. rewrite Hshape. reflexivity. Qed.

Lemma all_xy_scene_clear t :
  forallb (fun y =>
    forallb (fun x => item (mor (eq_scalar w 1) (eq_scalar w 0)) [t; y; x])
            (seq 0 X)) (seq 0 Y)
  = scene_clear w t.
Proof.
  unfold scene_clear, scene_pixels. rewrite Hshape.
  rewrite forallb_flat_map'. apply forallb_ext'. intros y.
  rewrite forallb_map'. apply forallb_ext'. intros x.
  cbn [mor eq_scalar item]. unfold is_class. apply orb_comm.
Qed.

Lemma np_sum_clear_count :
  np_sum (map (scene_clear w) (seq 0 T)) = Z.of_nat (clear_count w).
Proof.
  unfold np_sum, clear_count. rewrite filter_id_map, scenes_seq. reflexivity.
Qed.

Lemma isel_time_clear :
  isel_time (eq_scalar w 1) (map (scene_clear w) (seq 0 T))
  = flat_map (fun t => map is_water (scene_pixels w t))
      (List.filter (scene_clear w) (seq 0 T)).
Proof.
  unfold isel_time. cbn [eq_scalar shape]. rewrite Hshape.
  rewrite (filter_ext_seq (fun t => nth t (map (scene_clear w) (seq 0 T)) false)
             (scene_clear w))
    by (intros t Ht; apply nth_map_seq; lia).
  apply flat_map_ext. intros t.
  unfold scene_pixels. rewrite Hshape.
  rewrite map_flat_map'.
  apply flat_map_ext. intros y. rewrite map_map. reflexivity.
Qed.

Lemma max_selected_wet :
  existsb (fun b => b)
    (isel_time (eq_scalar w 1) (map (scene_clear w) (seq 0 T)))
  = wet_verdict w.
Proof.
  rewrite isel_time_clear. unfold wet_verdict. rewrite scenes_seq.
  rewrite existsb_flat_map', existsb_filter'.
  apply existsb_ext'. intros t. rewrite existsb_map'. reflexivity.
Qed.

Lemma selected_nonempty :
  (0 < Y)%nat -> (0 < X)%nat -> (0 < clear_count w)%nat ->
  isel_time (eq_scalar w 1) (map (scene_clear w) (seq 0 T)) <> [].
Proof.
  intros HY HX Hc. rewrite isel_time_clear.
  unfold clear_count in Hc. rewrite scenes_seq in Hc.
  destruct (List.filter (scene_clear w) (seq 0 T)) as [|t l]; [simpl in Hc; lia|].
  unfold scene_pixels. rewrite Hshape.
  destruct Y as [|Y']; [lia|]. destruct X as [|X']; [lia|].
  discriminate.
Qed.

Lemma no_clear_scene_not_wet :
  clear_count w = 0%nat -> wet_verdict w = false.
Proof.
  unfold clear_count, wet_verdict. intros Hc.
  rewrite <- existsb_filter'.
  destruct (List.filter (scene_clear w) (scenes w)); [reflexivity | discriminate].
Qed.

End Grid.

Section Sampling.
Variable rnd : dtype -> Q -> Q.

Lemma classified_scenes month plot_id (ds : gmap string (ndarray fl)) rw rc :
  (1 <=? month) && (month <=? 12) = true ->
  response_ok ds = true ->
  exists scl out time,
    ds !! "SCL"%string = Some scl /\
    time_window month = inr time /\
    snd (wofs_classify rnd ds (Some (isin scl clean_codes)) "x" "y" "time"
           FNaN false false) = inr out /\
    shape (wofs out) = shape scl /\
    (forall t y x, is_class (item (wofs out) [t; y; x])
                   = item (isin scl clean_codes) [t; y; x]) /\
    get_wofs_for_point rnd month plot_id ds rw rc
    = (<[result_key plot_id month := Z.b2z (wet_verdict (wofs out))]> rw,
       <[result_key plot_id month := Z.of_nat (clear_count (wofs out))]> rc,
       inr (Some time)).
Proof.
  intros Hmonth Hok.
  destruct (response_ok_inv ds Hok)
    as (blue & scl & T & Y & X & Hblue & Hscl & Hsh & Hss & HY & HX & Hin).
  specialize (Hin (isin scl clean_codes) Hss).
  destruct (wofs_classify_returns rnd ds _ "x" "y" "time" FNaN false false Hin)
    as (out & Hout & Hshape & Hpix).
  cbn [isin shape] in Hshape.
  assert (Hclass : forall t y x, is_class (item (wofs out) [t; y; x])
                   = item (isin scl clean_codes) [t; y; x]).
  { intros t y x. specialize (Hpix [t; y; x]).
    cbn [isin shape] in Hpix. rewrite Hss in Hpix.
    cbn [length take item] in Hpix.
    destruct (item (isin scl clean_codes) [t; y; x]).
    - destruct Hpix as [-> | ->]; reflexivity.
    - rewrite Hpix. reflexivity. }
  exists scl, out. unfold get_wofs_for_point, time_window.
  rewrite Hmonth. eexists. split; [exact Hscl|]. split; [reflexivity|].
  split; [exact Hout|]. split; [exact Hshape|]. split; [exact Hclass|].
  cbn [ret]. rewrite Hblue. unfold getitem. rewrite Hscl. cbn [bind ret].
  fold clean_codes. rewrite Hout. cbn [bind].
  rewrite Hss in Hshape.
  unfold all_xy. cbn [mor eq_scalar shape]. rewrite Hshape. cbn [bind ret].
  rewrite (map_ext _ (scene_clear (wofs out)))
    by (intros t; apply (all_xy_scene_clear _ T Y X Hshape)).
  rewrite (np_sum_clear_count _ T Y X Hshape).
  rewrite (max_selected_wet _ T Y X Hshape) || idtac.
  destruct (0 <? Z.of_nat (clear_count (wofs out))) eqn:Hn.
  - apply Z.ltb_lt in Hn.
    pose proof (selected_nonempty _ T Y X Hshape HY HX ltac:(lia)) as Hne.
    pose proof (max_selected_wet _ T Y X Hshape) as Hmax.
    unfold np_max.
    destruct (isel_time _ _) as [|b l]; [congruence|].
    cbn [bind ret]. rewrite Hmax. reflexivity.
  - apply Z.ltb_ge in Hn. cbn [bind ret].
    rewrite (no_clear_scene_not_wet (wofs out)) by lia. reflexivity.
Qed.

Lemma valid_month month :
  1 <= month <= 12 -> (1 <=? month) && (month <=? 12) = true.
Proof. intros [H1 H2]. apply andb_true_iff. split; apply Z.leb_le; assumption. Qed.

(** C3. On a response with data, the task records under its key
    clear_count, the number of clear scenes, and wet, whether some clear
    scene has a pixel classified 1; a scene is clear exactly when every
    pixel of the footprint is classified 0 or 1; with no clear scene wet is
    false, so wet implies a clear count of at least 1 and a clear scene with
    a water pixel. *)
Theorem point_month_verdict month plot_id (ds : gmap string (ndarray fl)) rw rc :
  1 <= month <= 12 ->
  response_ok ds = true ->
  exists scl out time,
    ds !! "SCL"%string = Some scl /\
    snd (wofs_classify rnd ds (Some (isin scl clean_codes)) "x" "y" "time"
           FNaN false false) = inr out /\
    get_wofs_for_point rnd month plot_id ds rw rc
    = (<[result_key plot_id month := Z.b2z (wet_verdict (wofs out))]> rw,
       <[result_key plot_id month := Z.of_nat (clear_count (wofs out))]> rc,
       inr (Some time)) /\
    (forall t, scene_clear (wofs out) t = true <->
               forall v, In v (scene_pixels (wofs out) t) -> is_class v = true) /\
    (clear_count (wofs out) = 0%nat -> wet_verdict (wofs out) = false) /\
    (wet_verdict (wofs out) = true ->
     (1 <= clear_count (wofs out))%nat /\
     exists t, In t (scenes (wofs out)) /\ scene_clear (wofs out) t = true /\
               exists v, In v (scene_pixels (wofs out) t) /\ is_water v = true).
Proof.
  intros Hmonth Hok.
  destruct (classified_scenes month plot_id ds rw rc (valid_month _ Hmonth) Hok)
    as (scl & out & time & Hscl & _ & Hout & _ & _ & Hrun).
  exists scl, out, time.
  split; [exact Hscl|]. split; [exact Hout|]. split; [exact Hrun|].
  split; [intros t; apply forallb_forall|].
  split; [apply no_clear_scene_not_wet|].
  intros Hwet. split.
  - destruct (clear_count (wofs out)) eqn:Hc; [|lia].
    rewrite (no_clear_scene_not_wet _ Hc) in Hwet. discriminate.
  - unfold wet_verdict in Hwet. apply existsb_exists in Hwet as (t & Ht & Hb).
    apply andb_true_iff in Hb as [Hclear Hwater].
    exists t. split; [exact Ht|]. split; [exact Hclear|].
    apply existsb_exists in Hwater. exact Hwater.
Qed.

Lemma scene_clear_mask (w : ndarray fl) (m : ndarray bool) T Y X t :
  shape w = [T; Y; X] ->
  (forall t y x, is_class (item w [t; y; x]) = item m [t; y; x]) ->
  scene_clear w t
  = forallb (fun y => forallb (fun x => item m [t; y; x]) (seq 0 X)) (seq 0 Y).
Proof.
  intros Hsh Hm. unfold scene_clear, scene_pixels. rewrite Hsh.
  rewrite forallb_flat_map'. apply forallb_ext'. intros y.
  rewrite forallb_map'. apply forallb_ext'. intros x. apply Hm.
Qed.

Lemma clear_count_le (w : ndarray fl) T Y X :
  shape w = [T; Y; X] -> (clear_count w <= T)%nat.
Proof.
  intros Hsh. unfold clear_count. rewrite (scenes_seq w T Y X Hsh).
  etransitivity; [apply List.filter_length_le|]. rewrite length_seq. lia.
Qed.

Lemma filter_seq_prefix (f g : nat -> bool) (n n' : nat) :
  (n <= n')%nat -> (forall t, (t < n)%nat -> f t = g t) ->
  (length (List.filter f (seq 0 n)) <= length (List.filter g (seq 0 n')))%nat.
Proof.
  intros Hn Hfg. replace n' with (n + (n' - n))%nat by lia.
  rewrite seq_app, List.filter_app, length_app.
  rewrite (filter_ext_seq f g 0 n) by (intros t Ht; apply Hfg; lia). lia.
Qed.

(** C9. The recorded clear count is at most the number of scenes of the
    response, and a response that holds the same scenes followed by further
    ones records a clear count at least as large. *)
Theorem clear_count_monotone month plot_id (ds ds' : gmap string (ndarray fl)) :
  1 <= month <= 12 ->
  response_ok ds = true ->
  response_ok ds' = true ->
  extends_scenes ds ds' = true ->
  exists n n',
    recorded_clear rnd month plot_id ds = Some n /\
    recorded_clear rnd month plot_id ds' = Some n' /\
    0 <= n <= Z.of_nat (scene_count ds) /\
    n <= n'.
Proof.
  intros Hmonth Hok Hok' Hext.
  apply andb_true_iff in Hext as [Hcount Hext]. apply Nat.leb_le in Hcount.
  rewrite forallb_forall in Hext.
  destruct (classified_scenes month plot_id ds ∅ ∅ (valid_month _ Hmonth) Hok)
    as (scl & out & time & Hscl & _ & _ & Hsh & Hclass & Hrun).
  destruct (classified_scenes month plot_id ds' ∅ ∅ (valid_month _ Hmonth) Hok')
    as (scl' & out' & time' & Hscl' & _ & _ & Hsh' & Hclass' & Hrun').
  destruct (response_ok_inv ds Hok)
    as (blue & scl0 & T & Y & X & Hblue & Hscl0 & Hb & Hs & _).
  destruct (response_ok_inv ds' Hok')
    as (blue' & scl0' & T' & Y' & X' & Hblue' & Hscl0' & Hb' & Hs' & _).
  assert (scl0 = scl) as -> by congruence.
  assert (scl0' = scl') as -> by congruence.
  rewrite Hs in Hsh. rewrite Hs' in Hsh'.
  assert (HT : scene_count ds = T) by (unfold scene_count; rewrite Hblue; cbn [fmap option_fmap option_map]; rewrite Hb; reflexivity).
  assert (HT' : scene_count ds' = T') by (unfold scene_count; rewrite Hblue'; cbn [fmap option_fmap option_map]; rewrite Hb'; reflexivity).
  assert (Hin : In "SCL"%string scene_variables)
    by (apply list_elem_of_In, (proj1 (bool_decide_eq_true _)); reflexivity).
  specialize (Hext _ Hin). rewrite Hscl, Hscl' in Hext.
  apply andb_true_iff in Hext as [Hext Hitems].
  apply andb_true_iff in Hext as [_ Htail].
  apply bool_decide_eq_true in Htail.
  rewrite forallb_forall in Hitems.
  rewrite Hs, Hs' in Htail. injection Htail as -> ->.
  exists (Z.of_nat (clear_count (wofs out))), (Z.of_nat (clear_count (wofs out'))).
  unfold recorded_clear. rewrite Hrun, Hrun'. cbn [fst snd].
  rewrite !lookup_insert_eq.
  split; [reflexivity|]. split; [reflexivity|].
  split.
  - pose proof (clear_count_le _ _ _ _ Hsh). lia.
  - apply inj_le. unfold clear_count.
    rewrite (scenes_seq _ _ _ _ Hsh), (scenes_seq _ _ _ _ Hsh').
    apply filter_seq_prefix; [lia|].
    intros t Ht.
    rewrite (scene_clear_mask _ _ _ _ _ t Hsh Hclass).
    rewrite (scene_clear_mask _ _ _ _ _ t Hsh' Hclass').
    apply forallb_ext_in'. intros y Hy. apply forallb_ext_in'. intros x Hx.
    apply in_seq in Hy, Hx.
    cbn [isin item].
    assert (Hi : In [t; y; x] (indices (shape scl))).
    { rewrite Hs. apply in_indices. cbn [in_shape].
      rewrite !andb_true_iff, !Nat.ltb_lt. lia. }
    apply Hitems, bool_decide_eq_true in Hi. rewrite Hi. reflexivity.
Qed.

(** C4 (amended). When the blue band B02 is absent from the response, the
    task returns without a value and without raising, and both result
    dictionaries are as they were. *)
Theorem missing_blue_band month plot_id (ds : gmap string (ndarray fl)) rw rc :
  1 <= month <= 12 ->
  ds !! "B02"%string = None ->
  exists time,
    time_window month = inr time /\
    get_wofs_for_point rnd month plot_id ds rw rc = (rw, rc, inr None).
Proof.
  intros Hmonth Hb. unfold get_wofs_for_point, time_window.
  rewrite (valid_month _ Hmonth). eexists. split; [reflexivity|].
  cbn [ret]. rewrite Hb. reflexivity.
Qed.

End Sampling.

(** The scenario of the specification: not wet, one clear scene. *)
Example scenario_point_month :
  get_wofs_for_point exact 8 137387171 (scenario_response uint16) ∅ ∅
  = ({[ "137387171_8"%string := 0 ]}, {[ "137387171_8"%string := 1 ]},
     inr (Some ("2018-08", "2018-08-06")%string)).
Proof. vm_compute. reflexivity. Qed.

Lemma point_month_verdict_witness :
  exists scl out time,
    scenario_response uint16 !! "SCL"%string = Some scl /\
    snd (wofs_classify exact (scenario_response uint16)
           (Some (isin scl clean_codes)) "x" "y" "time" FNaN false false)
    = inr out /\
    get_wofs_for_point exact 8 137387171 (scenario_response uint16) ∅ ∅
    = (<[result_key 137387171 8 := Z.b2z (wet_verdict (wofs out))]> ∅,
       <[result_key 137387171 8 := Z.of_nat (clear_count (wofs out))]> ∅,
       inr (Some time)) /\
    (forall t, scene_clear (wofs out) t = true <->
               forall v, In v (scene_pixels (wofs out) t) -> is_class v = true) /\
    (clear_count (wofs out) = 0%nat -> wet_verdict (wofs out) = false) /\
    (wet_verdict (wofs out) = true ->
     (1 <= clear_count (wofs out))%nat /\
     exists t, In t (scenes (wofs out)) /\ scene_clear (wofs out) t = true /\
               exists v, In v (scene_pixels (wofs out) t) /\ is_water v = true).
Proof.
  apply (point_month_verdict exact 8 137387171 (scenario_response uint16) ∅ ∅);
    [lia | vm_compute; reflexivity].
Defined.

Lemma clear_count_monotone_witness :
  exists n n',
    recorded_clear exact 8 137387171 (scenario_response uint16) = Some n /\
    recorded_clear exact 8 137387171 (two_scene_response uint16) = Some n' /\
    0 <= n <= Z.of_nat (scene_count (scenario_response uint16)) /\
    n <= n'.
Proof.
  apply (clear_count_monotone exact 8 137387171 (scenario_response uint16)
           (two_scene_response uint16));
    [lia | vm_compute; reflexivity ..].
Defined.

Lemma missing_blue_band_witness :
  exists time,
    time_window 8 = inr time /\
    get_wofs_for_point exact 8 137387171 ∅ ∅ ∅ = (∅, ∅, inr None).
Proof.
  apply (missing_blue_band exact 8 137387171 ∅ ∅ ∅); [lia | reflexivity].
Defined.

(** C4, as stated, fails: a response that lacks the green band B03 but has
    the blue one makes the task raise AttributeError. *)
Lemma missing_green_band_raises :
  response_without_green !! "B03"%string = None /\
  get_wofs_for_point exact 8 137387171 response_without_green ∅ ∅
  = (∅, ∅, inl (AttributeError "B03")).
Proof. split; vm_compute; reflexivity. Qed.

(** ** Seasonal accuracy *)

Lemma unique_sorted_elem (vs : list Z) (v : Z) :
  v ∈ unique_sorted vs <-> v ∈ vs.
Proof.
  unfold unique_sorted. rewrite merge_sort_Permutation. apply elem_of_remove_dups.
Qed.

Lemma unique_sorted_NoDup (vs : list Z) : NoDup (unique_sorted vs).
Proof.
  unfold unique_sorted. rewrite merge_sort_Permutation. apply NoDup_remove_dups.
Qed.

Lemma unique_sorted_sorted (vs : list Z) : StronglySorted Z.le (unique_sorted vs).
Proof. unfold unique_sorted. apply StronglySorted_merge_sort; apply _. Qed.

Lemma unique_sorted_binary (vs : list Z) :
  (forall v, In v vs -> v = 0 \/ v = 1) -> In 0 vs -> In 1 vs ->
  unique_sorted vs = [0; 1].
Proof.
  intros Hbin H0 H1.
  pose proof (unique_sorted_NoDup vs) as Hnd.
  pose proof (unique_sorted_sorted vs) as Hs.
  assert (Hel : forall v, v ∈ unique_sorted vs <-> v = 0 \/ v = 1).
  { intros v. rewrite unique_sorted_elem, list_elem_of_In. split; [apply Hbin|].
    intros [-> | ->]; assumption. }
  destruct (unique_sorted vs) as [|a l].
  { exfalso. apply (not_elem_of_nil 0). apply Hel. auto. }
  apply NoDup_cons in Hnd as [Ha Hnd].
  apply StronglySorted_inv in Hs as [Hs Hall].
  rewrite Forall_forall in Hall.
  assert (a = 0) as ->.
  { assert (H : 0 ∈ a :: l) by (apply Hel; auto).
    assert (H' : a ∈ a :: l) by left. apply Hel in H'.
    apply elem_of_cons in H as [H | H]; [congruence|].
    specialize (Hall 0 H). lia. }
  assert (Hl : forall v, v ∈ l <-> v = 1).
  { intros v. split.
    - intros Hv. assert (H : v ∈ 0 :: l) by (right; exact Hv).
      apply Hel in H as [-> | ->]; [contradiction | reflexivity].
    - intros ->. assert (H : 1 ∈ 0 :: l) by (apply Hel; auto).
      apply elem_of_cons in H as [H | H]; [discriminate | exact H]. }
  destruct l as [|b l].
  { exfalso. apply (not_elem_of_nil 1). apply Hl. reflexivity. }
  assert (b = 1) as -> by (apply Hl; left).
  apply NoDup_cons in Hnd as [Hb _].
  destruct l as [|c l]; [reflexivity|].
  exfalso. apply Hb. assert (c = 1) as -> by (apply Hl; right; left). left.
Qed.

Lemma binary_table_In (t : list obs) :
  binary_table t = true ->
  forall o, In o t ->
    (ACTUAL o = 0 \/ ACTUAL o = 1) /\ (PREDICTION o = 0 \/ PREDICTION o = 1).
Proof.
  unfold binary_table. rewrite forallb_forall. intros H o Ho.
  specialize (H o Ho). apply andb_true_iff in H as [Ha Hp].
  apply orb_true_iff in Ha, Hp. rewrite !Z.eqb_eq in Ha, Hp. tauto.
Qed.

Lemma both_classes_In (t : list obs) :
  both_classes t = true ->
  In 0 (map ACTUAL t) /\ In 1 (map ACTUAL t) /\
  In 0 (map PREDICTION t) /\ In 1 (map PREDICTION t).
Proof.
  unfold both_classes. rewrite !andb_true_iff, !existsb_exists.
  intros [[[(a & Ha & Ea) (b & Hb & Eb)] (c & Hc & Ec)] (d & Hd & Ed)].
  apply Z.eqb_eq in Ea, Eb, Ec, Ed.
  repeat split; apply in_map_iff; eauto.
Qed.

Lemma count_disjoint_union (t : list obs) (f g h : obs -> bool) :
  (forall o, In o t -> f o = (g o || h o) /\ g o && h o = false) ->
  Z.of_nat (length (List.filter f t))
  = Z.of_nat (length (List.filter g t)) + Z.of_nat (length (List.filter h t)).
Proof.
  induction t as [|o t IH]; intros H; [reflexivity|].
  cbn [List.filter].
  destruct (H o (or_introl eq_refl)) as [Hf Hd]. rewrite Hf.
  specialize (IH (fun o' Ho' => H o' (or_intror Ho'))).
  destruct (g o), (h o); try discriminate; cbn [orb length]; lia.
Qed.

Lemma row_margin (t : list obs) (a : Z) :
  binary_table t = true ->
  Z.of_nat (length (List.filter
    (fun o => selects (LInt a) (ACTUAL o) && selects (LStr "All") (PREDICTION o)) t))
  = rowTotal t a.
Proof.
  intros Hb. pose proof (binary_table_In _ Hb) as Hb'. clear Hb.
  rename Hb' into Hb. unfold rowTotal, matrix. apply count_disjoint_union.
  intros o Ho. destruct (Hb o Ho) as [_ [Hp | Hp]]; rewrite Hp;
    cbn [selects]; destruct (ACTUAL o =? a); split; reflexivity.
Qed.

Lemma col_margin (t : list obs) (p : Z) :
  binary_table t = true ->
  Z.of_nat (length (List.filter
    (fun o => selects (LStr "All") (ACTUAL o) && selects (LInt p) (PREDICTION o)) t))
  = colTotal t p.
Proof.
  intros Hb. pose proof (binary_table_In _ Hb) as Hb'. clear Hb.
  rename Hb' into Hb. unfold colTotal, matrix. apply count_disjoint_union.
  intros o Ho. destruct (Hb o Ho) as [[Ha | Ha] _]; rewrite Ha;
    cbn [selects]; destruct (PREDICTION o =? p); split; reflexivity.
Qed.

Lemma grand_margin (t : list obs) :
  binary_table t = true ->
  Z.of_nat (length (List.filter
    (fun o => selects (LStr "All") (ACTUAL o) && selects (LStr "All") (PREDICTION o)) t))
  = grandTotal t.
Proof.
  intros Hb. unfold grandTotal. rewrite <- !row_margin by exact Hb.
  apply count_disjoint_union.
  intros o Ho. destruct (binary_table_In _ Hb o Ho) as [[Ha | Ha] _]; rewrite Ha; split; reflexivity.
Qed.

Lemma accuracy_matrix_cells rnd (Wet_Season : list obs) :
  binary_table Wet_Season = true ->
  both_classes Wet_Season = true ->
  exists report,
    accuracy_matrix rnd Wet_Season = inr report /\
    df_cell report (LInt 0) Producer's
      = percent rnd (matrix Wet_Season 0 0) (rowTotal Wet_Season 0) /\
    df_cell report (LInt 1) Producer's
      = percent rnd (matrix Wet_Season 1 1) (rowTotal Wet_Season 1) /\
    df_cell report User's (LInt 0)
      = percent rnd (matrix Wet_Season 0 0) (colTotal Wet_Season 0) /\
    df_cell report User's (LInt 1)
      = percent rnd (matrix Wet_Season 1 1) (colTotal Wet_Season 1) /\
    df_cell report User's Producer's
      = mul64 rnd
          (div64 rnd
             (add64 rnd (FNum (inject_Z (matrix Wet_Season 0 0)))
                        (FNum (inject_Z (matrix Wet_Season 1 1))))
             (FNum (inject_Z (grandTotal Wet_Season))))
          (FNum 100).
Proof.
  intros Hbin (Ha0 & Ha1 & Hp0 & Hp1)%both_classes_In.
  unfold percent.
  rewrite <- !row_margin, <- !col_margin, <- grand_margin by exact Hbin.
  assert (Hrows : crosstab Wet_Season = inr (crosstab_table Wet_Season))
    by (destruct Wet_Season; [destruct Ha0|reflexivity]).
  unfold accuracy_matrix. rewrite Hrows. cbn [bind]. unfold crosstab_table.
  rewrite (unique_sorted_binary (map ACTUAL Wet_Season)), (unique_sorted_binary (map PREDICTION Wet_Season));
    try assumption.
  2:{ intros v Hv. apply in_map_iff in Hv as (o & <- & Ho).
      apply (binary_table_In _ Hbin), Ho. }
  2:{ intros v Hv. apply in_map_iff in Hv as (o & <- & Ho).
      apply (binary_table_In _ Hbin), Ho. }
  set (cell := fun r c => FNum (inject_Z (Z.of_nat (length
     (List.filter (fun o => selects r (ACTUAL o) && selects c (PREDICTION o)) Wet_Season))))).

  eexists. split; [reflexivity|].
  repeat split; reflexivity.
Qed.

(** C5 (amended). For a season table with values in {0, 1} in which both
    classes occur among the ACTUAL values and among the PREDICTION values,
    producer's accuracy of class c is matrix[c][c] / rowTotal[c] * 100,
    user's accuracy of class c is matrix[c][c] / colTotal[c] * 100 and
    overall accuracy is (matrix[0][0] + matrix[1][1]) / grandTotal * 100;
    for the pair counts (0,0): 40, (0,1): 5, (1,0): 3, (1,1): 52 and exact
    arithmetic these are 92 overall, 52/55*100 for the producer's accuracy
    of class 1 and 52/57*100 for the user's accuracy of class 1. *)
Theorem accuracy_formulas :
  (forall rnd Wet_Season,
     binary_table Wet_Season = true ->
     both_classes Wet_Season = true ->
     exists report,
       accuracy_matrix rnd Wet_Season = inr report /\
       df_cell report (LInt 0) Producer's
         = percent rnd (matrix Wet_Season 0 0) (rowTotal Wet_Season 0) /\
       df_cell report (LInt 1) Producer's
         = percent rnd (matrix Wet_Season 1 1) (rowTotal Wet_Season 1) /\
       df_cell report User's (LInt 0)
         = percent rnd (matrix Wet_Season 0 0) (colTotal Wet_Season 0) /\
       df_cell report User's (LInt 1)
         = percent rnd (matrix Wet_Season 1 1) (colTotal Wet_Season 1) /\
       df_cell report User's Producer's
         = mul64 rnd
             (div64 rnd
                (add64 rnd (FNum (inject_Z (matrix Wet_Season 0 0)))
                           (FNum (inject_Z (matrix Wet_Season 1 1))))
                (FNum (inject_Z (grandTotal Wet_Season))))
             (FNum 100)) /\
  (exists report,
     accuracy_matrix exact scenario_season = inr report /\
     feq (df_cell report User's Producer's) (FNum 92) = true /\
     feq (df_cell report (LInt 1) Producer's) (FNum (52 / 55 * 100)) = true /\
     feq (df_cell report User's (LInt 1)) (FNum (52 / 57 * 100)) = true).
Proof.
  split; [exact accuracy_matrix_cells|].
  destruct (accuracy_matrix_cells exact scenario_season eq_refl eq_refl)
    as (report & Hr & _ & Hp1 & _ & Hu1 & Ho).
  exists report. rewrite Hp1, Hu1, Ho.
  split; [exact Hr|]. repeat split; vm_compute; reflexivity.
Qed.

Lemma accuracy_formulas_witness :
  exists report,
    accuracy_matrix exact scenario_season = inr report /\
    df_cell report (LInt 0) Producer's
      = percent exact (matrix scenario_season 0 0) (rowTotal scenario_season 0) /\
    df_cell report (LInt 1) Producer's
      = percent exact (matrix scenario_season 1 1) (rowTotal scenario_season 1) /\
    df_cell report User's (LInt 0)
      = percent exact (matrix scenario_season 0 0) (colTotal scenario_season 0) /\
    df_cell report User's (LInt 1)
      = percent exact (matrix scenario_season 1 1) (colTotal scenario_season 1) /\
    df_cell report User's Producer's
      = mul64 exact
          (div64 exact
             (add64 exact (FNum (inject_Z (matrix scenario_season 0 0)))
                          (FNum (inject_Z (matrix scenario_season 1 1))))
             (FNum (inject_Z (grandTotal scenario_season))))
          (FNum 100).
Proof.
  apply (proj1 accuracy_formulas exact scenario_season); reflexivity.
Defined.

(** C5, as stated, fails: on a season in which class 1 does not occur the
    lookup of row 1 of the contingency table raises KeyError, and no
    accuracy is computed. *)
Lemma accuracy_one_class_raises :
  binary_table one_class_season = true /\
  accuracy_matrix exact one_class_season = inl (KeyError "1").
Proof. split; vm_compute; reflexivity. Qed.

(** C6 (the code departs from it). On a table with rows in both seasons the
    second value of the F-score row is the F1 score of all rows (2/3 here),
    not that of the rows of the season (1 here). *)
Theorem fscore_uses_all_rows :
  exists report,
    accuracy_report exact two_season_table WetMonth = inr report /\
    feq (df_cell report F_score (LInt 1)) (FNum (2 # 3)) = true /\
    exists f,
      f1_score exact (season_rows two_season_table WetMonth) = inr f /\
      feq f (FNum 1) = true.
Proof.
  eexists. split; [reflexivity|]. split; [vm_compute; reflexivity|].
  eexists. split; [reflexivity|]. vm_compute. reflexivity.
Qed.

(** * Further properties *)

(** ** The decision tree at its edges *)

Lemma stores_fold_binary rnd fill fill' ndi_52 ndi_43 ndi_72 band1 band3 band7 i :
  let cls f := fold_left (fun z '(mask, v) => if item (mask : ndarray bool) i then v else z)
      (regression_stores rnd ndi_52 ndi_43 ndi_72 band1 band3 band7) f in
  cls fill = cls fill' /\ (cls fill = 0 \/ cls fill = 1).
Proof.
  cbv zeta. unfold_stores. name_tests. repeat split_test; auto.
Qed.

(** X1. For any bands, _run_regression stores 0 or 1 at every pixel, and the
    value does not depend on the shape and no_data arguments: the initial
    fill of the classified array never survives the masked stores. *)
Theorem run_regression_ignores_fill
    rnd sh sh' no_data no_data' band1 band2 band3 band4 band5 band7 i :
  item (_run_regression rnd sh no_data band1 band2 band3 band4 band5 band7) i
  = item (_run_regression rnd sh' no_data' band1 band2 band3 band4 band5 band7) i
  /\ (item (_run_regression rnd sh no_data band1 band2 band3 band4 band5 band7) i = 0
      \/ item (_run_regression rnd sh no_data band1 band2 band3 band4 band5 band7) i = 1).
Proof.
  unfold _run_regression. rewrite !item_stores. cbn [full item].
  apply stores_fold_binary.
Qed.

Lemma fle_nan (a b : fl) : is_nan a = true -> fle a b = false.
Proof. destruct a; simpl; intros; try discriminate; reflexivity. Qed.

Lemma stores_fold_nan rnd fill ndi_52 ndi_43 ndi_72 band1 band3 band7 i :
  is_nan (item ndi_52 i) = true \/ is_nan (item band1 i) = true ->
  fold_left (fun z '(mask, v) => if item (mask : ndarray bool) i then v else z)
      (regression_stores rnd ndi_52 ndi_43 ndi_72 band1 band3 band7) fill = 0.
Proof.
  intros H. unfold_stores.
  destruct H as [H|H]; rewrite !(fle_nan _ _ H); name_tests; repeat split_test; reflexivity.
Qed.

(** X2. A pixel whose normalised difference of swir1 and green (ndi_52) is
    NaN, or whose blue value is NaN, is classified 0 by _run_regression:
    every comparison with NaN is false, and the tests that fail for it lead
    to a dry leaf. *)
Theorem nan_pixel_not_water
    rnd sh no_data band1 band2 band3 band4 band5 band7 i :
  is_nan (item (_band_ratio rnd band5 band2) i) = true
  \/ is_nan (item band1 i) = true ->
  item (_run_regression rnd sh no_data band1 band2 band3 band4 band5 band7) i = 0.
Proof.
  intros H. unfold _run_regression. rewrite item_stores.
  apply stores_fold_nan. exact H.
Qed.

(** X3. Where the sum of the two bands rounds to zero, _band_ratio gives no
    finite number (NaN or an infinity, no exception), and it gives NaN where
    the difference rounds to zero as well. *)
Theorem band_ratio_zero_denominator rnd (a b : ndarray fl) (i : index) (x y : Q) :
  item a i = FNum x -> item b i = FNum y ->
  Qeq_bool (rnd (dtype_of a) (x + y)%Q) 0 = true ->
  is_finite (item (_band_ratio rnd a b) i) = false
  /\ (Qeq_bool (rnd (dtype_of a) (x + - y)%Q) 0 = true ->
      item (_band_ratio rnd a b) i = FNaN).
Proof.
  intros Ha Hb Hz. unfold _band_ratio, arr_div, arr_sub, arr_add.
  cbn [item dtype_of]. rewrite Ha, Hb. cbn [fsub fadd fneg fdiv].
  rewrite Hz. split.
  - destruct (Qeq_bool (rnd (dtype_of a) (x + - y)%Q) 0); [reflexivity|].
    destruct (Qle_bool 0 (rnd (dtype_of a) (x + - y)%Q)); reflexivity.
  - intros ->. reflexivity.
Qed.

Lemma band_ratio_zero_denominator_witness :
  is_finite (item (_band_ratio exact (full [1]%nat (FNum 0) float32)
                                      (full [1]%nat (FNum 0) float32)) [0%nat]) = false
  /\ (Qeq_bool (exact float32 (0 + - 0)%Q) 0 = true ->
      item (_band_ratio exact (full [1]%nat (FNum 0) float32)
                              (full [1]%nat (FNum 0) float32)) [0%nat] = FNaN).
Proof.
  apply (band_ratio_zero_denominator exact (full [1]%nat (FNum 0) float32)
           (full [1]%nat (FNum 0) float32) [0%nat] 0%Q 0%Q); reflexivity.
Defined.

Lemma fgt_fle_below (v : fl) (a b : Q) :
  fgt v (FNum a) = true -> (b <= a)%Q -> fle v (FNum b) = false.
Proof.
  destruct v as [| | |x]; simpl; intros H Hle; try discriminate; try reflexivity.
  apply negb_true_iff in H.
  destruct (Qle_bool x b) eqn:Hx; [|reflexivity].
  apply Qle_bool_iff in Hx.
  assert (Hxa : (x <= a)%Q) by (eapply Qle_trans; eassumption).
  apply Qle_bool_iff in Hxa. congruence.
Qed.

Lemma stores_fold_high_ratio rnd fill ndi_52 ndi_43 ndi_72 band1 band3 band7 i :
  monotone rnd ->
  fgt (item ndi_52 i) (FNum (rnd (dtype_of ndi_52) 0.34%Q)) = true ->
  fold_left (fun z '(mask, v) => if item (mask : ndarray bool) i then v else z)
      (regression_stores rnd ndi_52 ndi_43 ndi_72 band1 band3 band7) fill = 0.
Proof.
  intros Hm H. unfold_stores.
  rewrite !(fgt_fle_below _ _ _ H) by (apply Hm; discriminate).
  name_tests; repeat split_test; reflexivity.
Qed.

(** X4. With a rounding that keeps order, a pixel whose ndi_52 (normalised
    difference of swir1 and green) exceeds 0.34 is classified 0 by
    _run_regression, whatever the other bands hold. *)
Theorem high_ratio_not_water
    rnd sh no_data band1 band2 band3 band4 band5 band7 i :
  monotone rnd ->
  fgt (item (_band_ratio rnd band5 band2) i)
      (FNum (rnd (dtype_of band5) 0.34%Q)) = true ->
  item (_run_regression rnd sh no_data band1 band2 band3 band4 band5 band7) i = 0.
Proof.
  intros Hm H. unfold _run_regression. rewrite item_stores.
  apply stores_fold_high_ratio; assumption.
Qed.

Lemma stores_fold_bright_blue rnd fill ndi_52 ndi_43 ndi_72 band1 band3 band7 i :
  monotone rnd ->
  fgt (item band1 i) (FNum (rnd (dtype_of band1) 2083.5%Q)) = true ->
  fold_left (fun z '(mask, v) => if item (mask : ndarray bool) i then v else z)
      (regression_stores rnd ndi_52 ndi_43 ndi_72 band1 band3 band7) fill = 0.
Proof.
  intros Hm H. unfold_stores.
  rewrite !(fgt_fle_below _ _ _ H) by (apply Hm; discriminate).
  name_tests; repeat split_test; reflexivity.
Qed.

(** X5. With a rounding that keeps order, a pixel whose blue value exceeds
    2083.5 is classified 0 by _run_regression, whatever the other bands
    hold. *)
Theorem bright_blue_not_water
    rnd sh no_data band1 band2 band3 band4 band5 band7 i :
  monotone rnd ->
  fgt (item band1 i) (FNum (rnd (dtype_of band1) 2083.5%Q)) = true ->
  item (_run_regression rnd sh no_data band1 band2 band3 band4 band5 band7) i = 0.
Proof.
  intros Hm H. unfold _run_regression. rewrite item_stores.
  apply stores_fold_bright_blue; assumption.
Qed.

Lemma nan_pixel_not_water_witness :
  item (_run_regression exact [1]%nat FNaN (one_pixel 0) (one_pixel 0)
          (one_pixel 0) (one_pixel 0) (one_pixel 0) (one_pixel 0)) [0%nat] = 0.
Proof.
  apply (nan_pixel_not_water exact [1]%nat FNaN (one_pixel 0) (one_pixel 0)
           (one_pixel 0) (one_pixel 0) (one_pixel 0) (one_pixel 0) [0%nat]).
  left. reflexivity.
Defined.

Lemma high_ratio_not_water_witness :
  item (_run_regression exact [1]%nat FNaN (one_pixel 200) (one_pixel 200)
          (one_pixel 200) (one_pixel 2000) (one_pixel 3000) (one_pixel 100))
       [0%nat] = 0.
Proof.
  apply (high_ratio_not_water exact [1]%nat FNaN (one_pixel 200) (one_pixel 200)
           (one_pixel 200) (one_pixel 2000) (one_pixel 3000) (one_pixel 100)
           [0%nat]).
  - intros dt x y H. exact H.
  - vm_compute. reflexivity.
Defined.

Lemma bright_blue_not_water_witness :
  item (_run_regression exact [1]%nat FNaN (one_pixel 3000) (one_pixel 200)
          (one_pixel 200) (one_pixel 2000) (one_pixel 100) (one_pixel 100))
       [0%nat] = 0.
Proof.
  apply (bright_blue_not_water exact [1]%nat FNaN (one_pixel 3000) (one_pixel 200)
           (one_pixel 200) (one_pixel 2000) (one_pixel 100) (one_pixel 100)
           [0%nat]).
  - intros dt x y H. exact H.
  - vm_compute. reflexivity.
Defined.

(** ** The classifier and its dataset *)


Lemma lookup_enforce_float rnd e64 dt (ds : gmap string (ndarray fl)) name :
  enforce_float rnd e64 dt ds !! name
  = if bool_decide (name ∈ band_names) && negb (bool_decide (dt = working_dtype e64 dt))
    then astype rnd (working_dtype e64 dt) <$> ds !! name
    else ds !! name.
Proof.
  unfold enforce_float, working_dtype.
  destruct e64, dt; repeat case_bool_decide; try congruence;
    rewrite ?lookup_cast_bands; repeat case_bool_decide;
    try contradiction; reflexivity.
Qed.

Lemma wofs_classify_fst rnd (ds : gmap string (ndarray fl)) mask x y t no_data mosaic e64 :
  fst (wofs_classify rnd ds mask x y t no_data mosaic e64) = ds
  \/ exists dt, fst (wofs_classify rnd ds mask x y t no_data mosaic e64)
                = enforce_float rnd e64 dt ds.
Proof.
  unfold wofs_classify. cbv zeta.
  match goal with |- context [match ?p with inl _ => _ | inr _ => _ end] =>
    destruct p as [e|[m dt]] end.
  - left. reflexivity.
  - right. exists dt. reflexivity.
Qed.

(** X6. Whatever its arguments and outcome, wofs_classify leaves every
    variable of the dataset other than the six bands exactly as it was, and
    it keeps the presence and the shape of every variable. *)
Theorem wofs_classify_touches_only_bands
    rnd (ds : gmap string (ndarray fl)) mask x_coord y_coord time_coord no_data
    mosaic enforce_float64 name :
  (name ∉ band_names ->
   fst (wofs_classify rnd ds mask x_coord y_coord time_coord no_data mosaic
          enforce_float64) !! name = ds !! name)
  /\ shape <$> fst (wofs_classify rnd ds mask x_coord y_coord time_coord no_data
                      mosaic enforce_float64) !! name
     = shape <$> ds !! name.
Proof.
  destruct (wofs_classify_fst rnd ds mask x_coord y_coord time_coord no_data
              mosaic enforce_float64) as [->|[dt ->]].
  - split; reflexivity.
  - split.
    + intros Hn. rewrite lookup_enforce_float.
      rewrite (bool_decide_eq_false_2 _ Hn). reflexivity.
    + apply lookup_enforce_float_shape.
Qed.

(** X7. Given a mask, wofs_classify on a dataset that lacks one of the six
    bands raises AttributeError for the first band it lacks, in the order
    B02, B03, B04, B08, B11, B12, and leaves the dataset as it was; on an
    empty dataset this is AttributeError for B02, not the ValueError the
    docstring announces. *)
Theorem wofs_classify_missing_band
    rnd (ds : gmap string (ndarray fl)) mask x_coord y_coord time_coord no_data
    mosaic enforce_float64 name :
  first_absent ds band_names = Some name ->
  wofs_classify rnd ds (Some mask) x_coord y_coord time_coord no_data mosaic
    enforce_float64
  = (ds, inl (AttributeError name)).
Proof.
  unfold first_absent, band_names, absent. cbn [find].
  unfold wofs_classify, getattr.
  repeat match goal with
  | |- context [ds !! ?n] => destruct (ds !! n) eqn:?; cbn [bind ret raise]
  end; intros H; try discriminate H; injection H as <-; reflexivity.
Qed.

(** X8. On a dataset that has the six bands, whether wofs_classify converts
    them is decided by the dtype of the blue band alone: when it is the
    working dtype already the dataset is left as it was, whatever the dtypes
    of the other bands; otherwise all six bands are left at the working
    dtype, also when the call fails afterwards. *)
Theorem wofs_classify_band_dtypes
    rnd (ds : gmap string (ndarray fl)) mask x_coord y_coord time_coord no_data
    mosaic enforce_float64 blue :
  first_absent ds band_names = None ->
  ds !! "B02"%string = Some blue ->
  if bool_decide (dtype_of blue = working_dtype enforce_float64 (dtype_of blue))
  then fst (wofs_classify rnd ds (Some mask) x_coord y_coord time_coord no_data
              mosaic enforce_float64) = ds
  else forall name, name ∈ band_names ->
       dtype_of <$> fst (wofs_classify rnd ds (Some mask) x_coord y_coord
                           time_coord no_data mosaic enforce_float64) !! name
       = Some (working_dtype enforce_float64 (dtype_of blue)).
Proof.
  intros Hall Hb.
  rewrite (prologue_bands rnd ds mask x_coord y_coord time_coord no_data mosaic
             enforce_float64 blue Hall Hb). cbn [fst].
  destruct (bool_decide _) eqn:Hd.
  - apply bool_decide_eq_true in Hd.
    unfold enforce_float, working_dtype in *.
    destruct enforce_float64, (dtype_of blue); try discriminate Hd; reflexivity.
  - intros name Hin. rewrite lookup_enforce_float.
    rewrite (bool_decide_eq_true_2 _ Hin), Hd. cbn [andb negb].
    destruct (first_absent_none ds band_names name Hall Hin) as [a ->].
    reflexivity.
Qed.




Lemma wofs_classify_missing_band_witness :
  wofs_classify exact ∅ (Some scenario_mask) "x" "y" "time" FNaN false false
  = (∅, inl (AttributeError "B02")).
Proof.
  apply (wofs_classify_missing_band exact ∅ scenario_mask
           "x" "y" "time" FNaN false false "B02").
  vm_compute. reflexivity.
Defined.

Lemma wofs_classify_band_dtypes_witness :
  if bool_decide (dtype_of (full [1; 1; 1]%nat (FNum 200) uint16)
                  = working_dtype false
                      (dtype_of (full [1; 1; 1]%nat (FNum 200) uint16)))
  then fst (wofs_classify exact (scenario_response uint16) (Some scenario_mask)
              "x" "y" "time" FNaN false false) = scenario_response uint16
  else forall name, name ∈ band_names ->
       dtype_of <$> fst (wofs_classify exact (scenario_response uint16)
                           (Some scenario_mask) "x" "y" "time" FNaN false false)
                    !! name
       = Some (working_dtype false
                 (dtype_of (full [1; 1; 1]%nat (FNum 200) uint16))).
Proof.
  apply (wofs_classify_band_dtypes exact (scenario_response uint16) scenario_mask
           "x" "y" "time" FNaN false false
           (full [1; 1; 1]%nat (FNum 200) uint16));
    vm_compute; reflexivity.
Defined.


(** ** What a task records *)

(** X11. get_wofs_for_point either leaves both result dictionaries as they
    were (and does not return a time window), or stores exactly one value
    under the key of the point-month in each of them and returns the window;
    the wet value is 0 or 1, the clear count is not negative, and wet is 1
    only with a clear count of at least 1. *)
Theorem sample_records_both_or_neither
    rnd month plot_id (ds : gmap string (ndarray fl)) rw rc :
  (exists r, get_wofs_for_point rnd month plot_id ds rw rc = (rw, rc, r)
             /\ forall time, r <> inr (Some time))
  \/ (exists wet n_clear time,
        get_wofs_for_point rnd month plot_id ds rw rc
        = (<[result_key plot_id month := wet]> rw,
           <[result_key plot_id month := n_clear]> rc,
           inr (Some time))
        /\ time_window month = inr time
        /\ (wet = 0 \/ wet = 1) /\ 0 <= n_clear /\ (wet = 1 -> 1 <= n_clear)).
Proof.
  unfold get_wofs_for_point.
  destruct (time_window month) as [e|time];
    [left; eexists; split; [reflexivity|discriminate]|].
  destruct (ds !! "B02"%string);
    [|left; eexists; split; [reflexivity|discriminate]].
  destruct (getitem ds "SCL") as [e|SCL]; cbn [bind];
    [left; eexists; split; [reflexivity|discriminate]|].
  destruct (snd (wofs_classify _ _ _ _ _ _ _ _ _)) as [e|out]; cbn [bind];
    [left; eexists; split; [reflexivity|discriminate]|].
  destruct (all_xy _) as [e|clear]; cbn [bind];
    [left; eexists; split; [reflexivity|discriminate]|].
  assert (Hn : 0 <= np_sum clear) by (unfold np_sum; lia).
  destruct (0 <? np_sum clear) eqn:Hpos.
  - destruct (np_max _) as [e|m]; cbn [bind ret];
      [left; eexists; split; [reflexivity|discriminate]|].
    right. exists (Z.b2z m), (np_sum clear), time.
    split; [reflexivity|]. split; [reflexivity|].
    apply Z.ltb_lt in Hpos.
    split; [destruct m; auto|]. split; lia.
  - cbn [bind ret]. right. exists 0, (np_sum clear), time.
    split; [reflexivity|]. split; [reflexivity|].
    split; [auto|]. split; [lia|discriminate].
Qed.

Lemma recorded_scene_counts rnd month plot_id (ds : gmap string (ndarray fl)) rw rc :
  (1 <=? month) && (month <=? 12) = true ->
  response_ok ds = true ->
  exists wet time,
    time_window month = inr time /\
    get_wofs_for_point rnd month plot_id ds rw rc
    = (<[result_key plot_id month := Z.b2z wet]> rw,
       <[result_key plot_id month := clean_scene_count ds]> rc,
       inr (Some time)) /\
    (clean_scene_count ds = 0 -> wet = false).
Proof.
  intros Hmonth Hok.
  destruct (classified_scenes rnd month plot_id ds rw rc Hmonth Hok)
    as (scl & out & time & Hscl & Htime & _ & Hsh & Hclass & Hrun).
  destruct (response_ok_inv ds Hok)
    as (blue & scl0 & T & Y & X & Hblue & Hscl0 & Hb & Hs & _).
  assert (scl0 = scl) as -> by congruence.
  rewrite Hs in Hsh.
  assert (Hcount : Z.of_nat (clear_count (wofs out)) = clean_scene_count ds).
  { unfold clean_scene_count, clear_count. rewrite Hscl, Hs. cbn [hd].
    rewrite (scenes_seq _ _ _ _ Hsh). do 2 f_equal.
    apply filter_ext_seq. intros t _.
    rewrite (scene_clear_mask _ _ _ _ _ t Hsh Hclass).
    unfold clean_scene. rewrite Hs. reflexivity. }
  exists (wet_verdict (wofs out)), time.
  split; [exact Htime|]. rewrite <- Hcount. split; [exact Hrun|].
  intros H0. apply no_clear_scene_not_wet. lia.
Qed.

(** X12. For a month from 1 to 12 and a well-formed response, the clear
    count a task records is the number of scenes in which every pixel of the
    SCL layer carries one of the codes 4, 5, 6, 7, 11; it does not depend on
    the band values. *)
Theorem clear_count_from_scene_classification
    rnd month plot_id (ds : gmap string (ndarray fl)) :
  (1 <=? month) && (month <=? 12) = true ->
  response_ok ds = true ->
  recorded_clear rnd month plot_id ds = Some (clean_scene_count ds).
Proof.
  intros Hmonth Hok.
  destruct (recorded_scene_counts rnd month plot_id ds ∅ ∅ Hmonth Hok)
    as (wet & time & _ & Hrun & _).
  unfold recorded_clear. rewrite Hrun. cbn [fst snd].
  apply lookup_insert_eq.
Qed.

(** X13. For a month from 1 to 12, when no scene of a well-formed response
    is clear throughout, the task still records the point-month: wet 0 and
    clear count 0 are stored under its key, whatever the bands hold. *)
Theorem cloudy_month_recorded_dry
    rnd month plot_id (ds : gmap string (ndarray fl)) rw rc :
  (1 <=? month) && (month <=? 12) = true ->
  response_ok ds = true ->
  clean_scene_count ds = 0 ->
  exists time,
    get_wofs_for_point rnd month plot_id ds rw rc
    = (<[result_key plot_id month := 0]> rw,
       <[result_key plot_id month := 0]> rc,
       inr (Some time)).
Proof.
  intros Hmonth Hok Hc.
  destruct (recorded_scene_counts rnd month plot_id ds rw rc Hmonth Hok)
    as (wet & time & _ & Hrun & Hwet).
  exists time. rewrite Hrun, Hc, (Hwet Hc). reflexivity.
Qed.

Lemma cloudy_month_recorded_dry_witness :
  exists time,
    get_wofs_for_point exact 8 137387171 cloudy_response ∅ ∅
    = (<[result_key 137387171 8 := 0]> ∅,
       <[result_key 137387171 8 := 0]> ∅,
       inr (Some time)).
Proof.
  apply (cloudy_month_recorded_dry exact 8 137387171 cloudy_response ∅ ∅);
    vm_compute; reflexivity.
Defined.

Lemma clear_count_from_scene_classification_witness :
  recorded_clear exact 10 137387172 (two_scene_response uint16)
  = Some (clean_scene_count (two_scene_response uint16)).
Proof.
  apply (clear_count_from_scene_classification exact 10 137387172
           (two_scene_response uint16));
    vm_compute; reflexivity.
Defined.

(** ** Keys *)

Lemma split_nonempty sep s : split sep s <> [].
Proof.
  destruct s as [|c s]; simpl; [discriminate|].
  destruct (Ascii.eqb c sep); [discriminate|].
  destruct (split sep s); discriminate.
Qed.

Lemma split_without sep s : occurs sep s = false -> split sep s = [s].
Proof.
  induction s as [|c s IH]; simpl; [reflexivity|].
  intros H. apply orb_false_iff in H as [Hc Hs].
  rewrite Hc, (IH Hs). reflexivity.
Qed.

Lemma split_at_first sep a b :
  occurs sep a = false ->
  split sep (a +:+ String sep b) = a :: split sep b.
Proof.
  induction a as [|c a IH].
  - intros _. change (EmptyString +:+ String sep b) with (String sep b).
    cbn [split]. rewrite Ascii.eqb_refl. reflexivity.
  - intros H. cbn [occurs] in H. apply orb_false_iff in H as [Hc Ha].
    change (String c a +:+ String sep b) with (String c (a +:+ String sep b)).
    cbn [split]. rewrite Hc, (IH Ha). reflexivity.
Qed.

Lemma pretty_N_char_plain n : Ascii.eqb (pretty_N_char n) "_"%char = false.
Proof.
  destruct n as [|p]; [reflexivity|].
  do 4 (try destruct p as [p|p|]); reflexivity.
Qed.

Lemma pretty_N_go_plain x s :
  occurs "_"%char s = false -> occurs "_"%char (pretty_N_go x s) = false.
Proof.
  revert s. induction (N.lt_wf_0 x) as [x _ IH]. intros s Hs.
  destruct (decide (x = 0%N)) as [->|Hx].
  - rewrite pretty_N_go_0. exact Hs.
  - rewrite pretty_N_go_step by lia.
    apply IH.
    + apply N.div_lt; lia.
    + simpl. rewrite pretty_N_char_plain. exact Hs.
Qed.

Lemma pretty_Z_plain (z : Z) : occurs "_"%char (pretty z) = false.
Proof.
  destruct z as [|p|p]; [reflexivity| |].
  - apply (pretty_N_go_plain (N.pos p) EmptyString). reflexivity.
  - change (occurs "_"%char (String "-" (pretty_N_go (N.pos p) EmptyString)) = false).
    simpl. apply (pretty_N_go_plain (N.pos p) EmptyString). reflexivity.
Qed.

Lemma split_result_key plot_id month :
  split "_"%char (result_key plot_id month) = [pretty plot_id; pretty month].
Proof.
  unfold result_key.
  change ("_" +:+ pretty month) with (String "_" (pretty month)).
  rewrite split_at_first by apply pretty_Z_plain.
  rewrite split_without by apply pretty_Z_plain. reflexivity.
Qed.

(** X14. The key a task writes, str(int(plot_id)) + '_' + str(month), is
    taken apart without IndexError by the table code: index.split('_')[0] +
    '.0' is the text of the plot id followed by '.0' and index.split('_')[1]
    is the text of the month. *)
Theorem split_index_result_key plot_id month :
  split_index (result_key plot_id month)
  = inr (pretty plot_id +:+ ".0", pretty month).
Proof.
  unfold split_index. rewrite split_result_key. reflexivity.
Qed.

(** X15. Distinct point-months have distinct keys: two keys are equal only
    when the plot ids and the months are. *)
Theorem result_key_inj plot_id month plot_id' month' :
  result_key plot_id month = result_key plot_id' month' ->
  plot_id = plot_id' /\ month = month'.
Proof.
  intros H. apply (f_equal (split "_"%char)) in H.
  rewrite !split_result_key in H. injection H as Hp Hm.
  split; apply (inj pretty); assumption.
Qed.

Lemma result_key_inj_witness : 137387171 = 137387171 /\ 8 = 8.
Proof.
  apply (result_key_inj 137387171 8 137387171 8). reflexivity.
Defined.

(** ** The loop and the pool *)

Section DriverFacts.
Variable rnd : dtype -> Q -> Q.

Lemma task_stores_cases (row : catalogue_row) :
  (task_stores rnd row = [] /\
   forall rw rc, exists r,
     get_wofs_for_point rnd (row_MONTH row) (row_PLOT_ID row) (row_s2_data row) rw rc
     = (rw, rc, r) /\ forall time, r <> inr (Some time))
  \/ (exists wet n_clear time,
        task_stores rnd row
        = [store_wet (row_key row) wet; store_clear (row_key row) n_clear] /\
        forall rw rc,
          get_wofs_for_point rnd (row_MONTH row) (row_PLOT_ID row) (row_s2_data row) rw rc
          = (<[row_key row := wet]> rw, <[row_key row := n_clear]> rc,
             inr (Some time))).
Proof.
  unfold task_stores, get_wofs_for_point, row_key.
  destruct (time_window _) as [e|time];
    [left; split; [reflexivity|]; intros; eexists; split; [reflexivity|discriminate]|].
  destruct (row_s2_data row !! "B02"%string);
    [|left; split; [reflexivity|]; intros; eexists; split; [reflexivity|discriminate]].
  match goal with |- context [match ?s with inl _ => _ | inr _ => _ end] =>
    destruct s as [e|[wet n_clear]] end.
  - left; split; [reflexivity|]; intros; eexists; split; [reflexivity|discriminate].
  - right. exists wet, n_clear, time. rewrite !lookup_insert_eq.
    split; [reflexivity|]. intros; reflexivity.
Qed.

Lemma get_wofs_for_point_stores (row : catalogue_row) rw rc :
  fst (get_wofs_for_point rnd (row_MONTH row) (row_PLOT_ID row) (row_s2_data row) rw rc)
  = run_stores (task_stores rnd row) (rw, rc).
Proof.
  destruct (task_stores_cases row) as [[-> H]|(wet & n & time & -> & H)].
  - destruct (H rw rc) as (r & -> & _). reflexivity.
  - rewrite H. reflexivity.
Qed.

Lemma run_stores_app ss ss' d :
  run_stores (ss ++ ss') d = run_stores ss' (run_stores ss d).
Proof. apply fold_left_app. Qed.

Lemma for_rows_stores rows rw rc :
  match for_rows rnd rows rw rc with
  | (rw', rc', inr printed) =>
      (rw', rc') = run_stores (concat (map (task_stores rnd) rows)) (rw, rc)
      /\ length printed = length rows
  | (rw', rc', inl e) =>
      exists done row rest,
        rows = done ++ row :: rest /\
        (rw', rc') = run_stores (concat (map (task_stores rnd) done)) (rw, rc) /\
        snd (get_wofs_for_point rnd (row_MONTH row) (row_PLOT_ID row)
               (row_s2_data row) rw' rc') = inl e
  end.
Proof.
  revert rw rc. induction rows as [|row rows IH]; intros rw rc.
  - cbn. split; reflexivity.
  - cbn [for_rows].
    pose proof (get_wofs_for_point_stores row rw rc) as Hs.
    destruct (get_wofs_for_point rnd _ _ _ rw rc) as [[rw1 rc1] [e|time]] eqn:Hg.
    + exists [], row, rows. split; [reflexivity|].
      destruct (task_stores_cases row) as [[_ H]|(wet & n & time & _ & H)].
      * destruct (H rw rc) as (r & Hr & _). rewrite Hr in Hg.
        injection Hg as <- <- ->. split; [reflexivity|]. rewrite Hr. reflexivity.
      * rewrite H in Hg. discriminate.
    + cbn [fst] in Hs. specialize (IH rw1 rc1).
      destruct (for_rows rnd rows rw1 rc1) as [[rw2 rc2] [e|printed]].
      * destruct IH as (done & row' & rest & -> & Hd & He).
        cbn [bind]. exists (row :: done), row', rest.
        split; [reflexivity|]. split; [|exact He].
        cbn [map concat]. rewrite run_stores_app, <- Hs. exact Hd.
      * destruct IH as [Hd Hl]. cbn [bind ret]. split.
        -- cbn [map concat]. rewrite run_stores_app, <- Hs. exact Hd.
        -- cbn [length]. congruence.
Qed.

Lemma interleave_Permutation {A} (tasks : list (list A)) schedule :
  interleave tasks schedule -> schedule ≡ₚ concat tasks.
Proof.
  induction 1 as [tasks Hall|before after x task schedule _ IH].
  - induction Hall as [|task tasks -> _ IH]; [reflexivity|exact IH].
  - rewrite concat_app in *. cbn [concat] in *.
    change ((x :: task) ++ concat after) with (x :: (task ++ concat after)).
    etransitivity; [apply Permutation_cons; [reflexivity|exact IH]|].
    apply Permutation_middle.
Qed.

Lemma run_store_commute s s' d :
  store_slot s <> store_slot s' ->
  run_store (run_store d s) s' = run_store (run_store d s') s.
Proof.
  destruct s as [k v|k v], s' as [k' v'|k' v']; cbn; intros H;
    try reflexivity; f_equal; apply insert_insert_ne; congruence.
Qed.

Lemma run_stores_Permutation ss ss' d :
  ss ≡ₚ ss' -> NoDup (map store_slot ss) ->
  run_stores ss d = run_stores ss' d.
Proof.
  intros Hp. revert d. induction Hp as [|s ss ss' Hp IH|s s' ss|ss ss' ss'' Hp IH Hp' IH'];
    intros d Hnd.
  - reflexivity.
  - cbn in *. apply IH. apply NoDup_cons in Hnd as [_ Hnd]. exact Hnd.
  - cbn in *. unfold run_stores. cbn [fold_left]. f_equal.
    apply run_store_commute.
    apply NoDup_cons in Hnd as [Hnot _]. intros E. apply Hnot. rewrite E. left.
  - rewrite IH by exact Hnd. apply IH'.
    assert (Hq : map store_slot ss ≡ₚ map store_slot ss')
      by (apply Permutation_map; exact Hp).
    rewrite <- Hq. exact Hnd.
Qed.

Lemma task_stores_slots (row : catalogue_row) s :
  s ∈ task_stores rnd row -> snd (store_slot s) = row_key row.
Proof.
  destruct (task_stores_cases row) as [[-> _]|(wet & n & time & -> & _)].
  - intros H. inversion H.
  - intros [->|[->|H]%elem_of_cons]%elem_of_cons; [reflexivity|reflexivity|inversion H].
Qed.

Lemma task_stores_NoDup (row : catalogue_row) :
  NoDup (map store_slot (task_stores rnd row)).
Proof.
  destruct (task_stores_cases row) as [[-> _]|(wet & n & time & -> & _)].
  - constructor.
  - cbn. repeat constructor; [|inversion 1].
    intros [E|H]%elem_of_cons; [discriminate E|inversion H].
Qed.

Lemma stores_NoDup (rows : list catalogue_row) :
  NoDup (map row_key rows) ->
  NoDup (map store_slot (concat (map (task_stores rnd) rows))).
Proof.
  induction rows as [|row rows IH]; cbn [map concat].
  - constructor.
  - intros [Hnot Hnd]%NoDup_cons. rewrite map_app.
    apply NoDup_app. split; [apply task_stores_NoDup|].
    split; [|apply IH, Hnd].
    intros slot Hin Hin'. apply Hnot.
    apply list_elem_of_fmap in Hin as (s & -> & Hs).
    apply list_elem_of_fmap in Hin' as (s' & Heq & Hs').
    apply task_stores_slots in Hs. rewrite <- Hs, Heq.
    apply list_elem_of_In, in_concat in Hs' as (ss & Hss & Hs').
    apply in_map_iff in Hss as (row' & <- & Hrow').
    apply list_elem_of_In in Hs'. apply task_stores_slots in Hs'. rewrite Hs'.
    apply list_elem_of_fmap. exists row'. split; [reflexivity|].
    apply list_elem_of_In. exact Hrow'.
Qed.

Lemma records_stores (row : catalogue_row) :
  (records rnd row = false /\ task_stores rnd row = [])
  \/ (records rnd row = true /\
      exists wet n_clear,
        task_stores rnd row
        = [store_wet (row_key row) wet; store_clear (row_key row) n_clear]).
Proof.
  unfold records.
  destruct (task_stores_cases row) as [[E H]|(wet & n & time & E & H)].
  - left. split; [|exact E]. destruct (H ∅ ∅) as (r & -> & Hr). cbn [snd].
    destruct r as [e|[time|]]; try reflexivity. destruct (Hr time). reflexivity.
  - right. rewrite H. split; [reflexivity|]. exists wet, n. exact E.
Qed.

Lemma dom_run_stores_wet ss d k :
  k ∈ dom (fst (run_stores ss d)) <-> k ∈ dom (fst d) \/ exists v, store_wet k v ∈ ss.
Proof.
  revert d. induction ss as [|s ss IH]; intros d.
  - cbn. split; [auto|]. intros [H|[v H]]; [exact H|inversion H].
  - unfold run_stores in *. cbn [fold_left]. rewrite IH.
    destruct s as [k' v'|k' v']; cbn [run_store fst snd].
    + rewrite dom_insert_L, elem_of_union, elem_of_singleton. split.
      * intros [[->|H]|[v H]]; [right; exists v'; left|auto|right; exists v; right; exact H].
      * intros [H|[v [E|H]%elem_of_cons]]; [auto| |right; eauto].
        injection E as -> ->. auto.
    + split.
      * intros [H|[v H]]; [auto|right; exists v; right; exact H].
      * intros [H|[v [E|H]%elem_of_cons]]; [auto|discriminate E|right; eauto].
Qed.

Lemma dom_run_stores_clear ss d k :
  k ∈ dom (snd (run_stores ss d)) <-> k ∈ dom (snd d) \/ exists v, store_clear k v ∈ ss.
Proof.
  revert d. induction ss as [|s ss IH]; intros d.
  - cbn. split; [auto|]. intros [H|[v H]]; [exact H|inversion H].
  - unfold run_stores in *. cbn [fold_left]. rewrite IH.
    destruct s as [k' v'|k' v']; cbn [run_store fst snd].
    + split.
      * intros [H|[v H]]; [auto|right; exists v; right; exact H].
      * intros [H|[v [E|H]%elem_of_cons]]; [auto|discriminate E|right; eauto].
    + rewrite dom_insert_L, elem_of_union, elem_of_singleton. split.
      * intros [[->|H]|[v H]]; [right; exists v'; left|auto|right; exists v; right; exact H].
      * intros [H|[v [E|H]%elem_of_cons]]; [auto| |right; eauto].
        injection E as -> ->. auto.
Qed.

Lemma elem_of_task_stores (rows : list catalogue_row) s :
  s ∈ concat (map (task_stores rnd) rows)
  <-> exists row, row ∈ rows /\ s ∈ task_stores rnd row.
Proof.
  split.
  - intros H. apply list_elem_of_In, in_concat in H as (ss & Hss & Hs).
    apply in_map_iff in Hss as (row & <- & Hrow).
    exists row. split; apply list_elem_of_In; assumption.
  - intros (row & Hrow & Hs). apply list_elem_of_In, in_concat.
    exists (task_stores rnd row). split; [|apply list_elem_of_In, Hs].
    apply in_map_iff. exists row. split; [reflexivity|].
    apply list_elem_of_In, Hrow.
Qed.

Lemma wet_store_recorded (rows : list catalogue_row) k :
  (exists v, store_wet k v ∈ concat (map (task_stores rnd) rows))
  <-> exists row, row ∈ rows /\ row_key row = k /\ records rnd row = true.
Proof.
  split.
  - intros (v & (row & Hrow & Hs)%elem_of_task_stores).
    exists row. split; [exact Hrow|].
    pose proof (task_stores_slots row _ Hs) as Hk. cbn in Hk.
    split; [congruence|].
    destruct (records_stores row) as [[_ E]|[E _]]; [|exact E].
    rewrite E in Hs. inversion Hs.
  - intros (row & Hrow & <- & Hr).
    destruct (records_stores row) as [[E _]|[_ (wet & n & E)]]; [congruence|].
    exists wet. apply elem_of_task_stores. exists row. split; [exact Hrow|].
    rewrite E. left.
Qed.

Lemma clear_store_recorded (rows : list catalogue_row) k :
  (exists v, store_clear k v ∈ concat (map (task_stores rnd) rows))
  <-> exists row, row ∈ rows /\ row_key row = k /\ records rnd row = true.
Proof.
  split.
  - intros (v & (row & Hrow & Hs)%elem_of_task_stores).
    exists row. split; [exact Hrow|].
    pose proof (task_stores_slots row _ Hs) as Hk. cbn in Hk.
    split; [congruence|].
    destruct (records_stores row) as [[_ E]|[E _]]; [|exact E].
    rewrite E in Hs. inversion Hs.
  - intros (row & Hrow & <- & Hr).
    destruct (records_stores row) as [[E _]|[_ (wet & n & E)]]; [congruence|].
    exists n. apply elem_of_task_stores. exists row. split; [exact Hrow|].
    rewrite E. right. left.
Qed.

Lemma recorded_keys (rows : list catalogue_row) ss wet clear :
  ss ≡ₚ concat (map (task_stores rnd) rows) ->
  run_stores ss (∅, ∅) = (wet, clear) ->
  dom wet = dom clear /\
  forall k, k ∈ dom wet
    <-> exists row, row ∈ rows /\ row_key row = k /\ records rnd row = true.
Proof.
  intros Hp Hrun.
  assert (Hw : forall k, k ∈ dom wet
    <-> exists row, row ∈ rows /\ row_key row = k /\ records rnd row = true).
  { intros k. rewrite <- wet_store_recorded.
    pose proof (dom_run_stores_wet ss (∅, ∅) k) as H. rewrite Hrun in H.
    cbn [fst] in H. rewrite H, dom_empty_L.
    split.
    - intros [H'|[v Hv]];
        [destruct (not_elem_of_empty (C:=gset string) k H')|].
      exists v. rewrite <- Hp. exact Hv.
    - intros [v Hv]. right. exists v. rewrite Hp. exact Hv. }
  split; [|exact Hw].
  apply set_eq. intros k. rewrite Hw, <- clear_store_recorded.
  pose proof (dom_run_stores_clear ss (∅, ∅) k) as H. rewrite Hrun in H.
  cbn [snd] in H. rewrite H, dom_empty_L.
  split.
  - intros [v Hv]. right. exists v. rewrite Hp. exact Hv.
  - intros [H'|[v Hv]];
      [destruct (not_elem_of_empty (C:=gset string) k H')|].
    exists v. rewrite <- Hp. exact Hv.
Qed.

(** X16. After the test loop over input_data[0:5] the two dictionaries have
    the same keys, also when an exception ended the loop, and every key is
    the key of one of those rows whose task ran to its return. *)
Theorem test_loop_same_keys (input_data : list catalogue_row) :
  dom (fst (fst (test_loop rnd input_data)))
  = dom (snd (fst (test_loop rnd input_data)))
  /\ forall k, k ∈ dom (fst (fst (test_loop rnd input_data))) ->
       exists row, row ∈ take 5 input_data /\ row_key row = k
                   /\ records rnd row = true.
Proof.
  unfold test_loop.
  pose proof (for_rows_stores (take 5 input_data) ∅ ∅) as H.
  destruct (for_rows rnd (take 5 input_data) ∅ ∅) as [[wet clear] [e|printed]];
    cbn [fst snd].
  - destruct H as (done & row & rest & Hrows & Hd & _).
    destruct (recorded_keys done _ wet clear (reflexivity _) (eq_sym Hd)) as [Heq Hk].
    split; [exact Heq|]. intros k (row' & Hin & Hkey & Hr)%Hk.
    exists row'. split; [|auto]. rewrite Hrows. apply elem_of_app. auto.
  - destruct H as [Hd _].
    destruct (recorded_keys _ _ wet clear (reflexivity _) (eq_sym Hd)) as [Heq Hk].
    split; [exact Heq|]. intros k Hin. apply Hk. exact Hin.
Qed.

(** X17. A loop over catalogue rows that ends with an exception has
    processed the rows before the raising one and no row after it: the
    dictionaries are those of the loop over the earlier rows, and the
    raising call changed nothing. *)
Theorem for_rows_stops_at_first_error (rows : list catalogue_row) rw rc rw' rc' e :
  for_rows rnd rows rw rc = (rw', rc', inl e) ->
  exists done row rest printed,
    rows = done ++ row :: rest /\
    for_rows rnd done rw rc = (rw', rc', inr printed) /\
    get_wofs_for_point rnd (row_MONTH row) (row_PLOT_ID row) (row_s2_data row) rw' rc'
    = (rw', rc', inl e).
Proof.
  revert rw rc. induction rows as [|row rows IH]; intros rw rc; cbn [for_rows].
  - discriminate.
  - destruct (get_wofs_for_point rnd _ _ _ rw rc) as [[rw1 rc1] [e1|time]] eqn:Hg.
    + intros H. injection H as -> -> ->.
      exists [], row, rows, []. split; [reflexivity|].
      destruct (task_stores_cases row) as [[_ H]|(wet & n & time & _ & H)].
      * destruct (H rw rc) as (r & Hr & _). rewrite Hr in Hg.
        injection Hg as E1 E2 E3. subst rw' rc' r.
        split; [reflexivity|exact Hr].
      * rewrite H in Hg. discriminate.
    + destruct (for_rows rnd rows rw1 rc1) as [[rw2 rc2] [e2|printed]] eqn:Hrest;
        cbn [bind ret]; [|discriminate].
      intros H. injection H as -> -> ->.
      destruct (IH _ _ Hrest) as (done & row' & rest & printed & -> & Hd & He).
      exists (row :: done), row', rest, (time :: printed).
      split; [reflexivity|]. split; [|exact He].
      cbn [for_rows]. rewrite Hg, Hd. reflexivity.
Qed.

(** X18. Whatever the order in which the pool carries out the tasks, the two
    dictionaries _parallel_fun returns have the same keys, and a key is
    present exactly when it is the key of a row whose task ran to its
    return; tasks that raise or fall through leave no entry and stop no
    other task. *)
Theorem parallel_fun_keys (input_data : list catalogue_row) wet clear :
  _parallel_fun rnd input_data (wet, clear) ->
  dom wet = dom clear /\
  forall k, k ∈ dom wet
    <-> exists row, row ∈ input_data /\ row_key row = k /\ records rnd row = true.
Proof.
  intros (schedule & Hi & Hrun).
  apply (recorded_keys input_data schedule); [|exact Hrun].
  apply interleave_Permutation. exact Hi.
Qed.

Lemma parallel_fun_in_order (input_data : list catalogue_row) results :
  NoDup (map row_key input_data) ->
  _parallel_fun rnd input_data results ->
  results = run_stores (concat (map (task_stores rnd) input_data)) (∅, ∅).
Proof.
  intros Hnd (schedule & Hi & <-).
  apply interleave_Permutation in Hi. symmetry.
  apply run_stores_Permutation; [symmetry; exact Hi|].
  apply stores_NoDup. exact Hnd.
Qed.

(** X19. When the rows of the catalogue have pairwise distinct keys, the
    dictionaries _parallel_fun returns do not depend on the order in which
    the pool carries out the tasks. *)
Theorem parallel_fun_schedule_free (input_data : list catalogue_row) results results' :
  NoDup (map row_key input_data) ->
  _parallel_fun rnd input_data results ->
  _parallel_fun rnd input_data results' ->
  results = results'.
Proof.
  intros Hnd H H'.
  rewrite (parallel_fun_in_order _ _ Hnd H), (parallel_fun_in_order _ _ Hnd H').
  reflexivity.
Qed.

(** X20. When the rows have pairwise distinct keys and the sequential loop
    over them ends without an exception, _parallel_fun returns the
    dictionaries the loop leaves. *)
Theorem parallel_fun_agrees_with_loop
    (input_data : list catalogue_row) wet clear printed results :
  NoDup (map row_key input_data) ->
  for_rows rnd input_data ∅ ∅ = (wet, clear, inr printed) ->
  _parallel_fun rnd input_data results ->
  results = (wet, clear).
Proof.
  intros Hnd Hloop H.
  rewrite (parallel_fun_in_order _ _ Hnd H).
  pose proof (for_rows_stores input_data ∅ ∅) as Hs. rewrite Hloop in Hs.
  destruct Hs as [Hs _]. symmetry. exact Hs.
Qed.

End DriverFacts.

Lemma for_rows_stops_at_first_error_witness :
  exists done row rest printed,
    failing_catalogue = done ++ row :: rest /\
    for_rows exact done ∅ ∅
    = ({[ "137387171_8"%string := 0 ]}, {[ "137387171_8"%string := 1 ]},
       inr printed) /\
    get_wofs_for_point exact (row_MONTH row) (row_PLOT_ID row) (row_s2_data row)
      {[ "137387171_8"%string := 0 ]} {[ "137387171_8"%string := 1 ]}
    = ({[ "137387171_8"%string := 0 ]}, {[ "137387171_8"%string := 1 ]},
       inl ValueError).
Proof.
  apply (for_rows_stops_at_first_error exact failing_catalogue ∅ ∅).
  vm_compute. reflexivity.
Defined.

Lemma parallel_fun_keys_witness :
  dom ({[ "137387171_8"%string := 0; "137387172_10"%string := 0 ]} : gmap string Z)
  = dom ({[ "137387171_8"%string := 1; "137387172_10"%string := 1 ]} : gmap string Z)
  /\ forall k,
       k ∈ dom ({[ "137387171_8"%string := 0; "137387172_10"%string := 0 ]}
                 : gmap string Z)
       <-> exists row, row ∈ sample_catalogue /\ row_key row = k
                       /\ records exact row = true.
Proof.
  apply (parallel_fun_keys exact sample_catalogue).
  exists [ store_wet "137387172_10" 0; store_wet "137387171_8" 0;
           store_clear "137387171_8" 1; store_clear "137387172_10" 1 ].
  split; [|vm_compute; reflexivity].
  vm_compute.
  apply (interleave_step [_] [] _ [_]).
  apply (interleave_step [] [_] _ [_]).
  apply (interleave_step [] [_] _ []).
  apply (interleave_step [_] [] _ []).
  apply interleave_done. repeat constructor.
Defined.

Lemma parallel_fun_schedule_free_witness :
  run_stores [ store_wet "137387171_8" 0; store_clear "137387171_8" 1;
               store_wet "137387172_10" 0; store_clear "137387172_10" 1 ]
    (∅, ∅)
  = run_stores [ store_wet "137387172_10" 0; store_wet "137387171_8" 0;
                 store_clear "137387171_8" 1; store_clear "137387172_10" 1 ]
      (∅, ∅).
Proof.
  apply (parallel_fun_schedule_free exact sample_catalogue).
  - apply (bool_decide_unpack (NoDup (map row_key sample_catalogue))).
    vm_compute. exact I.
  - eexists. split; [|reflexivity]. vm_compute.
    apply (interleave_step [] [_] _ [_]).
    apply (interleave_step [] [_] _ []).
    apply (interleave_step [_] [] _ [_]).
    apply (interleave_step [_] [] _ []).
    apply interleave_done. repeat constructor.
  - eexists. split; [|reflexivity]. vm_compute.
    apply (interleave_step [_] [] _ [_]).
    apply (interleave_step [] [_] _ [_]).
    apply (interleave_step [] [_] _ []).
    apply (interleave_step [_] [] _ []).
    apply interleave_done. repeat constructor.
Defined.

Lemma parallel_fun_agrees_with_loop_witness :
  run_stores [ store_wet "137387172_10" 0; store_wet "137387171_8" 0;
               store_clear "137387171_8" 1; store_clear "137387172_10" 1 ]
    (∅, ∅)
  = ({[ "137387171_8"%string := 0; "137387172_10"%string := 0 ]},
     {[ "137387171_8"%string := 1; "137387172_10"%string := 1 ]}).
Proof.
  apply (parallel_fun_agrees_with_loop exact sample_catalogue _ _
           [ Some ("2018-08", "2018-08-06"); Some ("2018-10", "2018-10-06") ]%string).
  - apply (bool_decide_unpack (NoDup (map row_key sample_catalogue))).
    vm_compute. exact I.
  - vm_compute. reflexivity.
  - eexists. split; [|reflexivity]. vm_compute.
    apply (interleave_step [_] [] _ [_]).
    apply (interleave_step [] [_] _ [_]).
    apply (interleave_step [] [_] _ []).
    apply (interleave_step [_] [] _ []).
    apply interleave_done. repeat constructor.
Defined.

(** ** The merged table *)






Section TableFacts.
Variable rnd : dtype -> Q -> Q.















End TableFacts.



(** ** The accuracy report *)

Lemma existsb_elem_of {A} (f : A -> Z) (t : list A) (c : Z) :
  existsb (fun o => f o =? c) t = bool_decide (c ∈ map f t).
Proof.
  induction t as [|o t IH]; cbn [existsb map].
  - symmetry. apply bool_decide_eq_false_2. inversion 1.
  - rewrite IH. destruct (Z.eqb_spec (f o) c) as [->|Hne]; cbn [orb].
    + symmetry. apply bool_decide_eq_true_2. left.
    + destruct (bool_decide (c ∈ map f t)) eqn:E.
      * apply bool_decide_eq_true in E. symmetry. apply bool_decide_eq_true_2.
        right. exact E.
      * apply bool_decide_eq_false in E. symmetry. apply bool_decide_eq_false_2.
        intros [?|?]%elem_of_cons; [congruence|contradiction].
Qed.

Lemma class_label_elem (vs : list Z) (c : Z) :
  LInt c ∈ map LInt (unique_sorted vs) ++ [LStr "All"] <-> c ∈ vs.
Proof.
  rewrite elem_of_app, <- unique_sorted_elem. split.
  - intros [H|H].
    + apply list_elem_of_fmap in H as (c' & E & H). injection E as ->. exact H.
    + apply list_elem_of_singleton in H. discriminate H.
  - intros H. left. apply list_elem_of_fmap. eauto.
Qed.

Lemma crosstab_has_row (t : list obs) (c : Z) :
  bool_decide (LInt c ∈ df_index (crosstab_table t))
  = existsb (fun o => ACTUAL o =? c) t.
Proof.
  rewrite existsb_elem_of. apply bool_decide_ext. apply class_label_elem.
Qed.

Lemma crosstab_has_column (t : list obs) (c : Z) :
  bool_decide (LInt c ∈ df_columns (crosstab_table t))
  = existsb (fun o => PREDICTION o =? c) t.
Proof.
  rewrite existsb_elem_of. apply bool_decide_ext. apply class_label_elem.
Qed.

Lemma crosstab_has_All (t : list obs) :
  bool_decide (LStr "All" ∈ df_columns (crosstab_table t)) = true.
Proof.
  apply bool_decide_eq_true_2. cbn [crosstab_table df_columns].
  apply elem_of_app. right. left.
Qed.

(** X24. On a season that has rows but lacks a class among its ACTUAL or
    among its PREDICTION values, the accuracy cells raise KeyError and no
    accuracy is computed: KeyError 0 when class 0 is missing, otherwise
    KeyError 1.  On a season without rows pd.crosstab raises ValueError
    before any cell is looked up. *)
Theorem accuracy_matrix_needs_both_classes rnd (Wet_Season : list obs) :
  both_classes Wet_Season = false ->
  accuracy_matrix rnd Wet_Season
  = inl (match Wet_Season with
         | [] => ValueError
         | _ :: _ =>
             KeyError (if existsb (fun o => ACTUAL o =? 0) Wet_Season
                          && existsb (fun o => PREDICTION o =? 0) Wet_Season
                       then "1" else "0")
         end).
Proof.
  destruct Wet_Season as [|o season]; [reflexivity|].
  set (t := o :: season).
  unfold both_classes, accuracy_matrix, All.
  change (crosstab t) with (inr (B:=DataFrame) (A:=exn) (crosstab_table t)).
  cbn [bind]. unfold loc at 1 2. rewrite !crosstab_has_row.
  destruct (existsb (fun o => ACTUAL o =? 0) t); [|reflexivity].
  cbn [bind ret]. unfold at_label at 1 2. cbn [s_index].
  rewrite !crosstab_has_column, crosstab_has_All.
  destruct (existsb (fun o => PREDICTION o =? 0) t); [|reflexivity].
  cbn [bind ret]. unfold loc at 1 2. rewrite !crosstab_has_row.
  destruct (existsb (fun o => ACTUAL o =? 1) t); [|reflexivity].
  cbn [bind ret]. unfold at_label at 1. cbn [s_index].
  rewrite !crosstab_has_column.
  destruct (existsb (fun o => PREDICTION o =? 1) t); [|reflexivity].
  discriminate.
Qed.

Lemma accuracy_matrix_needs_both_classes_witness :
  accuracy_matrix exact water_only_season = inl (KeyError "0").
Proof.
  apply (accuracy_matrix_needs_both_classes exact water_only_season).
  reflexivity.
Defined.

Lemma binary_table_season (input_data : list obs) (months : list Z) :
  binary_table input_data = true ->
  binary_table (season_rows input_data months) = true.
Proof.
  unfold binary_table, season_rows. rewrite !forallb_forall.
  intros H o Ho. apply filter_In in Ho as [Ho _]. apply H, Ho.
Qed.

Lemma accuracy_report_cells rnd (input_data : list obs) (months : list Z) :
  binary_table input_data = true ->
  both_classes (season_rows input_data months) = true ->
  exists report f,
    accuracy_report rnd input_data months = inr report /\
    f1_score rnd input_data = inr f /\
    df_index report = [LInt 0; LInt 1; All; User's; F_score] /\
    df_columns report = [LInt 0; LInt 1; All; Producer's] /\
    df_cell report F_score (LInt 1) = f /\
    df_cell report F_score (LInt 0)
    = (let u0 := percent rnd (matrix (season_rows input_data months) 0 0)
                   (colTotal (season_rows input_data months) 0) in
       let p0 := percent rnd (matrix (season_rows input_data months) 0 0)
                   (rowTotal (season_rows input_data months) 0) in
       div64 rnd (div64 rnd (mul64 rnd (FNum 2) (mul64 rnd u0 p0))
                            (add64 rnd u0 p0))
                 (FNum 100)) /\
    df_cell report F_score All = FNaN /\
    df_cell report F_score Producer's = FNaN.
Proof.
  intros Hall Hboth.
  pose proof (binary_table_season _ months Hall) as Hbin.
  pose proof (both_classes_In _ Hboth) as (Ha0 & Ha1 & Hp0 & Hp1).
  cbv zeta. unfold percent.
  rewrite <- !row_margin, <- !col_margin by exact Hbin.
  unfold accuracy_report. fold (season_rows input_data months).
  set (Ws := season_rows input_data months) in *.
  unfold f1_score. unfold binary_table in Hall. rewrite Hall.
  assert (Hrows : crosstab Ws = inr (crosstab_table Ws))
    by (destruct Ws; [destruct Ha0|reflexivity]).
  unfold accuracy_matrix. rewrite Hrows. cbn [bind]. unfold crosstab_table.
  rewrite (unique_sorted_binary (map ACTUAL Ws)), (unique_sorted_binary (map PREDICTION Ws));
    try assumption.
  2:{ intros v Hv. apply in_map_iff in Hv as (o & <- & Ho).
      apply (binary_table_In _ Hbin), Ho. }
  2:{ intros v Hv. apply in_map_iff in Hv as (o & <- & Ho).
      apply (binary_table_In _ Hbin), Ho. }
  set (cell := fun r c => FNum (inject_Z (Z.of_nat (length
     (List.filter (fun o => selects r (ACTUAL o) && selects c (PREDICTION o)) Ws))))).
  eexists. eexists. split; [reflexivity|]. split; [reflexivity|].
  split; [reflexivity|]. split; [reflexivity|]. split; [reflexivity|].
  split; [reflexivity|]. split; reflexivity.
Qed.

(** X25. For a table with labels in {0, 1} whose season has both classes,
    the report is built: its rows are 0, 1, All, User's, F-score and its
    columns 0, 1, All, Producer's; the second value of the F-score row is
    the F1 score of all rows of input_data, for whatever season was
    selected, and the F-score row is NaN under All and Producer's. *)
Theorem accuracy_report_layout rnd (input_data : list obs) (months : list Z) :
  binary_table input_data = true ->
  both_classes (season_rows input_data months) = true ->
  exists report f,
    accuracy_report rnd input_data months = inr report /\
    f1_score rnd input_data = inr f /\
    df_index report = [LInt 0; LInt 1; All; User's; F_score] /\
    df_columns report = [LInt 0; LInt 1; All; Producer's] /\
    df_cell report F_score (LInt 1) = f /\
    df_cell report F_score All = FNaN /\
    df_cell report F_score Producer's = FNaN.
Proof.
  intros Hall Hboth.
  destruct (accuracy_report_cells rnd input_data months Hall Hboth)
    as (report & f & Hr & Hf & Hi & Hc & H1 & _ & HA & HP).
  exists report, f. auto 10.
Qed.

Lemma accuracy_report_layout_witness :
  exists report f,
    accuracy_report exact two_season_table WetMonth = inr report /\
    f1_score exact two_season_table = inr f /\
    df_index report = [LInt 0; LInt 1; All; User's; F_score] /\
    df_columns report = [LInt 0; LInt 1; All; Producer's] /\
    df_cell report F_score (LInt 1) = f /\
    df_cell report F_score All = FNaN /\
    df_cell report F_score Producer's = FNaN.
Proof.
  apply (accuracy_report_layout exact two_season_table WetMonth); reflexivity.
Defined.

Lemma Qeq_bool_pos (q : Q) : (0 < q)%Q -> Qeq_bool q 0 = false.
Proof.
  intros H. destruct (Qeq_bool q 0) eqn:E; [|reflexivity].
  apply Qeq_bool_iff in E. rewrite E in H. discriminate H.
Qed.

Lemma Qdiv_pos (a b : Q) : (0 < a)%Q -> (0 < b)%Q -> (0 < a / b)%Q.
Proof.
  intros Ha Hb. apply Qlt_shift_div_l; [exact Hb|]. rewrite Qmult_0_l. exact Ha.
Qed.

Lemma harmonic_percent (a b c : Q) :
  (0 < a)%Q -> (0 <= b)%Q -> (0 <= c)%Q ->
  let u := (a / (a + c) * 100)%Q in
  let p := (a / (a + b) * 100)%Q in
  (0 < u + p)%Q /\
  (2 * (u * p) / (u + p) / 100 == 2 * a / (2 * a + b + c))%Q.
Proof.
  intros Ha Hb Hc u p.
  assert (Hu : (0 < u)%Q).
  { unfold u. apply Qmult_lt_0_compat; [|reflexivity].
    apply Qdiv_pos; [exact Ha|lra]. }
  assert (Hp : (0 < p)%Q).
  { unfold p. apply Qmult_lt_0_compat; [|reflexivity].
    apply Qdiv_pos; [exact Ha|lra]. }
  split; [lra|].
  unfold u, p. field. repeat split; try lra.
  assert (H1 : (0 < a * 100 * (a + b))%Q)
    by (repeat apply Qmult_lt_0_compat; lra).
  assert (H2 : (0 < a * 100 * (a + c))%Q)
    by (repeat apply Qmult_lt_0_compat; lra).
  lra.
Qed.

Lemma matrix_pos (t : list obs) (o : obs) :
  In o t -> 0 < matrix t (ACTUAL o) (PREDICTION o).
Proof.
  intros Hin. unfold matrix.
  assert (Hf : In o (List.filter
    (fun o' => (ACTUAL o' =? ACTUAL o) && (PREDICTION o' =? PREDICTION o)) t)).
  { apply filter_In. split; [exact Hin|]. rewrite !Z.eqb_refl. reflexivity. }
  destruct (List.filter _ t); [destruct Hf|cbn [length]; lia].
Qed.

(** X26. In exact arithmetic the first value of the F-score row is the F1
    score of class 0 as a fraction, 2*n00 / (2*n00 + n01 + n10); when no row
    of the season has ACTUAL 0 and PREDICTION 0 it is NaN. *)
Theorem fscore_is_class0_f1 (input_data : list obs) (months : list Z) :
  binary_table input_data = true ->
  both_classes (season_rows input_data months) = true ->
  exists report,
    accuracy_report exact input_data months = inr report /\
    if matrix (season_rows input_data months) 0 0 =? 0
    then df_cell report F_score (LInt 0) = FNaN
    else feq (df_cell report F_score (LInt 0))
           (FNum (2 * inject_Z (matrix (season_rows input_data months) 0 0)
                  / (2 * inject_Z (matrix (season_rows input_data months) 0 0)
                     + inject_Z (matrix (season_rows input_data months) 0 1)
                     + inject_Z (matrix (season_rows input_data months) 1 0))))
         = true.
Proof.
  intros Hall Hboth.
  destruct (accuracy_report_cells exact input_data months Hall Hboth)
    as (report & f & Hr & _ & _ & _ & _ & H0 & _).
  exists report. split; [exact Hr|]. rewrite H0. clear H0 Hr report f.
  set (Ws := season_rows input_data months) in *.
  cbv zeta. unfold percent, mul64, div64, add64, exact, colTotal, rowTotal.
  rewrite !inject_Z_plus.
  assert (Hn00 : 0 <= matrix Ws 0 0) by (unfold matrix; lia).
  assert (Hn01 : 0 <= matrix Ws 0 1) by (unfold matrix; lia).
  assert (Hn10 : 0 <= matrix Ws 1 0) by (unfold matrix; lia).
  assert (Hrow : 0 < matrix Ws 0 0 + matrix Ws 0 1).
  { apply both_classes_In in Hboth as (Ha0 & _).
    apply in_map_iff in Ha0 as (o & Ho & Hin).
    pose proof (binary_table_In _ (binary_table_season _ months Hall) o Hin) as [_ Hp].
    pose proof (matrix_pos Ws o Hin) as Hpos. rewrite Ho in Hpos.
    destruct Hp as [Hp|Hp]; rewrite Hp in Hpos; lia. }
  assert (Hcol : 0 < matrix Ws 0 0 + matrix Ws 1 0).
  { apply both_classes_In in Hboth as (_ & _ & Hp0 & _).
    apply in_map_iff in Hp0 as (o & Ho & Hin).
    pose proof (binary_table_In _ (binary_table_season _ months Hall) o Hin) as [Ha _].
    pose proof (matrix_pos Ws o Hin) as Hpos. rewrite Ho in Hpos.
    destruct Ha as [Ha|Ha]; rewrite Ha in Hpos; lia. }
  set (n00 := matrix Ws 0 0) in *. set (n01 := matrix Ws 0 1) in *.
  set (n10 := matrix Ws 1 0) in *. clearbody n00 n01 n10.
  assert (Qr : (0 < inject_Z n00 + inject_Z n01)%Q)
    by (rewrite <- inject_Z_plus; change 0%Q with (inject_Z 0); rewrite <- Zlt_Qlt; lia).
  assert (Qc : (0 < inject_Z n00 + inject_Z n10)%Q)
    by (rewrite <- inject_Z_plus; change 0%Q with (inject_Z 0); rewrite <- Zlt_Qlt; lia).
  assert (Q01 : (0 <= inject_Z n01)%Q)
    by (change 0%Q with (inject_Z 0); rewrite <- Zle_Qle; lia).
  assert (Q10 : (0 <= inject_Z n10)%Q)
    by (change 0%Q with (inject_Z 0); rewrite <- Zle_Qle; lia).
  cbn [fdiv fmul fadd].
  rewrite (Qeq_bool_pos _ Qr), (Qeq_bool_pos _ Qc).
  cbn [fdiv fmul fadd].
  destruct (Z.eqb_spec n00 0) as [->|Hne].
  - change (inject_Z 0) with 0%Q in *.
    match goal with |- context [Qeq_bool ?q 0] =>
      assert (E : Qeq_bool q 0 = true) by (apply Qeq_bool_iff; field; lra) end.
    rewrite E.
    match goal with |- context [Qeq_bool ?q 0] =>
      assert (E' : Qeq_bool q 0 = true) by (apply Qeq_bool_iff; field; lra) end.
    rewrite E'. reflexivity.
  - assert (Q00 : (0 < inject_Z n00)%Q)
      by (change 0%Q with (inject_Z 0); rewrite <- Zlt_Qlt; lia).
    destruct (harmonic_percent _ _ _ Q00 Q01 Q10) as [Hsum Heq].
    rewrite (Qeq_bool_pos _ Hsum). cbn [feq].
    apply Qeq_bool_iff. exact Heq.
Qed.

Lemma fscore_is_class0_f1_witness :
  exists report,
    accuracy_report exact two_season_table WetMonth = inr report /\
    if matrix (season_rows two_season_table WetMonth) 0 0 =? 0
    then df_cell report F_score (LInt 0) = FNaN
    else feq (df_cell report F_score (LInt 0))
           (FNum (2 * inject_Z (matrix (season_rows two_season_table WetMonth) 0 0)
                  / (2 * inject_Z (matrix (season_rows two_season_table WetMonth) 0 0)
                     + inject_Z (matrix (season_rows two_season_table WetMonth) 0 1)
                     + inject_Z (matrix (season_rows two_season_table WetMonth) 1 0))))
         = true.
Proof.
  apply (fscore_is_class0_f1 two_season_table WetMonth); reflexivity.
Defined.

Lemma percent_range (n d : Z) :
  0 <= n <= d -> 0 < d ->
  exists q, percent exact n d = FNum q /\ (0 <= q <= 100)%Q.
Proof.
  intros Hn Hd. unfold percent, mul64, div64, exact.
  assert (Qd : (0 < inject_Z d)%Q)
    by (change 0%Q with (inject_Z 0); rewrite <- Zlt_Qlt; lia).
  assert (Qn : (0 <= inject_Z n)%Q)
    by (change 0%Q with (inject_Z 0); rewrite <- Zle_Qle; lia).
  assert (Qnd : (inject_Z n <= inject_Z d)%Q) by (rewrite <- Zle_Qle; lia).
  cbn [fdiv]. rewrite (Qeq_bool_pos _ Qd). cbn [fmul].
  eexists. split; [reflexivity|].
  assert (H0 : (0 <= inject_Z n / inject_Z d)%Q).
  { apply Qle_shift_div_l; [exact Qd|]. rewrite Qmult_0_l. exact Qn. }
  assert (H1 : (inject_Z n / inject_Z d <= 1)%Q).
  { apply Qle_shift_div_r; [exact Qd|]. rewrite Qmult_1_l. exact Qnd. }
  split; lra.
Qed.

(** X28. In exact arithmetic, for a season with labels in {0, 1} and both
    classes, the two producer's accuracies, the two user's accuracies and
    the overall accuracy are finite numbers between 0 and 100. *)
Theorem accuracies_are_percentages (Wet_Season : list obs) :
  binary_table Wet_Season = true ->
  both_classes Wet_Season = true ->
  exists report,
    accuracy_matrix exact Wet_Season = inr report /\
    forall r c,
      (r, c) ∈ [(LInt 0, Producer's); (LInt 1, Producer's);
                (User's, LInt 0); (User's, LInt 1); (User's, Producer's)] ->
      exists q, df_cell report r c = FNum q /\ (0 <= q <= 100)%Q.
Proof.
  intros Hbin Hboth.
  destruct (accuracy_matrix_cells exact Wet_Season Hbin Hboth)
    as (report & Hr & Hp0 & Hp1 & Hu0 & Hu1 & Ho).
  exists report. split; [exact Hr|].
  assert (Hpos : forall o, In o Wet_Season ->
            0 < matrix Wet_Season (ACTUAL o) (PREDICTION o))
    by (intros o; apply matrix_pos).
  assert (Hnn : forall a p, 0 <= matrix Wet_Season a p)
    by (intros; unfold matrix; lia).
  pose proof (Hnn 0 0). pose proof (Hnn 0 1). pose proof (Hnn 1 0). pose proof (Hnn 1 1).
  apply both_classes_In in Hboth as (Ha0 & Ha1 & Hq0 & Hq1).
  assert (Hcls : forall (f : obs -> Z) v, In v (map f Wet_Season) ->
            exists o, In o Wet_Season /\ f o = v /\
              (ACTUAL o = 0 \/ ACTUAL o = 1) /\ (PREDICTION o = 0 \/ PREDICTION o = 1)).
  { intros f v (o & E & Hin)%in_map_iff. exists o.
    split; [exact Hin|]. split; [exact E|]. apply (binary_table_In _ Hbin), Hin. }
  assert (Hr0 : 0 < rowTotal Wet_Season 0).
  { destruct (Hcls _ _ Ha0) as (o & Hin & E & _ & Hp). specialize (Hpos o Hin).
    rewrite E in Hpos. unfold rowTotal. destruct Hp as [Hp|Hp]; rewrite Hp in Hpos; lia. }
  assert (Hr1 : 0 < rowTotal Wet_Season 1).
  { destruct (Hcls _ _ Ha1) as (o & Hin & E & _ & Hp). specialize (Hpos o Hin).
    rewrite E in Hpos. unfold rowTotal. destruct Hp as [Hp|Hp]; rewrite Hp in Hpos; lia. }
  assert (Hc0 : 0 < colTotal Wet_Season 0).
  { destruct (Hcls _ _ Hq0) as (o & Hin & E & Ha & _). specialize (Hpos o Hin).
    rewrite E in Hpos. unfold colTotal. destruct Ha as [Ha|Ha]; rewrite Ha in Hpos; lia. }
  assert (Hc1 : 0 < colTotal Wet_Season 1).
  { destruct (Hcls _ _ Hq1) as (o & Hin & E & Ha & _). specialize (Hpos o Hin).
    rewrite E in Hpos. unfold colTotal. destruct Ha as [Ha|Ha]; rewrite Ha in Hpos; lia. }
  intros r c Hrc.
  repeat (apply elem_of_cons in Hrc as [Hrc|Hrc];
          [injection Hrc as -> ->|]); [..|inversion Hrc].
  - rewrite Hp0. apply percent_range; unfold rowTotal in *; lia.
  - rewrite Hp1. apply percent_range; unfold rowTotal in *; lia.
  - rewrite Hu0. apply percent_range; unfold colTotal in *; lia.
  - rewrite Hu1. apply percent_range; unfold colTotal in *; lia.
  - rewrite Ho.
    change (add64 exact (FNum (inject_Z (matrix Wet_Season 0 0)))
                        (FNum (inject_Z (matrix Wet_Season 1 1))))
      with (FNum (inject_Z (matrix Wet_Season 0 0) + inject_Z (matrix Wet_Season 1 1))).
    assert (E : (inject_Z (matrix Wet_Season 0 0) + inject_Z (matrix Wet_Season 1 1)
                 = inject_Z (matrix Wet_Season 0 0 + matrix Wet_Season 1 1))%Q).
    { unfold inject_Z, Qplus. cbn. f_equal. lia. }
    rewrite E.
    apply (percent_range (matrix Wet_Season 0 0 + matrix Wet_Season 1 1)
             (grandTotal Wet_Season));
      unfold grandTotal, rowTotal in *; lia.
Qed.

Lemma accuracies_are_percentages_witness :
  exists report,
    accuracy_matrix exact scenario_season = inr report /\
    forall r c,
      (r, c) ∈ [(LInt 0, Producer's); (LInt 1, Producer's);
                (User's, LInt 0); (User's, LInt 1); (User's, Producer's)] ->
      exists q, df_cell report r c = FNum q /\ (0 <= q <= 100)%Q.
Proof. apply (accuracies_are_percentages scenario_season); reflexivity. Defined.

(** ** Counts per plot *)

Lemma first_appearance_elem (vs : list Z) (v : Z) :
  v ∈ first_appearance vs <-> v ∈ vs.
Proof.
  unfold first_appearance.
  rewrite elem_of_reverse, elem_of_remove_dups, elem_of_reverse. reflexivity.
Qed.

Lemma first_appearance_NoDup (vs : list Z) : NoDup (first_appearance vs).
Proof.
  unfold first_appearance. rewrite reverse_Permutation. apply NoDup_remove_dups.
Qed.

Lemma last_filter_some (t : list obs) (p : Z) :
  p ∈ map PLOT_ID t ->
  exists o before after,
    last (List.filter (fun o => PLOT_ID o =? p) t) = Some o /\
    PLOT_ID o = p /\ t = before ++ o :: after /\
    Forall (fun o' => PLOT_ID o' <> p) after.
Proof.
  induction t as [|o t IH]; cbn [map List.filter].
  - inversion 1.
  - intros Hin.
    destruct (decide (p ∈ map PLOT_ID t)) as [Ht|Ht].
    + destruct (IH Ht) as (o' & before & after & Hl & Hp & -> & Hall).
      exists o', (o :: before), after.
      split; [|split; [exact Hp|split; [reflexivity|exact Hall]]].
      destruct (PLOT_ID o =? p); [|exact Hl].
      destruct (List.filter _ _) as [|x l] eqn:E; [discriminate Hl|].
      exact Hl.
    + apply elem_of_cons in Hin as [Hp|Hin]; [|contradiction].
      symmetry in Hp.
      assert (Hnone : List.filter (fun o => PLOT_ID o =? p) t = []).
      { clear -Ht. induction t as [|o' t IH]; [reflexivity|].
        cbn [List.filter map] in *.
        destruct (Z.eqb_spec (PLOT_ID o') p) as [E|E].
        - exfalso. apply Ht. rewrite E. left.
        - apply IH. intros H. apply Ht. right. exact H. }
      exists o, [], t. rewrite Hnone.
      rewrite (proj2 (Z.eqb_eq _ _) Hp).
      split; [reflexivity|]. split; [exact Hp|]. split; [reflexivity|].
      apply Forall_forall. intros o' Ho' E. apply Ht.
      rewrite <- E. apply list_elem_of_fmap. eauto.
Qed.

Lemma groupby_last_plots (t : list obs) :
  map PLOT_ID (groupby_last t) = first_appearance (map PLOT_ID t).
Proof.
  unfold groupby_last.
  assert (H : forall p, p ∈ first_appearance (map PLOT_ID t) -> p ∈ map PLOT_ID t)
    by (intros p; apply first_appearance_elem).
  induction (first_appearance (map PLOT_ID t)) as [|p ps IH]; [reflexivity|].
  cbn [omap list_omap].
  destruct (last_filter_some t p) as (o & _ & _ & -> & Hp & _);
    [apply H; left|].
  cbn [map]. rewrite Hp, IH; [reflexivity|].
  intros q Hq. apply H. right. exact Hq.
Qed.

Lemma last_valid_spec (column : raw_obs -> option Z) (rows : list raw_obs)
    (v : Z) :
  last_valid column rows = Some v <-> is_last_valid column rows v.
Proof.
  unfold last_valid, is_last_valid.
  induction rows as [|o rows IH] using rev_ind.
  - split; [discriminate|].
    intros (b & o & a & E & _). destruct b; discriminate E.
  - rewrite omap_app. cbn [omap list_omap].
    destruct (column o) as [w|] eqn:Ec.
    + rewrite last_snoc. split.
      * intros [= <-]. exists rows, o, []. auto.
      * intros (b & o' & a & E & Ho' & Ha).
        destruct a as [|x a _] using rev_ind.
        -- apply app_inj_tail in E as [_ <-]. congruence.
        -- rewrite app_comm_cons, app_assoc in E.
           apply app_inj_tail in E as [_ <-].
           apply Forall_app in Ha as [_ Hx]. apply Forall_inv in Hx.
           congruence.
    + rewrite app_nil_r, IH. split.
      * intros (b & o' & a & -> & Ho' & Ha).
        exists b, o', (a ++ [o]). rewrite <- app_assoc.
        split; [reflexivity|]. split; [exact Ho'|].
        apply Forall_app. split; [exact Ha|].
        constructor; [exact Ec|constructor].
      * intros (b & o' & a & E & Ho' & Ha).
        destruct a as [|x a _] using rev_ind.
        -- apply app_inj_tail in E as [_ <-]. congruence.
        -- rewrite app_comm_cons, app_assoc in E.
           apply app_inj_tail in E as [-> _].
           apply Forall_app in Ha as [Ha _].
           exists b, o', a. auto.
Qed.

Lemma plot_rows_complete (t0 : list obs) (p : Z) :
  plot_rows (map complete t0) (Some p)
  = map complete (List.filter (fun o => PLOT_ID o =? p) t0).
Proof.
  unfold plot_rows. induction t0 as [|o t0 IH]; [reflexivity|].
  cbn [map List.filter complete raw_PLOT_ID].
  destruct (Z.eqb_spec (PLOT_ID o) p) as [E|E].
  - rewrite bool_decide_eq_true_2 by congruence.
    cbn [map]. rewrite IH. reflexivity.
  - rewrite bool_decide_eq_false_2 by congruence. exact IH.
Qed.

Lemma last_valid_complete (column : raw_obs -> option Z) (f : obs -> Z)
    (rows : list obs) :
  (forall o, column (complete o) = Some (f o)) ->
  last_valid column (map complete rows) = f <$> last rows.
Proof.
  intros Hc. unfold last_valid.
  induction rows as [|o rows IH] using rev_ind; [reflexivity|].
  rewrite map_app, omap_app. cbn [map omap list_omap]. rewrite Hc.
  rewrite !last_snoc. reflexivity.
Qed.

Lemma groupby_last_complete (t0 : list obs) :
  groupby_last_valid (map complete t0) = map complete (groupby_last t0).
Proof.
  unfold groupby_last_valid, groupby_last.
  assert (Hids : omap raw_PLOT_ID (map complete t0) = map PLOT_ID t0).
  { induction t0 as [|o t0 IH]; [reflexivity|]. cbn. rewrite IH. reflexivity. }
  rewrite Hids.
  assert (H : forall p, p ∈ first_appearance (map PLOT_ID t0) ->
                        p ∈ map PLOT_ID t0)
    by (intros p; apply first_appearance_elem).
  induction (first_appearance (map PLOT_ID t0)) as [|p ps IH]; [reflexivity|].
  cbn [map omap list_omap].
  destruct (last_filter_some t0 p) as (o & _ & _ & Hl & Hp & _);
    [apply H; left|].
  rewrite Hl. cbn [map]. rewrite IH by (intros q Hq; apply H; right; exact Hq).
  f_equal. rewrite plot_rows_complete.
  rewrite (last_valid_complete raw_MONTH MONTH),
          (last_valid_complete raw_ACTUAL ACTUAL),
          (last_valid_complete raw_PREDICTION PREDICTION) by reflexivity.
  rewrite Hl. unfold complete. rewrite Hp. reflexivity.
Qed.

Lemma groupby_last_valid_ids (t : list raw_obs) :
  map raw_PLOT_ID (groupby_last_valid t)
  = map Some (first_appearance (omap raw_PLOT_ID t)).
Proof.
  unfold groupby_last_valid. rewrite map_map. reflexivity.
Qed.

(** X29. The count table groupby('PLOT_ID', as_index=False,
    sort=False).last() of a table whose cells may be missing has exactly
    one row per plot id that occurs in the table (rows without plot id are
    left out), and a cell of that row holds the last value of its column
    within the plot that is not missing, which need not stand in the last
    row of the plot.  For a table without missing values the row is the
    last row of its plot. *)
Theorem groupby_last_one_row_per_plot (t : list raw_obs) :
  NoDup (map raw_PLOT_ID (groupby_last_valid t))
  /\ (forall id, id ∈ map raw_PLOT_ID (groupby_last_valid t)
        <-> exists p, id = Some p /\ id ∈ map raw_PLOT_ID t)
  /\ (forall r column v,
        r ∈ groupby_last_valid t ->
        column ∈ [raw_MONTH; raw_ACTUAL; raw_PREDICTION] ->
        column r = Some v
        <-> is_last_valid column (plot_rows t (raw_PLOT_ID r)) v)
  /\ (forall t0, t = map complete t0 ->
        groupby_last_valid t = map complete (groupby_last t0)
        /\ forall o, o ∈ groupby_last t0 ->
             exists before after,
               t0 = before ++ o :: after /\
               Forall (fun o' => PLOT_ID o' <> PLOT_ID o) after).
Proof.
  assert (Hid : forall p, p ∈ omap raw_PLOT_ID t
                          <-> Some p ∈ map raw_PLOT_ID t).
  { intros p. rewrite list_elem_of_omap, list_elem_of_fmap.
    split; intros (o & H1 & H2); exists o; auto. }
  split; [|split; [|split]].
  - rewrite groupby_last_valid_ids.
    apply (NoDup_fmap_2 Some), first_appearance_NoDup.
  - intros id. rewrite groupby_last_valid_ids, list_elem_of_fmap. split.
    + intros (p & -> & Hp). exists p. split; [reflexivity|].
      apply Hid, first_appearance_elem, Hp.
    + intros (p & -> & Hp). exists p. split; [reflexivity|].
      apply first_appearance_elem, Hid, Hp.
  - intros r column v Hr Hc. rewrite <- last_valid_spec.
    unfold groupby_last_valid in Hr.
    apply list_elem_of_fmap in Hr as (p & -> & _). cbn [raw_PLOT_ID].
    repeat (apply elem_of_cons in Hc as [->|Hc]; [reflexivity|]).
    inversion Hc.
  - intros t0 ->. split; [apply groupby_last_complete|].
    intros o Ho. unfold groupby_last in Ho.
    apply list_elem_of_omap in Ho as (p & Hp & Hl).
    apply (proj1 (first_appearance_elem _ _)) in Hp.
    destruct (last_filter_some t0 p Hp)
      as (o' & before & after & Hl' & E & Ht & Hall).
    rewrite Hl' in Hl. injection Hl as ->.
    exists before, after. rewrite E. auto.
Qed.

(** On the table with gaps the row of plot 1 takes its ACTUAL label from
    the first row of the plot, as the second one has none, and its other
    cells from the second row. *)
Lemma groupby_last_one_row_per_plot_witness :
  groupby_last_valid gappy_table
  = [ mk_raw_obs (Some 1) (Some 4) (Some 1) (Some 0) ]
  /\ (forall v,
        raw_ACTUAL (mk_raw_obs (Some 1) (Some 4) (Some 1) (Some 0)) = Some v
        <-> is_last_valid raw_ACTUAL (plot_rows gappy_table (Some 1)) v).
Proof.
  split; [reflexivity|]. intros v.
  apply (proj1 (proj2 (proj2 (groupby_last_one_row_per_plot gappy_table)))
           (mk_raw_obs (Some 1) (Some 4) (Some 1) (Some 0)) raw_ACTUAL v).
  - vm_compute. left.
  - right. left.
Defined.

(** X30. The rows of Wet_Season and of Dry_Season add up to the rows of
    input_data, while a plot is counted in both season counts exactly when
    it has a row in a wet month and a row in another month; so the count of
    plots is at most the sum of the two season counts. *)
Theorem season_counts_overlap (input_data : list obs) (months : list Z) :
  (length (season_rows input_data months) + length (dry_rows input_data months)
   = length input_data)%nat
  /\ (length (groupby_last input_data)
      <= length (groupby_last (season_rows input_data months))
         + length (groupby_last (dry_rows input_data months)))%nat
  /\ forall p,
       (p ∈ map PLOT_ID (groupby_last (season_rows input_data months))
        /\ p ∈ map PLOT_ID (groupby_last (dry_rows input_data months)))
       <-> exists o o', o ∈ input_data /\ o' ∈ input_data
                        /\ PLOT_ID o = p /\ PLOT_ID o' = p
                        /\ MONTH o ∈ months /\ MONTH o' ∉ months.
Proof.
  assert (Hw : forall o, o ∈ season_rows input_data months
                 <-> o ∈ input_data /\ MONTH o ∈ months).
  { intros o. unfold season_rows. split.
    - intros H. apply list_elem_of_In, filter_In in H as [H1 H2].
      apply bool_decide_eq_true in H2. split; [apply list_elem_of_In, H1|exact H2].
    - intros [H1 H2]. apply list_elem_of_In, filter_In.
      split; [apply list_elem_of_In, H1|apply bool_decide_eq_true_2, H2]. }
  assert (Hd : forall o, o ∈ dry_rows input_data months
                 <-> o ∈ input_data /\ MONTH o ∉ months).
  { intros o. unfold dry_rows. split.
    - intros H. apply list_elem_of_In, filter_In in H as [H1 H2].
      apply negb_true_iff, bool_decide_eq_false in H2.
      split; [apply list_elem_of_In, H1|exact H2].
    - intros [H1 H2]. apply list_elem_of_In, filter_In.
      split; [apply list_elem_of_In, H1|].
      apply negb_true_iff, bool_decide_eq_false_2, H2. }
  assert (Hplots : forall t p, p ∈ map PLOT_ID (groupby_last t)
                     <-> exists o, o ∈ t /\ PLOT_ID o = p).
  { intros t p. rewrite groupby_last_plots, first_appearance_elem.
    rewrite list_elem_of_fmap. split; intros (o & H1 & H2); eauto. }
  split; [|split].
  - clear Hw Hd Hplots. unfold season_rows, dry_rows.
    induction input_data as [|o t IH]; [reflexivity|].
    cbn [List.filter]. destruct (bool_decide _); cbn [negb length]; lia.
  - rewrite <- (length_map PLOT_ID (groupby_last input_data)).
    rewrite <- (length_map PLOT_ID (groupby_last (season_rows _ _))).
    rewrite <- (length_map PLOT_ID (groupby_last (dry_rows _ _))).
    rewrite <- length_app. apply submseteq_length, NoDup_submseteq.
    + rewrite groupby_last_plots. apply first_appearance_NoDup.
    + intros p (o & Ho & Hp)%Hplots. apply elem_of_app.
      destruct (decide (MONTH o ∈ months)) as [Hm|Hm].
      * left. apply Hplots. exists o. split; [apply Hw; auto|exact Hp].
      * right. apply Hplots. exists o. split; [apply Hd; auto|exact Hp].
  - intros p. rewrite !Hplots. split.
    + intros [(o & Ho & Hp) (o' & Ho' & Hp')].
      apply Hw in Ho as [Ho Hm]. apply Hd in Ho' as [Ho' Hm'].
      exists o, o'. auto 10.
    + intros (o & o' & Ho & Ho' & Hp & Hp' & Hm & Hm'). split.
      * exists o. split; [apply Hw; auto|exact Hp].
      * exists o'. split; [apply Hd; auto|exact Hp'].
Qed.
